(** * The spotloader download orchestrator, its registry and its batch layer

    A shallow embedding of [deezspot/spotloader/__download__.py] and of
    [deezspot/__taggers__.py]: the process-wide registry of in-flight files,
    the per-item orchestrator [EASY_DW], the tag writer [write_tags] and the
    two batch aggregators [DW_ALBUM] and [DW_PLAYLIST].

    Python code that mutates globals, touches the disk, reports progress or
    raises is written in a state-and-exception monad [M]; what the code asks
    of libraries that are not part of the repository (mutagen, librespot,
    ffmpeg, requests, the path builder) is gathered in the record
    [collaborators]. *)

From Stdlib Require Import Ascii.
From stdpp Require Import base option list sorting gmap strings pretty.

Local Open Scope string_scope.
Local Open Scope list_scope.
Local Open Scope nat_scope.

(** ** Python strings and POSIX paths *)

Module Py.

Definition lower_ascii (c : ascii) : ascii :=
  let n := nat_of_ascii c in
  if (65 <=? n)%nat && (n <=? 90)%nat then ascii_of_nat (n + 32) else c.

(** [str.lower], on ASCII text. *)
Fixpoint lower (s : string) : string :=
  match s with
  | EmptyString => EmptyString
  | String c s' => String (lower_ascii c) (lower s')
  end.

(** [s.startswith(pre)] *)
Definition startswith (s pre : string) : bool := String.prefix pre s.

(** [s.endswith(suf)] *)
Definition endswith (s suf : string) : bool :=
  (String.length suf <=? String.length s)%nat &&
  String.eqb (String.substring (String.length s - String.length suf) (String.length suf) s) suf.

(** [sub in s] *)
Fixpoint contains (sub s : string) : bool :=
  String.prefix sub s ||
  match s with
  | EmptyString => false
  | String _ s' => contains sub s'
  end.

(** [s.replace(old, new)] for a non-empty [old]: occurrences are replaced
    from the left and do not overlap; [skip] counts the characters of a
    match that are still to be dropped. *)
Fixpoint replace_from (old new : string) (skip : nat) (s : string) : string :=
  match s with
  | EmptyString => EmptyString
  | String c s' =>
      match skip with
      | S k => replace_from old new k s'
      | O =>
          if String.prefix old s
          then new +:+ replace_from old new (String.length old - 1) s'
          else String c (replace_from old new 0 s')
      end
  end.

Definition replace (s old new : string) : string := replace_from old new 0 s.

(** The part of [s] up to and including its last slash. *)
Fixpoint head_slash (s : string) : option string :=
  match s with
  | EmptyString => None
  | String c s' =>
      match head_slash s' with
      | Some h => Some (String c h)
      | None => if Ascii.eqb c "/" then Some "/" else None
      end
  end.

(** The part of [s] after its last slash. *)
Fixpoint basename (s : string) : string :=
  match s with
  | EmptyString => EmptyString
  | String c s' =>
      match head_slash s' with
      | Some _ => basename s'
      | None => if Ascii.eqb c "/" then s' else s
      end
  end.

Fixpoint all_slashes (s : string) : bool :=
  match s with
  | EmptyString => true
  | String c s' => Ascii.eqb c "/" && all_slashes s'
  end.

(** [s.rstrip("/")] *)
Fixpoint rstrip_slash (s : string) : string :=
  match s with
  | EmptyString => EmptyString
  | String c s' => if all_slashes s then EmptyString else String c (rstrip_slash s')
  end.

(** [posixpath.dirname] *)
Definition dirname (p : string) : string :=
  match head_slash p with
  | None => EmptyString
  | Some h => if all_slashes h then h else rstrip_slash h
  end.

(** [posixpath.join] of two components *)
Definition join (a b : string) : string :=
  if startswith b "/" then b
  else if String.eqb a "" || endswith a "/" then a +:+ b
  else a +:+ "/" +:+ b.

(** Truthiness of a [str] and of an optional [str]. *)
Definition truthy (s : string) : bool := negb (String.eqb s "").
Definition truthy_opt (o : option string) : bool :=
  match o with Some s => truthy s | None => false end.

End Py.

(** ** Exceptions and results *)

(** A Python exception is its class name and its message; [str(e)] is the
    message.  [TrackNotFound] is the only class a handler selects by name. *)
Inductive exn :=
| TrackNotFound (msg : string)
| PyError (cls : string) (msg : string).

Definition str_exn (e : exn) : string :=
  match e with
  | TrackNotFound m => m
  | PyError _ m => m
  end.

Inductive result (A : Type) :=
| Ok (a : A)
| Raise (e : exn).
Arguments Ok {A} a.
Arguments Raise {A} e.

Definition is_ok {A} (r : result A) : bool :=
  match r with Ok _ => true | Raise _ => false end.

(** ** Data model *)

Abbreviation path := string (only parsing).
Abbreviation bytes := string (only parsing).

(** The cover-art entry of a metadata mapping: a URL as the catalog returns
    it, or the image bytes once [easy_dw] or [DW_ALBUM.dw] has fetched it. *)
Inductive image_ref :=
| ImageUrl (url : string)
| ImageBytes (b : bytes).

(** The metadata mapping of one item, restricted to the keys the orchestrator
    reads.  [music], [artist] and [album] are keys every resolved item has. *)
Record song_metadata := SongMetadata {
  music : string;
  artist : string;
  album : string;
  md_ids : string;
  image : image_ref;
  duration : option Z;
  nb_tracks : nat
}.

Definition set_image (i : image_ref) (m : song_metadata) : song_metadata :=
  {| music := music m; artist := artist m; album := album m; md_ids := md_ids m;
     image := i; duration := duration m; nb_tracks := nb_tracks m |}.

(** Modelled from the spec: the [Track] class of [deezspot.models] is not
    under src/.  A Media Result carries the metadata mapping, the resolved
    output path, the container format, the quality label, the source link,
    the catalog id, a [success] flag and a [was_skipped] flag; a result that
    nobody marks is a success that was not skipped. *)
Record Track := MkTrack {
  tags : song_metadata;
  song_path : option path;
  file_format : option string;
  quality : option string;
  link : option string;
  ids : option string;
  md5_image : option string;
  success : bool;
  was_skipped : bool
}.

Definition Track_init (tags : song_metadata) (song_path : option path)
    (file_format quality link ids : option string) : Track :=
  {| tags := tags; song_path := song_path; file_format := file_format;
     quality := quality; link := link; ids := ids; md5_image := None;
     success := true; was_skipped := false |}.

Definition set_success (b : bool) (t : Track) : Track :=
  {| tags := tags t; song_path := song_path t; file_format := file_format t;
     quality := quality t; link := link t; ids := ids t; md5_image := md5_image t;
     success := b; was_skipped := was_skipped t |}.

Definition set_was_skipped (b : bool) (t : Track) : Track :=
  {| tags := tags t; song_path := song_path t; file_format := file_format t;
     quality := quality t; link := link t; ids := ids t; md5_image := md5_image t;
     success := success t; was_skipped := b |}.

Definition set_md5_image (i : option string) (t : Track) : Track :=
  {| tags := tags t; song_path := song_path t; file_format := file_format t;
     quality := quality t; link := link t; ids := ids t; md5_image := i;
     success := success t; was_skipped := was_skipped t |}.

Definition set_tags (m : song_metadata) (t : Track) : Track :=
  {| tags := m; song_path := song_path t; file_format := file_format t;
     quality := quality t; link := link t; ids := ids t; md5_image := md5_image t;
     success := success t; was_skipped := was_skipped t |}.

Definition set_track_path (p : option path) (t : Track) : Track :=
  {| tags := tags t; song_path := p; file_format := file_format t;
     quality := quality t; link := link t; ids := ids t; md5_image := md5_image t;
     success := success t; was_skipped := was_skipped t |}.

(** Modelled from the spec: the [Episode] class of [deezspot.models] is not
    under src/; the tag writer reads its path, its tags and its format. *)
Record Episode := MkEpisode {
  ep_tags : song_metadata;
  episode_path : option path;
  ep_file_format : option string
}.

(** What [write_tags] may be handed: a track, an episode, or an object of
    another class (named by its type). *)
Inductive media :=
| MTrack (t : Track)
| MEpisode (e : Episode)
| MOther (type_name : string).

(** The path of the file a media object stands for. *)
Definition media_path (m : media) : option string :=
  match m with
  | MTrack t => song_path t
  | MEpisode e => episode_path e
  | MOther _ => None
  end.

(** ** Progress events *)

Inductive status :=
| initializing | progress | real_time | retrying | skipped | error | done.

Inductive parent_kind := album_parent | playlist_parent.

Record track_event := TrackEvent {
  te_status : status;
  te_song : string;
  te_artist : string;
  te_url : string;
  te_retry : option (nat * nat);       (* retry_count, seconds_left *)
  te_error : option string;
  te_parent : option (parent_kind * nat) (* parent type, current_track *)
}.

Inductive event :=
| EvTrack (e : track_event)
| EvBatch (kind : parent_kind) (st : status) (name : string) (total : nat)
          (counts : option (nat * nat)). (* successful_tracks, failed_tracks *)

Definition event_status (e : event) : status :=
  match e with
  | EvTrack t => te_status t
  | EvBatch _ st _ _ _ => st
  end.

(** What an observer of the process sees, in order: the events handed to
    [Download_JOB.report_progress] and the calls of [time.sleep]. *)
Inductive action :=
| Report (e : event)
| Sleep (seconds : nat).

(** ** Active-Item Registry (module globals) *)

Record registry := Registry {
  ACTIVE_DOWNLOADS : gset string;
  CLEANUP_LOCK : bool;
  CURRENT_DOWNLOAD : option string
}.

Definition registry_empty : registry :=
  {| ACTIVE_DOWNLOADS := ∅; CLEANUP_LOCK := false; CURRENT_DOWNLOAD := None |}.

Definition set_lock (b : bool) (r : registry) : registry :=
  {| ACTIVE_DOWNLOADS := ACTIVE_DOWNLOADS r; CLEANUP_LOCK := b;
     CURRENT_DOWNLOAD := CURRENT_DOWNLOAD r |}.

Definition register_active_download (file_path : path) (r : registry) : registry :=
  {| ACTIVE_DOWNLOADS := {[file_path]} ∪ ACTIVE_DOWNLOADS r;
     CLEANUP_LOCK := CLEANUP_LOCK r;
     CURRENT_DOWNLOAD := Some file_path |}.

Definition unregister_active_download (file_path : path) (r : registry) : registry :=
  if bool_decide (file_path ∈ ACTIVE_DOWNLOADS r) then
    {| ACTIVE_DOWNLOADS := ACTIVE_DOWNLOADS r ∖ {[file_path]};
       CLEANUP_LOCK := CLEANUP_LOCK r;
       CURRENT_DOWNLOAD :=
         if bool_decide (CURRENT_DOWNLOAD r = Some file_path) then None
         else CURRENT_DOWNLOAD r |}
  else r.

(** ** Process state *)

Definition GLOBAL_MAX_RETRIES : nat := 100.

(** The disk is modelled by its regular files. *)
Record state := State {
  disk : gmap string bytes;
  reg : registry;
  GLOBAL_RETRY_COUNT : nat;
  feeder_calls : nat;
  trace : list action;
  logs : list string
}.

Definition set_disk (d : gmap string bytes) (s : state) : state :=
  {| disk := d; reg := reg s;
     GLOBAL_RETRY_COUNT := GLOBAL_RETRY_COUNT s; feeder_calls := feeder_calls s;
     trace := trace s; logs := logs s |}.

Definition set_reg (r : registry) (s : state) : state :=
  {| disk := disk s; reg := r;
     GLOBAL_RETRY_COUNT := GLOBAL_RETRY_COUNT s; feeder_calls := feeder_calls s;
     trace := trace s; logs := logs s |}.

Definition set_retry_count (n : nat) (s : state) : state :=
  {| disk := disk s; reg := reg s;
     GLOBAL_RETRY_COUNT := n; feeder_calls := feeder_calls s;
     trace := trace s; logs := logs s |}.

Definition set_feeder_calls (n : nat) (s : state) : state :=
  {| disk := disk s; reg := reg s;
     GLOBAL_RETRY_COUNT := GLOBAL_RETRY_COUNT s; feeder_calls := n;
     trace := trace s; logs := logs s |}.

Definition set_trace (t : list action) (s : state) : state :=
  {| disk := disk s; reg := reg s;
     GLOBAL_RETRY_COUNT := GLOBAL_RETRY_COUNT s; feeder_calls := feeder_calls s;
     trace := t; logs := logs s |}.

Definition set_logs (l : list string) (s : state) : state :=
  {| disk := disk s; reg := reg s;
     GLOBAL_RETRY_COUNT := GLOBAL_RETRY_COUNT s; feeder_calls := feeder_calls s;
     trace := trace s; logs := l |}.

(** ** The monad of effectful Python code *)

Definition M (A : Type) : Type := state → result A * state.

Definition ret {A} (a : A) : M A := λ s, (Ok a, s).

Definition bind {A B} (m : M A) (f : A → M B) : M B := λ s,
  match m s with
  | (Ok a, s') => f a s'
  | (Raise e, s') => (Raise e, s')
  end.

Declare Scope py_scope.
Notation "x ← y ; z" := (bind y (λ x, z)) : py_scope.
Notation "y ;; z" := (bind y (λ _, z)) : py_scope.
Local Open Scope py_scope.

Definition raise {A} (e : exn) : M A := λ s, (Raise e, s).

(** [try: body  except Exception as e: handler e] *)
Definition try_except {A} (body : M A) (handler : exn → M A) : M A := λ s,
  match body s with
  | (Ok a, s') => (Ok a, s')
  | (Raise e, s') => handler e s'
  end.

(** [try: body  except TrackNotFound: handler] *)
Definition try_except_TrackNotFound {A} (body : M A) (handler : M A) : M A := λ s,
  match body s with
  | (Ok a, s') => (Ok a, s')
  | (Raise (TrackNotFound m), s') => handler s'
  | (Raise e, s') => (Raise e, s')
  end.

Definition lift {A} (r : result A) : M A := λ s, (r, s).
Definition gets {A} (f : state → A) : M A := λ s, (Ok (f s), s).
Definition modify (f : state → state) : M unit := λ s, (Ok tt, f s).
Definition when (b : bool) (m : M unit) : M unit := if b then m else ret tt.

(** *** Primitive effects *)

Definition report_progress (e : event) : M unit :=
  modify (λ s, set_trace (trace s ++ [Report e]) s).

Definition sleep (seconds : nat) : M unit :=
  modify (λ s, set_trace (trace s ++ [Sleep seconds]) s).

Definition log (msg : string) : M unit :=
  modify (λ s, set_logs (logs s ++ [msg]) s).

Definition os_path_exists (p : path) : M bool :=
  gets (λ s, bool_decide (is_Some (disk s !! p))).

(** [os.remove]: the file must be there. *)
Definition os_remove (p : path) : M unit := λ s,
  match disk s !! p with
  | Some _ => (Ok tt, set_disk (delete p (disk s)) s)
  | None => (Raise (PyError "FileNotFoundError" p), s)
  end.

(** [os.replace(src, dst)]: moves the file, over an existing [dst] if any.
    The disk holds files only, so the directory of [dst] is taken to be
    there; the one caller, [__convert_audio], moves between the output path
    and the temporary path, and the properties that need the move to
    succeed say that the two lie in one directory. *)
Definition os_replace (src dst : path) : M unit := λ s,
  match disk s !! src with
  | Some c => (Ok tt, set_disk (<[dst := c]> (delete src (disk s))) s)
  | None => (Raise (PyError "FileNotFoundError" src), s)
  end.

(** [open(p, mode)] of a file for writing: the operating system may refuse
    the path; otherwise the file is there, truncated ([w], [wb]) or kept
    ([a]). *)
Definition open_truncate (refused : string → bool) (p : path) : M unit := λ s,
  if refused p then (Raise (PyError "OSError" p), s)
  else (Ok tt, set_disk (<[p := ""]> (disk s)) s).

Definition open_append (refused : string → bool) (p : path) : M unit := λ s,
  if refused p then (Raise (PyError "OSError" p), s)
  else (Ok tt, set_disk (<[p := default "" (disk s !! p)]> (disk s)) s).

(** [f.write(data)] on the file opened at [p]. *)
Definition file_write (p : path) (data : bytes) : M unit :=
  modify (λ s, set_disk (<[p := default "" (disk s !! p) +:+ data]> (disk s)) s).

Definition register (p : path) : M unit :=
  modify (λ s, set_reg (register_active_download p (reg s)) s).

Definition unregister (p : path) : M unit :=
  modify (λ s, set_reg (unregister_active_download p (reg s)) s).

(** ** Crash cleanup *)

(** [cleanup_active_downloads] *)
Definition cleanup_active_downloads : M unit := λ s,
  if CLEANUP_LOCK (reg s) then (Ok tt, s)
  else
    (modify (λ s, set_reg (set_lock true (reg s)) s);;
     match CURRENT_DOWNLOAD (reg s) with
     | Some current =>
         if Py.truthy current then
           try_except
             (b ← os_path_exists current;
              if b then
                log "Removing incomplete download";;
                os_remove current;;
                unregister current
              else ret tt)
             (λ e, log "Error cleaning up file")
         else ret tt
     | None => ret tt
     end;;
     modify (λ s, set_reg (set_lock false (reg s)) s)) s.

(** [signal_handler]: the cleanup, then [sys.exit(0)], which runs the exit
    hook registered with [atexit], the same cleanup again. *)
Definition signal_handler : M unit :=
  log "Received termination signal. Cleaning up...";;
  cleanup_active_downloads;;
  cleanup_active_downloads.

(** The state of a process that has just started, on an empty disk. *)
Definition st0 : state :=
  {| disk := ∅; reg := registry_empty; GLOBAL_RETRY_COUNT := 0;
     feeder_calls := 0; trace := []; logs := [] |}.

(** A registry with a pending current file that is not on disk. *)
Definition st_pending : state :=
  set_reg (register_active_download "out/a.ogg" registry_empty) st0.

(** The current pointer, when set, is a member of the active set. *)
Definition current_is_active (r : registry) : Prop :=
  ∀ p, CURRENT_DOWNLOAD r = Some p → p ∈ ACTIVE_DOWNLOADS r.


(** ** Collaborators *)

(** The handle [load_track] returns: the declared size of the stream and
    what [c_stream.read(total_size)] gives. *)
Record stream := Stream {
  input_size : nat;
  input_read : result bytes
}.

(** The chunked real-time copy paces itself on the wall clock and computes
    its percentages in floating point; it is taken by its outcome: the bytes
    that reached the file, the [real-time] events and pacing sleeps, and the
    exception that interrupted it, if any. *)
Record paced := Paced {
  paced_written : bytes;
  paced_actions : list action;
  paced_error : option exn
}.

(** [os.system] of the ffmpeg command: ffmpeg wrote the output file, or it
    failed and wrote nothing (a non-zero exit status, which [os.system]
    returns and the caller drops), or the call itself raised. *)
Inductive ffmpeg_outcome :=
| FFmpegWrote (out : bytes)
| FFmpegNoOutput
| SystemRaised (e : exn).

Record collaborators := Collaborators {
  (* deezspot.libutils.utils.set_path: metadata, output_dir, quality, format *)
  set_path : song_metadata → string → string → string → string;
  (* deezspot.spotloader.spotify_settings.qualities: n_quality, f_format, s_quality *)
  qualities : string → option (string * string * string);
  (* requests.get(url) with raise_for_status, then .content *)
  request : string → result string;
  (* TrackId.from_base62, content_feeder().load_track, input_stream: ids,
     quality, number of earlier calls *)
  load_track : string → string → nat → result stream;
  paced_copy : stream → Z → paced;
  (* mutagen.File(path): whether it recognises the content *)
  mutagen_File : string → string → result bool;
  (* mutagen readers by container *)
  EasyID3 : string → result (gmap string (list string));
  OggVorbis : string → result (gmap string (list string));
  FLAC : string → result (gmap string (list string));
  MP4 : string → result (gmap string (list string));
  (* mutagen writers: format, metadata, cover bytes, old content; give the
     content left in the file and the exception raised on the way, if any *)
  mutagen_save : string → song_metadata → string → string → string * option exn;
  ffmpeg : string → ffmpeg_outcome;
  (* deezspot.libutils.audio_converter *)
  parse_format_string : string → result (option string * option string);
  convert_audio : string → string → option string → gmap string string → registry →
                  result string * (gmap string string * registry);
  (* deezspot.libutils.utils.create_zip: the archive name and its content *)
  create_zip : list Track → option string → result (string * string);
  (* os.path.relpath(path, start) *)
  relpath : string → string → string;
  (* the paths at which the operating system refuses to open a file for
     writing or to list a directory *)
  refused : string → bool
}.

(** ** Request descriptor *)

(** The playlist mapping a playlist download carries along for reporting. *)
Record playlist_json := PlaylistJson {
  js_title : option string;
  js_creator_name : option string;
  js_nb_tracks : option nat
}.

Record Preferences := MkPreferences {
  pf_ids : string;
  pf_link : string;
  pf_output_dir : string;
  pf_song_metadata : song_metadata;
  pf_quality_download : option string;
  pf_real_time_dl : bool;
  pf_convert_to : option string;
  pf_initial_retry_delay : option nat;
  pf_retry_delay_increase : option nat;
  pf_max_retries : option nat;
  pf_track_number : option nat;
  pf_json_data : option playlist_json;
  pf_make_zip : bool
}.

(** [deepcopy(preferences)] followed by the assignments of the item's catalog
    id, metadata, link, playlist mapping and position. *)
Definition item_preferences (base : Preferences) (item_ids item_link : string)
    (m : song_metadata) (json : option playlist_json) (number : nat) : Preferences :=
  {| pf_ids := item_ids; pf_link := item_link; pf_output_dir := pf_output_dir base;
     pf_song_metadata := m; pf_quality_download := pf_quality_download base;
     pf_real_time_dl := pf_real_time_dl base; pf_convert_to := pf_convert_to base;
     pf_initial_retry_delay := pf_initial_retry_delay base;
     pf_retry_delay_increase := pf_retry_delay_increase base;
     pf_max_retries := pf_max_retries base;
     pf_track_number := Some number; pf_json_data := json;
     pf_make_zip := pf_make_zip base |}.

(** ** The per-item orchestrator, class [EASY_DW] *)

Record EASY_DW := MkEASY_DW {
  self_preferences : Preferences;
  self_parent : option parent_kind;
  self_song_metadata : song_metadata;
  self_dw_quality : string;
  self_file_format : string;
  self_song_quality : string;
  self_song_path : string;
  self_c_track : Track
}.

Definition set_self_path (p : string) (self : EASY_DW) : EASY_DW :=
  {| self_preferences := self_preferences self; self_parent := self_parent self;
     self_song_metadata := self_song_metadata self;
     self_dw_quality := self_dw_quality self; self_file_format := self_file_format self;
     self_song_quality := self_song_quality self; self_song_path := p;
     self_c_track := self_c_track self |}.

Definition set_self_track (t : Track) (self : EASY_DW) : EASY_DW :=
  {| self_preferences := self_preferences self; self_parent := self_parent self;
     self_song_metadata := self_song_metadata self;
     self_dw_quality := self_dw_quality self; self_file_format := self_file_format self;
     self_song_quality := self_song_quality self; self_song_path := self_song_path self;
     self_c_track := t |}.

Definition set_self_metadata (m : song_metadata) (self : EASY_DW) : EASY_DW :=
  {| self_preferences := self_preferences self; self_parent := self_parent self;
     self_song_metadata := m;
     self_dw_quality := self_dw_quality self; self_file_format := self_file_format self;
     self_song_quality := self_song_quality self; self_song_path := self_song_path self;
     self_c_track := self_c_track self |}.

Section Orchestrator.

Variable W : collaborators.

(** [EASY_DW.__write_track]: [__set_song_path], then a fresh [Track] with
    its [md5_image]. *)
Definition __write_track (self : EASY_DW) : EASY_DW :=
  let p := set_path W (self_song_metadata self)
             (pf_output_dir (self_preferences self))
             (self_song_quality self) (self_file_format self) in
  let t := Track_init (self_song_metadata self) (Some p)
             (Some (self_file_format self)) (Some (self_song_quality self))
             (Some (pf_link (self_preferences self)))
             (Some (pf_ids (self_preferences self))) in
  set_self_track (set_md5_image (Some (pf_ids (self_preferences self))) t)
    (set_self_path p self).

(** [EASY_DW.__init__] of a track: the quality table is indexed with
    [preferences.quality_download or "NORMAL"]. *)
Definition EASY_DW_init (preferences : Preferences) (parent : option parent_kind)
    : result EASY_DW :=
  let quality_download :=
    match pf_quality_download preferences with
    | Some q => if Py.truthy q then q else "NORMAL"
    | None => "NORMAL"
    end in
  match qualities W quality_download with
  | None => Raise (PyError "KeyError" quality_download)
  | Some (n_quality, f_format, s_quality) =>
      Ok (__write_track
            {| self_preferences := preferences; self_parent := parent;
               self_song_metadata := pf_song_metadata preferences;
               self_dw_quality := n_quality; self_file_format := f_format;
               self_song_quality := s_quality; self_song_path := "";
               self_c_track :=
                 Track_init (pf_song_metadata preferences) None None None None None |})
  end.

(** *** Progress events of a track *)

(** The parent block: a playlist parent needs the playlist mapping on the
    preferences; the position is [getattr(preferences, "track_number", 0)]. *)
Definition parent_info (self : EASY_DW) : option (parent_kind * nat) :=
  let current_track := default 0 (pf_track_number (self_preferences self)) in
  match self_parent self with
  | Some playlist_parent =>
      match pf_json_data (self_preferences self) with
      | Some _ => Some (playlist_parent, current_track)
      | None => None
      end
  | Some album_parent => Some (album_parent, current_track)
  | None => None
  end.

Definition track_progress (self : EASY_DW) (st : status)
    (retry : option (nat * nat)) (err : option string) : event :=
  EvTrack {| te_status := st;
             te_song := music (self_song_metadata self);
             te_artist := artist (self_song_metadata self);
             te_url := pf_link (self_preferences self);
             te_retry := retry; te_error := err;
             te_parent := parent_info self |}.

(** *** Existence check *)

(** [audio.get(key, [None])[0]] *)
Definition first_tag (t : gmap string (list string)) (key : string)
    : result (option string) :=
  match t !! key with
  | None => Ok None
  | Some [] => Raise (PyError "IndexError" "list index out of range")
  | Some (x :: _) => Ok (Some x)
  end.

(** The keys of an MP4 container start with the copyright sign. *)
Definition mp4_nam : string := String (ascii_of_nat 169) "nam".
Definition mp4_alb : string := String (ascii_of_nat 169) "alb".

Definition read_title_album (reader : string → result (gmap string (list string)))
    (title_key album_key : string) (content : string)
    : result (option string * option string) :=
  match reader content with
  | Raise e => Raise e
  | Ok audio =>
      match first_tag audio title_key with
      | Raise e => Raise e
      | Ok title =>
          match first_tag audio album_key with
          | Raise e => Raise e
          | Ok album => Ok (title, album)
          end
      end
  end.

(** In the MP3 branch the reads sit in a [try] of their own, and what was
    assigned before the failure stays assigned. *)
Definition read_mp3 (content : string) : M (option string * option string) :=
  match EasyID3 W content with
  | Raise e => log "Error reading MP3 metadata";; ret (None, None)
  | Ok audio =>
      match first_tag audio "title" with
      | Raise e => log "Error reading MP3 metadata";; ret (None, None)
      | Ok title =>
          match first_tag audio "album" with
          | Raise e => log "Error reading MP3 metadata";; ret (title, None)
          | Ok album => ret (title, album)
          end
      end
  end.

(** [EASY_DW.read_metadata] *)
Definition read_metadata (file_path : string) : M (option string * option string) :=
  try_except
    (content ← gets (λ s, disk s !! file_path);
     match content with
     | None => ret (None, None)
     | Some content =>
         audio ← lift (mutagen_File W file_path content);
         if negb audio then ret (None, None)
         else if Py.endswith file_path ".mp3" then read_mp3 content
         else if Py.endswith file_path ".ogg" then
           lift (read_title_album (OggVorbis W) "title" "album" content)
         else if Py.endswith file_path ".flac" then
           lift (read_title_album (FLAC W) "title" "album" content)
         else if Py.endswith file_path ".m4a" then
           lift (read_title_album (MP4 W) mp4_nam mp4_alb content)
         else ret (None, None)
     end)
    (λ e, log "Error reading metadata";; ret (None, None)).

(** The names [os.listdir] gives for a directory: the files right in it. *)
Definition entries (dir : string) (d : gmap string string) : list string :=
  Py.basename <$> filter (λ p, Py.dirname p = dir) (fst <$> map_to_list d).

(** [os.path.exists] at a directory path: the directory is there when some
    file is in it (an empty directory and a missing one list the same). *)
Definition dir_exists (dir : string) : M bool :=
  gets (λ s, Py.truthy dir && bool_decide (entries dir (disk s) ≠ [])).

Definition os_listdir (dir : string) : M (list string) := λ s,
  if refused W dir then (Raise (PyError "PermissionError" dir), s)
  else (Ok (entries dir (disk s)), s).

Definition audio_extensions : list string :=
  [".mp3"; ".ogg"; ".flac"; ".wav"; ".m4a"; ".opus"].

(** [file.lower().endswith((".mp3", ...))] *)
Definition has_audio_extension (file : string) : bool :=
  existsb (Py.endswith (Py.lower file)) audio_extensions.

(** The [for] loop of [track_exists] over the directory entries. *)
Fixpoint scan_directory (final_dir title album : string) (files : list string) : M bool :=
  match files with
  | [] => ret false
  | file :: rest =>
      if has_audio_extension file then
        found ← read_metadata (Py.join final_dir file);
        if bool_decide (found.1 = Some title) && bool_decide (found.2 = Some album)
        then log "Found existing track";; ret true
        else scan_directory final_dir title album rest
      else scan_directory final_dir title album rest
  end.

(** [EASY_DW.track_exists]; the constructor has set the path, and a falsy
    path is recomputed by the same pure function. *)
Definition track_exists (self : EASY_DW) (title album : string) : M bool :=
  try_except
    (let song_path :=
       if Py.truthy (self_song_path self) then self_song_path self
       else self_song_path (__write_track self) in
     let final_dir := Py.dirname song_path in
     there ← dir_exists final_dir;
     if negb there then ret false
     else
       files ← os_listdir final_dir;
       scan_directory final_dir title album files)
    (λ e, log "Error checking if track exists";; ret false).

(** *** Tag writer, [deezspot/__taggers__.py] *)

(** A writer opens the file with mutagen, rewrites its tags and saves it;
    whatever it raises on the way, the file holds what mutagen left. *)
Definition mutagen_write (fmt song : string) (data : song_metadata) (cover : string)
    : M unit := λ s,
  match disk s !! song with
  | None => (Raise (PyError "MutagenError" song), s)
  | Some old =>
      let '(new, failure) := mutagen_save W fmt data cover old in
      (match failure with None => Ok tt | Some e => Raise e end,
       set_disk (<[song := new]> (disk s)) s)
  end.

(** The cover of the FLAC and OGG writers: the bytes of the mapping, or the
    download of its URL, or nothing when the download fails. *)
Definition cover_or_download (data : song_metadata) : M string :=
  match image data with
  | ImageBytes b => ret b
  | ImageUrl url =>
      if Py.startswith url "http" then
        try_except (lift (request W url))
          (λ e, log "Failed to download image";; ret "")
      else ret ""
  end.

(** [__write_flac] *)
Definition __write_flac (song : string) (data : song_metadata) : M unit :=
  try_except
    (cover ← cover_or_download data;
     mutagen_write ".flac" song data cover)
    (λ e, log "Error writing FLAC tags").

(** [__write_mp3]: only a cover given as bytes is embedded. *)
Definition __write_mp3 (song : string) (data : song_metadata) : M unit :=
  try_except
    (let cover := match image data with ImageBytes b => b | ImageUrl _ => "" end in
     mutagen_write ".mp3" song data cover)
    (λ e, log "Error writing MP3 tags").

(** [__write_ogg] *)
Definition __write_ogg (song : string) (song_metadata : song_metadata) : M unit :=
  try_except
    (cover ← try_except (cover_or_download song_metadata)
               (λ e, log "Error adding cover art";; ret "");
     mutagen_write ".ogg" song song_metadata cover)
    (λ e, log "Error writing OGG tags").

(** The body of [write_tags] once the path, the mapping and the format of
    the media are at hand. *)
Definition tag_file (song : option string) (song_metadata : song_metadata)
    (f_format : option string) : M unit :=
  match song with
  | None => log "Media has no path set, skipping tag writing"
  | Some song =>
      if negb (Py.truthy song)
      then log "Media has no path set, skipping tag writing"
      else
        is_file ← os_path_exists song;
        if negb is_file then log "File does not exist"
        else
          (if bool_decide (f_format = Some ".flac") then __write_flac song song_metadata
           else if bool_decide (f_format = Some ".ogg") then __write_ogg song song_metadata
           else __write_mp3 song song_metadata);;
          log "Successfully wrote tags"
  end.

(** [write_tags] *)
Definition write_tags (m : media) : M unit :=
  try_except
    (match m with
     | MTrack t => tag_file (song_path t) (tags t) (file_format t)
     | MEpisode e => tag_file (episode_path e) (ep_tags e) (ep_file_format e)
     | MOther type_name => log "Unsupported media type"
     end)
    (λ e, log "Error writing tags").

(** *** Conversion pipeline *)

(** [system(ffmpeg_cmd)]: copy the streams of [src] into [dst]. *)
Definition system_ffmpeg (src dst : string) : M unit := λ s,
  match disk s !! src with
  | None => (Ok tt, s)
  | Some content =>
      match ffmpeg W content with
      | FFmpegWrote out => (Ok tt, set_disk (<[dst := out]> (disk s)) s)
      | FFmpegNoOutput => (Ok tt, s)
      | SystemRaised e => (Raise e, s)
      end
  end.

Definition run_convert_audio (p format_name : string) (bitrate : option string)
    : M string := λ s,
  let '(r, (d, g)) := convert_audio W p format_name bitrate (disk s) (reg s) in
  (r, set_reg g (set_disk d s)).

(** The second step of [__convert_audio]: transcode when a target format
    was asked for; a failure of the converter is logged and dropped. *)
Definition transcode (self : EASY_DW) : M EASY_DW :=
  match pf_convert_to (self_preferences self) with
  | None => ret self
  | Some target =>
      if negb (Py.truthy target) then ret self
      else
        parsed ← lift (parse_format_string W target);
        match parsed.1 with
        | None => ret self
        | Some format_name =>
            if negb (Py.truthy format_name) then ret self
            else
              try_except
                (converted_path ← run_convert_audio (self_song_path self)
                                    format_name parsed.2;
                 if bool_decide (converted_path ≠ self_song_path self) then
                   ret (set_self_track
                          (set_track_path (Some converted_path) (self_c_track self))
                          (set_self_path converted_path self))
                 else ret self)
                (λ conv_error, log "Audio conversion error";; ret self)
        end
  end.

(** [EASY_DW.__convert_audio] *)
Definition __convert_audio (self : EASY_DW) : M EASY_DW :=
  let temp_filename := Py.replace (self_song_path self) ".ogg" ".tmp" in
  os_replace (self_song_path self) temp_filename;;
  register temp_filename;;
  try_except
    (system_ffmpeg temp_filename (self_song_path self);;
     register (self_song_path self);;
     temp_there ← os_path_exists temp_filename;
     when temp_there (os_remove temp_filename;; unregister temp_filename);;
     transcode self)
    (λ e,
       temp_there ← os_path_exists temp_filename;
       song_there ← os_path_exists (self_song_path self);
       when (temp_there && negb song_there)
         (os_replace temp_filename (self_song_path self));;
       temp_there ← os_path_exists temp_filename;
       when temp_there (os_remove temp_filename;; unregister temp_filename);;
       raise e).

(** *** Stream acquisition, write, conversion, tagging: [download_try] *)

Definition remove_if_exists (p : string) : M unit :=
  there ← os_path_exists p;
  when there (os_remove p).

(** [Exception(f"Maximum retry limit reached (local: ..., global: ...).")] *)
Definition max_retries_exceeded (local global : nat) : exn :=
  PyError "Exception"
    ("Maximum retry limit reached (local: " +:+ pretty local +:+
     ", global: " +:+ pretty global +:+ ").").

(** The [with open(song_path, "wb")] block. *)
Definition write_stream (self : EASY_DW) (st : stream) : M unit :=
  open_truncate (refused W) (self_song_path self);;
  match duration (self_song_metadata self) with
  | Some d =>
      if pf_real_time_dl (self_preferences self) && negb (d =? 0)%Z then
        if (0 <? d)%Z then
          let copied := paced_copy W st d in
          file_write (self_song_path self) (paced_written copied);;
          modify (λ s, set_trace (trace s ++ paced_actions copied) s);;
          match paced_error copied with
          | Some e => raise e
          | None => ret tt
          end
        else ret tt
      else
        data ← lift (input_read st);
        file_write (self_song_path self) data
  | None =>
      data ← lift (input_read st);
      file_write (self_song_path self) data
  end.

(** One pass through the body of the [while True] loop, up to its [break]:
    acquire the stream, register the path, write.  A failure of the write
    is handled on the spot (the partial file is removed and the path
    unregistered) and the pass still ends in [break]. *)
Definition attempt (self : EASY_DW) : M unit :=
  n ← gets feeder_calls;
  modify (set_feeder_calls (S n));;
  st ← lift (load_track W (pf_ids (self_preferences self)) (self_dw_quality self) n);
  register (self_song_path self);;
  try_except
    (write_stream self st;;
     unregister (self_song_path self))
    (λ e,
       log "Error during download process";;
       there ← os_path_exists (self_song_path self);
       when there (try_except (os_remove (self_song_path self)) (λ _, ret tt));;
       unregister (self_song_path self);;
       unregister (self_song_path self)).

(** The [except] branch of the loop: count, clean up, report, then give up
    or sleep and lengthen the delay. *)
Definition on_failure (self : EASY_DW) (e : exn) (retries retry_delay : nat)
    : M (nat * nat) :=
  let max_retries := default 5 (pf_max_retries (self_preferences self)) in
  let retry_delay_increase := default 30 (pf_retry_delay_increase (self_preferences self)) in
  modify (λ s, set_retry_count (GLOBAL_RETRY_COUNT s + 1) s);;
  let retries := retries + 1 in
  remove_if_exists (self_song_path self);;
  unregister (self_song_path self);;
  report_progress
    (track_progress self retrying (Some (retries, retry_delay)) (Some (str_exn e)));;
  global ← gets GLOBAL_RETRY_COUNT;
  if (max_retries <=? retries)%nat || (GLOBAL_MAX_RETRIES <=? global)%nat then
    remove_if_exists (self_song_path self);;
    raise (max_retries_exceeded max_retries GLOBAL_MAX_RETRIES)
  else
    sleep retry_delay;;
    ret (retries, retry_delay + retry_delay_increase).

(** The [while True] loop; it gives the delay the conversion retry goes on
    with.  The loop ends because every failure uses up one unit of the
    global budget: [fuel] above that budget is never used up. *)
Fixpoint acquire_loop (fuel : nat) (self : EASY_DW) (retries retry_delay : nat)
    : M nat :=
  match fuel with
  | O => raise (PyError "RecursionError" "acquire_loop")
  | S fuel' =>
      try_except
        (attempt self;; ret retry_delay)
        (λ e,
           next ← on_failure self e retries retry_delay;
           acquire_loop fuel' self next.1 next.2)
  end.

(** The wording of a conversion error. *)
Definition conversion_error_message (e : exn) : string :=
  let error_msg := str_exn e in
  if Py.contains "codec" (Py.lower error_msg)
  then "Audio conversion error - Missing codec or unsupported format"
  else if Py.contains "ffmpeg" (Py.lower error_msg)
  then "FFmpeg error - Audio conversion failed"
  else error_msg.

(** The conversion stage of [download_try]: a failure is reported and the
    conversion tried once more after the backoff delay. *)
Definition convert_with_retry (self : EASY_DW) (retry_delay : nat) : M EASY_DW :=
  try_except
    (__convert_audio self)
    (λ e,
       report_progress
         (track_progress self error None (Some (conversion_error_message e)));;
       log "Audio conversion error";;
       remove_if_exists (self_song_path self);;
       sleep retry_delay;;
       try_except
         (__convert_audio self)
         (λ conv_e,
            report_progress
              (track_progress self error None
                 (Some "Audio conversion failed after retry"));;
            remove_if_exists (self_song_path self);;
            raise conv_e)).

(** [EASY_DW.download_try]; the object comes back with the track it ends
    up holding. *)
Definition download_try (self : EASY_DW) : M EASY_DW :=
  let current_title := music (self_song_metadata self) in
  let current_album := album (self_song_metadata self) in
  found ← track_exists self current_title current_album;
  if found then
    report_progress (track_progress self skipped None None);;
    ret (set_self_track
           (set_was_skipped true (set_success false (self_c_track self))) self)
  else
    let retry_delay := default 30 (pf_initial_retry_delay (self_preferences self)) in
    report_progress (track_progress self progress None None);;
    global ← gets GLOBAL_RETRY_COUNT;
    retry_delay ← acquire_loop (S (GLOBAL_MAX_RETRIES - global)) self 0 retry_delay;
    self ← convert_with_retry self retry_delay;
    let self := __write_track self in
    write_tags (MTrack (self_c_track self));;
    report_progress (track_progress self done None None);;
    ret self.

Definition image_source (i : image_ref) : string :=
  match i with ImageUrl url => url | ImageBytes b => b end.

(** [EASY_DW.easy_dw]: the cover is fetched into the mapping, which the
    track shares. *)
Definition easy_dw (self : EASY_DW) : M Track :=
  image ← lift (request W (image_source (image (self_song_metadata self))));
  let song_metadata := set_image (ImageBytes image) (self_song_metadata self) in
  let self := set_self_track (set_tags song_metadata (self_c_track self))
                (set_self_metadata song_metadata self) in
  report_progress (track_progress self progress None None);;
  self ← try_except (download_try self)
           (λ e, log "Download failed";; raise e);
  write_tags (MTrack (self_c_track self));;
  ret (self_c_track self).

End Orchestrator.

(** ** Batch aggregators *)

(** Modelled from the spec: the [Album] and [Playlist] classes of
    [deezspot.models] are not under src/.  An Aggregate Result is the ordered
    collection of Media Results, an optional archive path and, for a
    playlist, the failure records the aggregator attaches. *)
Record Album := MkAlbum {
  album_tracks : list Track;
  album_zip_path : option string
}.

Record Playlist := MkPlaylist {
  playlist_tracks : list Track;
  playlist_zip_path : option string;
  failed_track_indices : list nat;
  failed_track_errors : list string
}.

(** The metadata mapping of an album: its own keys, and the per-track keys,
    which the source holds as lists indexed by track. *)
Record album_metadata := AlbumMetadata {
  am_album : string;
  am_artist : string;
  am_nb_tracks : nat;
  am_image : image_ref;
  am_items : list song_metadata
}.

(** A member of a playlist's metadata list: a mapping, or the error string
    left where the catalog could not resolve the item. *)
Inductive descriptor :=
| Resolved (m : song_metadata)
| Unresolved (message : string).

Definition newline : string := String (ascii_of_nat 10) EmptyString.

Section Batch.

Variable W : collaborators.

(** *** [DW_ALBUM.dw] *)

(** One turn of the album loop: the item's mapping, its preferences, the
    orchestrator under [except TrackNotFound], the append. *)
Definition album_item (preferences : Preferences) (md : album_metadata)
    (image : string) (tracks : list Track) (a : nat) : M (list Track) :=
  c_song_metadata ←
    match am_items md !! a with
    | Some m => ret (set_image (ImageBytes image) m)
    | None => raise (PyError "IndexError" "list index out of range")
    end;
  let c_preferences :=
    item_preferences preferences (md_ids c_song_metadata)
      ("https://open.spotify.com/track/" +:+ md_ids c_song_metadata)
      c_song_metadata (pf_json_data preferences) (a + 1) in
  track ←
    try_except_TrackNotFound
      (self ← lift (EASY_DW_init W c_preferences (Some album_parent));
       self ← download_try W self;
       ret (self_c_track self))
      (ret (set_success false (Track_init c_song_metadata None None None None None)));
  ret (tracks ++ [track]).

Fixpoint album_loop (preferences : Preferences) (md : album_metadata)
    (image : string) (tracks : list Track) (indices : list nat) : M (list Track) :=
  match indices with
  | [] => ret tracks
  | a :: rest =>
      tracks ← album_item preferences md image tracks a;
      album_loop preferences md image tracks rest
  end.

Definition DW_ALBUM_dw (preferences : Preferences) (md : album_metadata) : M Album :=
  report_progress
    (EvBatch album_parent initializing (am_album md) (am_nb_tracks md) None);;
  image ← lift (request W (image_source (am_image md)));
  tracks ← album_loop preferences md image [] (seq 0 (am_nb_tracks md));
  zip_path ←
    (if pf_make_zip preferences then
       match tracks with
       | [] => raise (PyError "IndexError" "list index out of range")
       | _ :: _ =>
           archive ← lift (create_zip W tracks None);
           modify (λ s, set_disk (<[archive.1 := archive.2]> (disk s)) s);;
           ret (Some archive.1)
       end
     else ret None);
  report_progress
    (EvBatch album_parent done (am_album md) (am_nb_tracks md) None);;
  ret {| album_tracks := tracks; album_zip_path := zip_path |}.

(** *** [DW_PLAYLIST.dw] *)

(** What the playlist loop has gathered so far. *)
Record gathered := Gathered {
  g_tracks : list Track;
  g_failed_indices : list nat;
  g_failed_errors : list string
}.

Definition song_label (m : song_metadata) : string :=
  music m +:+ " - " +:+ artist m.

(** The [except Exception] branch of the playlist loop. *)
Definition record_failure (c_song_metadata : song_metadata) (track_number : nat)
    (g : gathered) (e : exn) : M gathered :=
  log "Failed to download track";;
  let placeholder :=
    set_success false
      (Track_init c_song_metadata None None None None (Some (md_ids c_song_metadata))) in
  ret {| g_tracks := g_tracks g ++ [placeholder];
         g_failed_indices := g_failed_indices g ++ [track_number];
         g_failed_errors := g_failed_errors g ++
           ["Track " +:+ pretty track_number +:+ " failed: " +:+
            song_label c_song_metadata +:+ " - Error: " +:+ str_exn e] |}.

(** The playlist file: the header when the file is not there yet, then the
    line of this track. *)
Definition append_to_m3u (output_dir playlist_name track_path : string) : M unit :=
  let playlist_m3u_dir := Py.join output_dir "playlists" in
  let m3u_path := Py.join playlist_m3u_dir (playlist_name +:+ ".m3u") in
  there ← os_path_exists m3u_path;
  when (negb there)
    (open_truncate (refused W) m3u_path;; file_write m3u_path ("#EXTM3U" +:+ newline));;
  open_append (refused W) m3u_path;;
  file_write m3u_path (relpath W track_path playlist_m3u_dir +:+ newline).

(** The head of the [try] block of the playlist loop, up to the track the
    orchestrator returns or the exception that reaches the handler. *)
Definition download_item (c_preferences : Preferences) : M (Track + exn) :=
  try_except
    (self ← lift (EASY_DW_init W c_preferences (Some playlist_parent));
     track ← easy_dw W self;
     ret (inl track))
    (λ e, ret (inr e)).

(** One turn of the playlist loop on a resolved item.  The track is
    appended as soon as the orchestrator returns it; what follows in the
    [try] block works on the lists as they are by then. *)
Definition playlist_item (preferences : Preferences) (json : playlist_json)
    (playlist_name : string) (g : gathered) (track_number : nat)
    (c_song_metadata : song_metadata) : M gathered :=
  let c_preferences :=
    item_preferences preferences (md_ids c_song_metadata) (pf_link preferences)
      c_song_metadata (Some json) track_number in
  downloaded ← download_item c_preferences;
  match downloaded with
  | inr e => record_failure c_song_metadata track_number g e
  | inl track =>
      let g := {| g_tracks := g_tracks g ++ [track];
                  g_failed_indices := g_failed_indices g;
                  g_failed_errors := g_failed_errors g |} in
      let g :=
        if negb (success track) then
          {| g_tracks := g_tracks g;
             g_failed_indices := g_failed_indices g ++ [track_number];
             g_failed_errors := g_failed_errors g ++
               ["Track " +:+ pretty track_number +:+ " had issues: " +:+
                song_label c_song_metadata] |}
        else g in
      try_except
        (when (success track && Py.truthy_opt (song_path track))
           (append_to_m3u (pf_output_dir preferences) playlist_name
              (default "" (song_path track)));;
         ret g)
        (record_failure c_song_metadata track_number g)
  end.

(** The [for idx, c_song_metadata in enumerate(...)] loop; [idx] is the
    position of the head of [items]. *)
Fixpoint playlist_loop (preferences : Preferences) (json : playlist_json)
    (playlist_name : string) (g : gathered) (idx : nat) (items : list descriptor)
    : M gathered :=
  match items with
  | [] => ret g
  | Unresolved message :: rest =>
      log "Track metadata is string";;
      playlist_loop preferences json playlist_name g (S idx) rest
  | Resolved c_song_metadata :: rest =>
      g ← playlist_item preferences json playlist_name g (idx + 1) c_song_metadata;
      playlist_loop preferences json playlist_name g (S idx) rest
  end.

Definition DW_PLAYLIST_dw (preferences : Preferences) (json : playlist_json)
    (song_metadata : list descriptor) : M Playlist :=
  let playlist_name := default "Unknown Playlist" (js_title json) in
  let total_tracks := default 0 (js_nb_tracks json) in
  report_progress
    (EvBatch playlist_parent initializing playlist_name total_tracks None);;
  g ← playlist_loop preferences json playlist_name
        {| g_tracks := []; g_failed_indices := []; g_failed_errors := [] |}
        0 song_metadata;
  let tracks := g_tracks g in
  zip_path ←
    (if pf_make_zip preferences && existsb success tracks then
       try_except
         (playlist_title ←
            match js_title json with
            | Some t => ret t
            | None => raise (PyError "KeyError" "title")
            end;
          let zip_name := pf_output_dir preferences +:+ "/playlist " +:+
                          playlist_title +:+ ".zip" in
          archive ← lift (create_zip W (filter (λ t, success t = true) tracks)
                            (Some zip_name));
          modify (λ s, set_disk (<[zip_name := archive.2]> (disk s)) s);;
          ret (Some zip_name))
         (λ e, log "Failed to create zip file";; ret None)
     else ret None);
  report_progress
    (EvBatch playlist_parent done playlist_name total_tracks
       (Some (length (filter (λ t, success t = true) tracks),
              length (g_failed_indices g))));;
  ret {| playlist_tracks := tracks; playlist_zip_path := zip_path;
         failed_track_indices := g_failed_indices g;
         failed_track_errors := g_failed_errors g |}.

End Batch.

(** ** Episodes, class [EASY_DW] with [preferences.is_episode] *)

(** What the episode path of the orchestrator and [check_track] take from
    outside the repository, besides the collaborators of the track path. *)
Record episode_collaborators := EpisodeCollaborators {
  (* mutagen.mp3.MP3(path): the tags it finds *)
  MP3 : string → result (gmap string (list string));
  (* mutagen.File(path) with the tags of the object it returns, None when
     it recognises no container *)
  File_tags : string → string → result (option (gmap string (list string)));
  (* deezspot.libutils.utils.set_path with is_episode=True *)
  set_episode_path : song_metadata → string → string → string → string;
  (* EpisodeId.from_base62 *)
  EpisodeId_from_base62 : string → result string;
  (* content_feeder().load_episode: episode id, quality, number of earlier
     calls of the feeder *)
  load_episode : string → string → nat → result stream;
  (* the chunked real-time copy of an episode: what reached the file, the
     pacing sleeps, and the exception that interrupted it, if any *)
  paced_episode_copy : stream → Z → paced;
  (* input(prompt): what the user types *)
  input : string → string;
  (* deezspot.libutils.others_settings.answers *)
  answers : list string
}.

Definition Episode_init (tags : song_metadata) (episode_path : option path)
    (file_format : option string) : Episode :=
  {| ep_tags := tags; episode_path := episode_path; ep_file_format := file_format |}.

(** The orchestrator object of an episode: [__c_episode] is set, [__c_track]
    is not. *)
Record EASY_DW_episode := MkEASY_DW_episode {
  eps_preferences : Preferences;
  eps_song_metadata : song_metadata;
  eps_dw_quality : string;
  eps_file_format : string;
  eps_song_quality : string;
  eps_song_path : string;
  eps_c_episode : Episode
}.

Definition set_eps_path (p : string) (self : EASY_DW_episode) : EASY_DW_episode :=
  {| eps_preferences := eps_preferences self;
     eps_song_metadata := eps_song_metadata self;
     eps_dw_quality := eps_dw_quality self; eps_file_format := eps_file_format self;
     eps_song_quality := eps_song_quality self; eps_song_path := p;
     eps_c_episode := eps_c_episode self |}.

Definition set_eps_episode (e : Episode) (self : EASY_DW_episode) : EASY_DW_episode :=
  {| eps_preferences := eps_preferences self;
     eps_song_metadata := eps_song_metadata self;
     eps_dw_quality := eps_dw_quality self; eps_file_format := eps_file_format self;
     eps_song_quality := eps_song_quality self; eps_song_path := eps_song_path self;
     eps_c_episode := e |}.

(** The double quote, which the prompt of [download_eps] puts around the
    path. *)
Definition dquote : string := String (ascii_of_nat 34) EmptyString.

Section Episodes.

Variable W : collaborators.
Variable P : episode_collaborators.

(** [bool(audio) and len(audio) > 0] of what a mutagen reader gives: the
    object counts its tag keys. *)
Definition has_tags (r : result (gmap string (list string))) : bool :=
  match r with
  | Ok audio => bool_decide (audio ≠ ∅)
  | Raise _ => false
  end.

(** [check_track], [deezspot/__taggers__.py] *)
Definition check_track (m : media) : M bool :=
  try_except
    (match m with
     | MOther type_name => log "Unsupported media type for check";; ret false
     | MTrack _ | MEpisode _ =>
         match media_path m with
         | None => ret false
         | Some file_path =>
             if negb (Py.truthy file_path) then ret false
             else
               content ← gets (λ s, disk s !! file_path);
               match content with
               | None => ret false
               | Some content =>
                   if Py.endswith (Py.lower file_path) ".mp3"
                   then ret (has_tags (MP3 P content))
                   else if Py.endswith (Py.lower file_path) ".flac"
                   then ret (has_tags (FLAC W content))
                   else if Py.endswith (Py.lower file_path) ".ogg"
                   then ret (has_tags (OggVorbis W content))
                   else if Py.endswith (Py.lower file_path) ".m4a"
                           || Py.endswith (Py.lower file_path) ".mp4"
                   then ret (has_tags (MP4 W content))
                   else
                     match File_tags P file_path content with
                     | Ok (Some audio) => ret (bool_decide (audio ≠ ∅))
                     | Ok None => ret false
                     | Raise _ => ret false
                     end
               end
         end
     end)
    (λ e, log "Error checking track";; ret false).

(** [EASY_DW.__write_episode]: [__set_episode_path], then a fresh
    [Episode]. *)
Definition __write_episode (self : EASY_DW_episode) : EASY_DW_episode :=
  let p := set_episode_path P (eps_song_metadata self)
             (pf_output_dir (eps_preferences self))
             (eps_song_quality self) (eps_file_format self) in
  set_eps_episode
    (Episode_init (eps_song_metadata self) (Some p) (Some (eps_file_format self)))
    (set_eps_path p self).

(** [EASY_DW.__init__] of an episode. *)
Definition EASY_DW_init_episode (preferences : Preferences) : result EASY_DW_episode :=
  let quality_download :=
    match pf_quality_download preferences with
    | Some q => if Py.truthy q then q else "NORMAL"
    | None => "NORMAL"
    end in
  match qualities W quality_download with
  | None => Raise (PyError "KeyError" quality_download)
  | Some (n_quality, f_format, s_quality) =>
      Ok (__write_episode
            {| eps_preferences := preferences;
               eps_song_metadata := pf_song_metadata preferences;
               eps_dw_quality := n_quality; eps_file_format := f_format;
               eps_song_quality := s_quality; eps_song_path := "";
               eps_c_episode := Episode_init (pf_song_metadata preferences) None None |})
  end.

(** The second step of [__convert_audio] on an episode object.  The path of
    the object is assigned first; the assignment to [self.__c_track], which
    an episode object does not have, then raises an [AttributeError] inside
    the same [try], so a conversion that gives another path is logged as
    an error, and the object keeps the new path. *)
Definition transcode_episode (self : EASY_DW_episode) : M EASY_DW_episode :=
  match pf_convert_to (eps_preferences self) with
  | None => ret self
  | Some target =>
      if negb (Py.truthy target) then ret self
      else
        parsed ← lift (parse_format_string W target);
        match parsed.1 with
        | None => ret self
        | Some format_name =>
            if negb (Py.truthy format_name) then ret self
            else
              converted ←
                try_except
                  (converted_path ← run_convert_audio W (eps_song_path self)
                                      format_name parsed.2;
                   ret (Some converted_path))
                  (λ conv_error, log "Audio conversion error";; ret None);
              match converted with
              | None => ret self
              | Some converted_path =>
                  if bool_decide (converted_path ≠ eps_song_path self) then
                    log "Audio conversion error";;
                    ret (set_eps_path converted_path self)
                  else ret self
              end
        end
  end.

(** [EASY_DW.__convert_audio] on an episode object. *)
Definition __convert_audio_episode (self : EASY_DW_episode) : M EASY_DW_episode :=
  let temp_filename := Py.replace (eps_song_path self) ".ogg" ".tmp" in
  os_replace (eps_song_path self) temp_filename;;
  register temp_filename;;
  try_except
    (system_ffmpeg W temp_filename (eps_song_path self);;
     register (eps_song_path self);;
     temp_there ← os_path_exists temp_filename;
     when temp_there (os_remove temp_filename;; unregister temp_filename);;
     transcode_episode self)
    (λ e,
       temp_there ← os_path_exists temp_filename;
       song_there ← os_path_exists (eps_song_path self);
       when (temp_there && negb song_there)
         (os_replace temp_filename (eps_song_path self));;
       temp_there ← os_path_exists temp_filename;
       when temp_there (os_remove temp_filename;; unregister temp_filename);;
       raise e).

(** The [except] branch of the acquisition loop of [download_eps]: count,
    then give up or sleep and lengthen the delay.  The JSON line it prints
    goes to the standard output, which is not modelled. *)
Definition on_episode_failure (self : EASY_DW_episode) (retries retry_delay : nat)
    : M (nat * nat) :=
  let max_retries := default 5 (pf_max_retries (eps_preferences self)) in
  let retry_delay_increase := default 30 (pf_retry_delay_increase (eps_preferences self)) in
  modify (λ s, set_retry_count (GLOBAL_RETRY_COUNT s + 1) s);;
  let retries := retries + 1 in
  global ← gets GLOBAL_RETRY_COUNT;
  if (max_retries <=? retries)%nat || (GLOBAL_MAX_RETRIES <=? global)%nat then
    remove_if_exists (eps_song_path self);;
    raise (max_retries_exceeded max_retries GLOBAL_MAX_RETRIES)
  else
    sleep retry_delay;;
    ret (retries, retry_delay + retry_delay_increase).

(** The [while True] loop of [download_eps]; it gives the stream and the
    delay the conversion retry goes on with. *)
Fixpoint acquire_episode_loop (fuel : nat) (self : EASY_DW_episode)
    (episode_id : string) (retries retry_delay : nat) : M (stream * nat) :=
  match fuel with
  | O => raise (PyError "RecursionError" "acquire_episode_loop")
  | S fuel' =>
      try_except
        (n ← gets feeder_calls;
         modify (set_feeder_calls (S n));;
         st ← lift (load_episode P episode_id (eps_dw_quality self) n);
         ret (st, retry_delay))
        (λ e,
           next ← on_episode_failure self retries retry_delay;
           acquire_episode_loop fuel' self episode_id next.1 next.2)
  end.

(** [data = c_stream.read(total_size); f.write(data)] under its [try]. *)
Definition read_all_episode (self : EASY_DW_episode) (st : stream) : M unit :=
  try_except
    (data ← lift (input_read st);
     file_write (eps_song_path self) data)
    (λ e,
       log "Error during episode download";;
       remove_if_exists (eps_song_path self);;
       raise e).

(** The [with open(song_path, "wb")] block of [download_eps]. *)
Definition write_episode_stream (self : EASY_DW_episode) (st : stream) : M unit :=
  open_truncate (refused W) (eps_song_path self);;
  match duration (eps_song_metadata self) with
  | Some d =>
      if pf_real_time_dl (eps_preferences self) && negb (d =? 0)%Z then
        if (0 <? d)%Z then
          let copied := paced_episode_copy P st d in
          file_write (eps_song_path self) (paced_written copied);;
          modify (λ s, set_trace (trace s ++ paced_actions copied) s);;
          match paced_error copied with
          | Some e =>
              log "Error during real-time download";;
              remove_if_exists (eps_song_path self);;
              raise e
          | None => ret tt
          end
        else read_all_episode self st
      else read_all_episode self st
  | None => read_all_episode self st
  end.

(** The conversion stage of [download_eps]. *)
Definition convert_episode_with_retry (self : EASY_DW_episode) (retry_delay : nat)
    : M EASY_DW_episode :=
  try_except
    (__convert_audio_episode self)
    (λ e,
       log "retrying convert_audio";;
       remove_if_exists (eps_song_path self);;
       sleep retry_delay;;
       try_except
         (__convert_audio_episode self)
         (λ conv_e,
            remove_if_exists (eps_song_path self);;
            raise conv_e)).

(** [EASY_DW.download_eps]; the object comes back with the episode it ends
    up holding. *)
Definition download_eps (self : EASY_DW_episode) : M EASY_DW_episode :=
  let retry_delay := default 30 (pf_initial_retry_delay (eps_preferences self)) in
  is_file ← os_path_exists (eps_song_path self);
  tagged ← (if is_file then check_track (MEpisode (eps_c_episode self)) else ret false);
  let ans :=
    input P ("Episode " +:+ dquote +:+ eps_song_path self +:+ dquote +:+
             " already exists, do you want to redownload it?(y or n):") in
  if is_file && tagged && negb (bool_decide (ans ∈ answers P)) then ret self
  else
    episode_id ← lift (EpisodeId_from_base62 P (pf_ids (eps_preferences self)));
    global ← gets GLOBAL_RETRY_COUNT;
    acquired ← acquire_episode_loop (S (GLOBAL_MAX_RETRIES - global)) self episode_id
                 0 retry_delay;
    register (eps_song_path self);;
    try_except
      (write_episode_stream self acquired.1)
      (λ e,
         remove_if_exists (eps_song_path self);;
         unregister (eps_song_path self);;
         log "Failed to download episode";;
         raise e);;
    self ← convert_episode_with_retry self acquired.2;
    let self := __write_episode self in
    write_tags W (MEpisode (eps_c_episode self));;
    ret self.

End Episodes.

(** ** The most frequent artist, helper of [DW_ALBUM.dw] *)

(** What [most_frequent] is handed: a list of names, or one string. *)
Inductive artists :=
| ArtistList (items : list string)
| ArtistStr (items : string).

(** [s.split(";")] *)
Fixpoint split_semicolon (s : string) : list string :=
  match s with
  | EmptyString => [EmptyString]
  | String c s' =>
      match split_semicolon s' with
      | [] => [String c EmptyString]
      | f :: fs => if Ascii.eqb c ";" then EmptyString :: f :: fs
                   else String c f :: fs
      end
  end.

(** [items.count(x)] *)
Definition count (items : list string) (x : string) : nat :=
  length (filter (λ y, y = x) items).

(** [max(iterable, key=key)] once its first element is taken: a later
    element replaces the best one only if its key is greater. *)
Fixpoint max_from (key : string → nat) (best : string) (rest : list string) : string :=
  match rest with
  | [] => best
  | x :: rest' => max_from key (if (key best <? key x)%nat then x else best) rest'
  end.

Definition py_max (key : string → nat) (iterable : list string) : result string :=
  match iterable with
  | [] => Raise (PyError "ValueError" "max() arg is an empty sequence")
  | x :: rest => Ok (max_from key x rest)
  end.

Section MostFrequent.

(** [str.strip], and the order in which a [set] built from a list is
    iterated, both left to the interpreter. *)
Variable strip : string → string.
Variable set_of : list string → list string.

(** [most_frequent], local to [DW_ALBUM.dw] *)
Definition most_frequent (items : artists) : result (option string) :=
  let most (items : list string) :=
    match py_max (count items) (set_of items) with
    | Ok x => Ok (Some x)
    | Raise e => Raise e
    end in
  match items with
  | ArtistList [] => Ok None
  | ArtistList items => most items
  | ArtistStr items =>
      if negb (Py.truthy items) then Ok None
      else if Py.contains ";" items then most (strip <$> split_semicolon items)
      else Ok (Some items)
  end.

End MostFrequent.

(** ** What the existence check reads off a disk *)

Section Reading.

Variable W : collaborators.

(** The title and album [read_metadata] finds at a path of a disk. *)
Definition tags_on_disk (file_path : string) (d : gmap string string)
    : option string * option string :=
  match fst (read_metadata W file_path (set_disk d st0)) with
  | Ok found => found
  | Raise _ => (None, None)
  end.

(** A directory entry that carries an audio extension and whose title and
    album read back as the requested ones. *)
Definition matching_file (final_dir title album : string) (d : gmap string string)
    (file : string) : bool :=
  has_audio_extension file &&
  bool_decide ((tags_on_disk (Py.join final_dir file) d).1 = Some title) &&
  bool_decide ((tags_on_disk (Py.join final_dir file) d).2 = Some album).

(** The final directory of an item. *)
Definition final_directory (self : EASY_DW) : string :=
  Py.dirname (if Py.truthy (self_song_path self) then self_song_path self
              else self_song_path (__write_track W self)).

(** The item is present: its final directory exists, can be listed and
    holds a matching file. *)
Definition track_present (self : EASY_DW) (title album : string)
    (d : gmap string string) : bool :=
  Py.truthy (final_directory self) &&
  bool_decide (entries (final_directory self) d ≠ []) &&
  negb (refused W (final_directory self)) &&
  existsb (matching_file (final_directory self) title album d)
    (entries (final_directory self) d).

End Reading.

(** Two states that differ by log lines only. *)
Definition logs_only (s s' : state) : Prop :=
  ∃ l, s' = set_logs (logs s ++ l) s.

(** What a tag writer leaves behind: the same state with new content in the
    one file and some log lines. *)
Definition retagged (song : string) (s s' : state) : Prop :=
  ∃ new l, s' = set_logs l (set_disk (<[song := new]> (disk s)) s).

(** ** Entries of an aggregate result *)

(** The resolved members of a playlist's metadata list with their positions
    (counted from one over all members), in input order. *)
Fixpoint resolved_from (idx : nat) (items : list descriptor) : list (nat * song_metadata) :=
  match items with
  | [] => []
  | Unresolved _ :: rest => resolved_from (S idx) rest
  | Resolved m :: rest => (idx + 1, m) :: resolved_from (S idx) rest
  end.

(** The placeholder a playlist records for an item that raised. *)
Definition playlist_placeholder (m : song_metadata) : Track :=
  set_success false (Track_init m None None None None (Some (md_ids m))).

(** The placeholder an album records for an item that was not found. *)
Definition album_placeholder (m : song_metadata) : Track :=
  set_success false (Track_init m None None None None None).

Section Entries.

Variable W : collaborators.

(** The orchestrator of the item [m] at position [number] of a playlist:
    the constructor on the item's preferences, then [easy_dw]. *)
Definition playlist_orchestrator (preferences : Preferences) (json : playlist_json)
    (number : nat) (m : song_metadata) : M Track :=
  self ← lift (EASY_DW_init W
                 (item_preferences preferences (md_ids m) (pf_link preferences)
                    m (Some json) number)
                 (Some playlist_parent));
  easy_dw W self.

(** The entry of a playlist for the item [m], given how its orchestrator
    ended: what it returned, or the placeholder when it raised. *)
Definition playlist_entry (m : song_metadata) (outcome : result Track) : Track :=
  match outcome with
  | Ok track => track
  | Raise _ => playlist_placeholder m
  end.

(** The entries of a run of the playlist loop that starts in [s] with the
    item at position [idx] (from zero): none for a member that is an error
    string, and for a resolved member the entry of its orchestrator as it
    ends when started in the state the run has reached.  The state the next
    member starts in is the one the turn of the loop leaves. *)
Fixpoint playlist_entries_of_run (preferences : Preferences) (json : playlist_json)
    (g : gathered) (idx : nat) (items : list descriptor) (s : state) : list Track :=
  match items with
  | [] => []
  | Unresolved message :: rest =>
      playlist_entries_of_run preferences json g (S idx) rest
        (snd (log "Track metadata is string" s))
  | Resolved m :: rest =>
      playlist_entry m (fst (playlist_orchestrator preferences json (idx + 1) m s)) ::
      match playlist_item W preferences json (default "Unknown Playlist" (js_title json))
              g (idx + 1) m s with
      | (Ok g', s') => playlist_entries_of_run preferences json g' (S idx) rest s'
      | (Raise _, _) => []
      end
  end.

(** The orchestrator of track [a] (from zero) of an album, whose mapping [m]
    holds the cover the album has fetched: the constructor, then
    [download_try]. *)
Definition album_orchestrator (preferences : Preferences) (a : nat) (m : song_metadata)
    : M Track :=
  self ← lift (EASY_DW_init W
                 (item_preferences preferences (md_ids m)
                    ("https://open.spotify.com/track/" +:+ md_ids m)
                    m (pf_json_data preferences) (a + 1))
                 (Some album_parent));
  self ← download_try W self;
  ret (self_c_track self).

(** The entry of an album for the track [m], given how its orchestrator
    ended: what it returned, or the placeholder when it raised
    [TrackNotFound]; any other exception ends the album. *)
Definition album_entry (m : song_metadata) (outcome : result Track) : option Track :=
  match outcome with
  | Ok track => Some track
  | Raise (TrackNotFound _) => Some (album_placeholder m)
  | Raise (PyError _ _) => None
  end.

(** The entries of a run of the album loop over the track numbers
    [indices] that starts in [s], up to the track that ends the album, if
    any. *)
Fixpoint album_entries_of_run (preferences : Preferences) (md : album_metadata)
    (image : string) (tracks : list Track) (indices : list nat) (s : state)
    : list Track :=
  match indices with
  | [] => []
  | a :: rest =>
      match am_items md !! a with
      | None => []
      | Some m =>
          let m := set_image (ImageBytes image) m in
          match album_entry m (fst (album_orchestrator preferences a m s)) with
          | None => []
          | Some track =>
              track ::
              match album_item W preferences md image tracks a s with
              | (Ok tracks', s') =>
                  album_entries_of_run preferences md image tracks' rest s'
              | (Raise _, _) => []
              end
          end
      end
  end.

End Entries.

(** The playlist file of a playlist download. *)
Definition m3u_path (preferences : Preferences) (json : playlist_json) : string :=
  Py.join (Py.join (pf_output_dir preferences) "playlists")
    (default "Unknown Playlist" (js_title json) +:+ ".m3u").

(** The members of a playlist's metadata list that are error strings. *)
Fixpoint unresolved (items : list descriptor) : list string :=
  match items with
  | [] => []
  | Unresolved message :: rest => message :: unresolved rest
  | Resolved _ :: rest => unresolved rest
  end.

(** ** The trace of an exhausted acquisition *)

(** What an observer sees of [remaining] acquisitions that all fail, the
    last of which exhausts the retries: a [retrying] event per failure with
    the count and the delay of the moment, and between two failures a sleep
    of that delay, which then grows by the increment.  [call] numbers the
    acquisitions, [err] gives the failure of each. *)
Fixpoint backoff_trace (self : EASY_DW) (err : nat → exn)
    (call retries retry_delay increase remaining : nat) : list action :=
  match remaining with
  | O => []
  | S rest =>
      Report (track_progress self retrying (Some (retries + 1, retry_delay))
                (Some (str_exn (err call)))) ::
      match rest with
      | O => []
      | S _ =>
          Sleep retry_delay ::
          backoff_trace self err (S call) (retries + 1) (retry_delay + increase)
            increase rest
      end
  end.

(** The state a failed pass leaves once it is counted, cleaned up and
    reported. *)
Definition counted (self : EASY_DW) (e : exn) (retries retry_delay : nat)
    (s : state) : state :=
  set_trace
    (trace s ++ [Report (track_progress self retrying
                           (Some (retries + 1, retry_delay)) (Some (str_exn e)))])
    (set_reg (unregister_active_download (self_song_path self) (reg s))
       (set_disk (delete (self_song_path self) (disk s))
          (set_retry_count (GLOBAL_RETRY_COUNT s + 1) s))).

(** The statuses of the events of a trace, in order. *)
Definition statuses (t : list action) : list status :=
  omap (λ a, match a with Report e => Some (event_status e) | Sleep _ => None end) t.

(** ** A concrete environment *)

(** An environment to run the model in.  A tagged file reads
    [title|album|cover|audio]; the readers give the first two fields, the
    writers set the first three from the mapping and the cover and keep the
    audio. *)
Module Scenario.

Fixpoint fields (s : string) : list string :=
  match s with
  | EmptyString => [EmptyString]
  | String c s' =>
      match fields s' with
      | [] => [String c EmptyString]
      | f :: fs => if Ascii.eqb c "|" then EmptyString :: f :: fs
                   else String c f :: fs
      end
  end.

Definition reader (content : string) : result (gmap string (list string)) :=
  match fields content with
  | title :: album :: _ :: _ :: [] => Ok {[ "title" := [title]; "album" := [album] ]}
  | _ => Raise (PyError "MutagenError" "not a tagged file")
  end.

Definition writer (fmt : string) (data : song_metadata) (cover old : string)
    : string * option exn :=
  match fields old with
  | _ :: _ :: _ :: audio :: [] =>
      (music data +:+ "|" +:+ album data +:+ "|" +:+ cover +:+ "|" +:+ audio, None)
  | _ => (old, Some (PyError "MutagenError" "not a tagged file"))
  end.

Definition world (feeder : nat → result stream) (ff : ffmpeg_outcome)
    (refuse : string → bool) : collaborators :=
  {| set_path := λ m output_dir quality fmt, output_dir +:+ "/" +:+ music m +:+ fmt;
     qualities := λ q, if String.eqb q "NORMAL" then Some ("NORMAL", ".ogg", "NORMAL")
                       else None;
     request := λ url, Ok "jpeg";
     load_track := λ ids q n, feeder n;
     paced_copy := λ st d,
       {| paced_written := ""; paced_actions := []; paced_error := None |};
     mutagen_File := λ p content, Ok true;
     EasyID3 := reader; OggVorbis := reader; FLAC := reader; MP4 := reader;
     mutagen_save := writer;
     ffmpeg := λ content, ff;
     parse_format_string := λ target, Ok (None, None);
     convert_audio := λ p f b d g, (Ok p, (d, g));
     create_zip := λ tracks name, Ok (default "out/archive.zip" name, "zip");
     relpath := λ p start, p;
     refused := refuse |}.

Definition timeout : exn := PyError "ConnectionError" "timed out".

Definition meta (title : string) : song_metadata :=
  {| music := title; artist := "Artist"; album := "Album"; md_ids := "id-" +:+ title;
     image := ImageUrl "http://img"; duration := Some 200%Z; nb_tracks := 1 |}.

Definition prefs (title : string) (retries : nat) : Preferences :=
  {| pf_ids := "id-" +:+ title; pf_link := "https://open.spotify.com/track/id-" +:+ title;
     pf_output_dir := "out"; pf_song_metadata := meta title;
     pf_quality_download := None; pf_real_time_dl := false; pf_convert_to := None;
     pf_initial_retry_delay := Some 5; pf_retry_delay_increase := Some 10;
     pf_max_retries := Some retries; pf_track_number := None;
     pf_json_data := None; pf_make_zip := false |}.

(** The orchestrator object of a lone track. *)
Definition item (w : collaborators) (title : string) (retries : nat) : EASY_DW :=
  match EASY_DW_init w (prefs title retries) None with
  | Ok self => self
  | Raise _ =>
      MkEASY_DW (prefs title retries) None (meta title) "" "" "" ""
        (Track_init (meta title) None None None None None)
  end.

Definition with_file (p content : string) (s : state) : state :=
  set_disk (<[p := content]> (disk s)) s.

(** Every acquisition times out. *)
Definition offline : collaborators :=
  world (λ n, Raise timeout) (FFmpegWrote "|||audio") (λ p, false).

(** The stream is acquired and read. *)
Definition online : collaborators :=
  world (λ n, Ok {| input_size := 5; input_read := Ok "|||raw" |})
    (FFmpegWrote "|||audio") (λ p, false).

(** The stream is acquired, reading it fails. *)
Definition broken_stream : collaborators :=
  world (λ n, Ok {| input_size := 5; input_read := Raise (PyError "IOError" "read failed") |})
    (FFmpegWrote "|||audio") (λ p, false).

(** ffmpeg exits with an error and writes nothing. *)
Definition broken_ffmpeg : collaborators :=
  world (λ n, Ok {| input_size := 5; input_read := Ok "|||raw" |})
    FFmpegNoOutput (λ p, false).

(** The call of ffmpeg itself raises. *)
Definition no_ffmpeg : collaborators :=
  world (λ n, Ok {| input_size := 5; input_read := Ok "|||raw" |})
    (SystemRaised (PyError "OSError" "ffmpeg")) (λ p, false).

Definition json : playlist_json :=
  {| js_title := Some "Mix"; js_creator_name := Some "me"; js_nb_tracks := Some 2 |}.

Definition one_track_album : album_metadata :=
  {| am_album := "Album"; am_artist := "Artist"; am_nb_tracks := 1;
     am_image := ImageUrl "http://img"; am_items := [meta "Song"] |}.

End Scenario.

(** ** Histories of the registry *)

(** A call of one of the two functions that change the registry. *)
Inductive registry_call :=
| Register (file_path : string)
| Unregister (file_path : string).

Definition registry_step (r : registry) (c : registry_call) : registry :=
  match c with
  | Register p => register_active_download p r
  | Unregister p => unregister_active_download p r
  end.

(** The registry of a process that has made these calls since it started. *)
Definition registry_after (calls : list registry_call) : registry :=
  foldl registry_step registry_empty calls.

(** The progress events and sleeps of [failures] failed acquisitions that
    are all retried: a [retrying] event and a sleep per failure. *)
Fixpoint retry_trace (self : EASY_DW) (err : nat → exn)
    (call retries retry_delay increase failures : nat) : list action :=
  match failures with
  | O => []
  | S rest =>
      Report (track_progress self retrying (Some (retries + 1, retry_delay))
                (Some (str_exn (err call)))) ::
      Sleep retry_delay ::
      retry_trace self err (S call) (retries + 1) (retry_delay + increase) increase rest
  end.

(** ** Further environments *)

Module Environments.

Import Scenario.

(** A world with another feeder and another converter. *)
Definition with_converter (w : collaborators) (feeder : nat → result stream)
    (parse : string → result (option string * option string))
    (convert : string → string → option string → gmap string string → registry →
               result string * (gmap string string * registry)) : collaborators :=
  {| set_path := set_path w; qualities := qualities w; request := request w;
     load_track := λ ids q n, feeder n; paced_copy := paced_copy w;
     mutagen_File := mutagen_File w;
     EasyID3 := EasyID3 w; OggVorbis := OggVorbis w; FLAC := FLAC w; MP4 := MP4 w;
     mutagen_save := mutagen_save w; ffmpeg := ffmpeg w;
     parse_format_string := parse; convert_audio := convert;
     create_zip := create_zip w; relpath := relpath w; refused := refused w |}.

Definition raw_stream : stream := {| input_size := 5; input_read := Ok "|||raw" |}.

(** The first two acquisitions time out, the later ones succeed. *)
Definition flaky : collaborators :=
  with_converter online (λ n, if (n <? 2)%nat then Raise timeout else Ok raw_stream)
    (parse_format_string online) (convert_audio online).

(** The converter writes an MP3 file beside the OGG file and removes the
    OGG file. *)
Definition transcoder : collaborators :=
  with_converter online (λ n, Ok raw_stream)
    (λ target, Ok (Some "mp3", Some "320k"))
    (λ p format_name bitrate d g,
       match d !! p with
       | Some content =>
           (Ok (Py.replace p ".ogg" ".mp3"),
            (<[Py.replace p ".ogg" ".mp3" := content]> (delete p d), g))
       | None => (Raise (PyError "FileNotFoundError" p), (d, g))
       end).

(** The converter fails and leaves the disk alone. *)
Definition failing_transcoder : collaborators :=
  with_converter online (λ n, Ok raw_stream)
    (λ target, Ok (Some "mp3", Some "320k"))
    (λ p format_name bitrate d g, (Raise (PyError "RuntimeError" "ffmpeg failed"), (d, g))).

(** The preferences of a track that is to be converted to MP3. *)
Definition mp3_prefs (title : string) : Preferences :=
  {| pf_ids := "id-" +:+ title; pf_link := "https://open.spotify.com/track/id-" +:+ title;
     pf_output_dir := "out"; pf_song_metadata := meta title;
     pf_quality_download := None; pf_real_time_dl := false;
     pf_convert_to := Some "MP3_320K";
     pf_initial_retry_delay := Some 5; pf_retry_delay_increase := Some 10;
     pf_max_retries := Some 3; pf_track_number := None;
     pf_json_data := None; pf_make_zip := false |}.

Definition mp3_item (w : collaborators) (title : string) : EASY_DW :=
  match EASY_DW_init w (mp3_prefs title) None with
  | Ok self => self
  | Raise _ =>
      MkEASY_DW (mp3_prefs title) None (meta title) "" "" "" ""
        (Track_init (meta title) None None None None None)
  end.

(** The playlist directory cannot be written. *)
Definition readonly_playlists : collaborators :=
  world (λ n, Ok raw_stream) (FFmpegWrote "|||audio")
    (λ p, Py.startswith p "out/playlists").

(** No cover can be fetched. *)
Definition without_covers (w : collaborators) : collaborators :=
  {| set_path := set_path w; qualities := qualities w;
     request := λ url, Raise (PyError "HTTPError" "404 Client Error");
     load_track := load_track w; paced_copy := paced_copy w;
     mutagen_File := mutagen_File w;
     EasyID3 := EasyID3 w; OggVorbis := OggVorbis w; FLAC := FLAC w; MP4 := MP4 w;
     mutagen_save := mutagen_save w; ffmpeg := ffmpeg w;
     parse_format_string := parse_format_string w; convert_audio := convert_audio w;
     create_zip := create_zip w; relpath := relpath w; refused := refused w |}.

(** The first acquisition succeeds, the later ones time out. *)
Definition fed_once : collaborators :=
  with_converter online (λ n, if (n <? 1)%nat then Ok raw_stream else Raise timeout)
    (parse_format_string online) (convert_audio online).

(** An album of two tracks. *)
Definition two_track_album : album_metadata :=
  {| am_album := "Album"; am_artist := "Artist"; am_nb_tracks := 2;
     am_image := ImageUrl "http://img"; am_items := [meta "A"; meta "B"] |}.

(** An album that announces two tracks and describes one. *)
Definition short_album : album_metadata :=
  {| am_album := "Album"; am_artist := "Artist"; am_nb_tracks := 2;
     am_image := ImageUrl "http://img"; am_items := [meta "Song"] |}.

(** The preferences of the item of a playlist. *)
Definition playlist_item_prefs (title : string) (number : nat) : Preferences :=
  item_preferences (prefs "Mix" 1) (md_ids (meta title)) (pf_link (prefs "Mix" 1))
    (meta title) (Some json) number.

Definition playlist_item_object (w : collaborators) (title : string) (number : nat)
    : EASY_DW :=
  match EASY_DW_init w (playlist_item_prefs title number) (Some playlist_parent) with
  | Ok self => self
  | Raise _ =>
      MkEASY_DW (playlist_item_prefs title number) None (meta title) "" "" "" ""
        (Track_init (meta title) None None None None None)
  end.

Definition nothing_gathered : gathered :=
  {| g_tracks := []; g_failed_indices := []; g_failed_errors := [] |}.

(** The episode side: the user types [answer] at the prompt. *)
Definition podcast (feeder : nat → result stream) (answer : string)
    : episode_collaborators :=
  {| MP3 := reader;
     File_tags := λ p content, Ok None;
     set_episode_path := λ m output_dir quality fmt, output_dir +:+ "/" +:+ music m +:+ fmt;
     EpisodeId_from_base62 := λ ids, Ok ids;
     load_episode := λ episode_id q n, feeder n;
     paced_episode_copy := λ st d,
       {| paced_written := ""; paced_actions := []; paced_error := None |};
     input := λ prompt, answer;
     answers := ["Y"; "y"; "Yes"; "YES"; "yes"] |}.

Definition episode_item (w : collaborators) (p : episode_collaborators) (title : string)
    : EASY_DW_episode :=
  match EASY_DW_init_episode w p (prefs title 3) with
  | Ok self => self
  | Raise _ =>
      MkEASY_DW_episode (prefs title 3) (meta title) "" "" "" ""
        (Episode_init (meta title) None None)
  end.

(** A stream that cannot be read. *)
Definition unreadable : stream :=
  {| input_size := 5; input_read := Raise (PyError "IOError" "read failed") |}.

End Environments.

(** The sleeps of [failures] failed acquisitions of an episode that are all
    retried: no progress event is reported for an episode. *)
Fixpoint episode_retry_trace (retry_delay increase failures : nat) : list action :=
  match failures with
  | O => []
  | S rest => Sleep retry_delay :: episode_retry_trace (retry_delay + increase) increase rest
  end.

(** ** Confinement *)

(** A step from [s] to [s'] that stays within [paths]: every other path
    holds what it held, a current pointer that was a member of the active
    set still is one, and the cleanup lock is as it was. *)
Definition confined (paths : list string) (s s' : state) : Prop :=
  (∀ q, q ∉ paths → disk s' !! q = disk s !! q) ∧
  (current_is_active (reg s) → current_is_active (reg s')) ∧
  CLEANUP_LOCK (reg s') = CLEANUP_LOCK (reg s).

(** A computation all of whose runs stay within [paths], however they
    end. *)
Definition stays_within {A} (paths : list string) (m : M A) : Prop :=
  ∀ s r s', m s = (r, s') → confined paths s s'.

(** ** Events, field by field *)

(** The progress event of a track with every field written out: the status,
    the title, artist and link of the item, the retry count with the delay,
    the error text, and the parent block. *)
Definition track_report (self : EASY_DW) (st : status)
    (retry : option (nat * nat)) (error : option string) : action :=
  Report (EvTrack {| te_status := st;
                     te_song := music (self_song_metadata self);
                     te_artist := artist (self_song_metadata self);
                     te_url := pf_link (self_preferences self);
                     te_retry := retry;
                     te_error := error;
                     te_parent := parent_info self |}).

(** What is to be seen of [remaining] failed acquisitions the last of which
    ends the retries: per failure an event with the status [retrying], the
    running count, the delay of the moment and the text of the error of
    that acquisition; between two failures a sleep of that delay, which then
    grows by the increment. *)
Fixpoint backoff_events (self : EASY_DW) (err : nat → exn)
    (call retries retry_delay increase remaining : nat) : list action :=
  match remaining with
  | O => []
  | S rest =>
      track_report self retrying (Some (retries + 1, retry_delay))
        (Some (str_exn (err call))) ::
      match rest with
      | O => []
      | S _ =>
          Sleep retry_delay ::
          backoff_events self err (S call) (retries + 1) (retry_delay + increase)
            increase rest
      end
  end.

(** Symbolic execution: unfold the monad and the state accessors, nothing
    of the finite maps underneath. *)
Ltac run :=
  unfold report_progress, sleep, log, os_path_exists, os_remove, os_replace,
    open_truncate, open_append, file_write, register, unregister, when,
    try_except, try_except_TrackNotFound, bind, lift, gets, modify, ret, raise in *;
  cbn [disk reg GLOBAL_RETRY_COUNT feeder_calls trace logs
       set_disk set_reg set_retry_count set_feeder_calls set_trace set_logs
       fst snd] in *.

(** * Properties *)

(** ** Python strings and paths on examples *)

Example replace_ogg : Py.replace "out/a.ogg" ".ogg" ".tmp" = "out/a.tmp".
Proof. reflexivity. Qed.
Example replace_none : Py.replace "out/a.mp3" ".ogg" ".tmp" = "out/a.mp3".
Proof. reflexivity. Qed.
Example dirname_nested : Py.dirname "out/Artist/a.ogg" = "out/Artist".
Proof. reflexivity. Qed.
Example dirname_flat : Py.dirname "a.ogg" = "".
Proof. reflexivity. Qed.
Example dirname_root : Py.dirname "/a.ogg" = "/".
Proof. reflexivity. Qed.
Example basename_nested : Py.basename "out/Artist/a.ogg" = "a.ogg".
Proof. reflexivity. Qed.
Example join_plain : Py.join "out/Artist" "a.ogg" = "out/Artist/a.ogg".
Proof. reflexivity. Qed.
Example endswith_upper : Py.endswith (Py.lower "A.OGG") ".ogg" = true.
Proof. reflexivity. Qed.
Example contains_codec : Py.contains "codec" (Py.lower "Unknown CODEC id") = true.
Proof. reflexivity. Qed.


(** ** The registry and the cleanup routine *)

Lemma set_lock_restore r :
  CLEANUP_LOCK r = false → set_lock false (set_lock true r) = r.
Proof. destruct r as [a l c]; simpl; intros ->; reflexivity. Qed.

Lemma set_reg_same s : set_reg (reg s) s = s.
Proof. destruct s; reflexivity. Qed.

(** Registrations and unregistrations keep the current pointer inside the
    active set. *)
Lemma register_current_is_active p r :
  current_is_active (register_active_download p r).
Proof. intros q [= <-]; simpl; set_solver. Qed.

Lemma unregister_current_is_active p r :
  current_is_active r → current_is_active (unregister_active_download p r).
Proof.
  intros Hr q. unfold unregister_active_download.
  case_bool_decide as Hin; [|apply Hr]. simpl.
  case_bool_decide as Hcur; [discriminate|].
  intros Hq. apply elem_of_difference. split; [by apply Hr|].
  intros ->%elem_of_singleton. by rewrite Hq in Hcur.
Qed.

(** With the current file absent from disk the cleanup leaves the current
    pointer and the active set as they were: the registry is not cleared. *)
Lemma cleanup_leaves_registry_uncleared :
  let s' := snd (cleanup_active_downloads st_pending) in
  disk st_pending !! "out/a.ogg" = None ∧
  CURRENT_DOWNLOAD (reg s') = Some "out/a.ogg" ∧
  "out/a.ogg" ∈ ACTIVE_DOWNLOADS (reg s').
Proof. vm_compute. split; [reflexivity|]. split; [reflexivity|]. set_solver. Qed.

Lemma cleanup_effect (s : state) :
  ∃ s', cleanup_active_downloads s = (Ok tt, s') ∧
    (∀ p, CURRENT_DOWNLOAD (reg s) ≠ Some p → disk s' !! p = disk s !! p) ∧
    ((disk s' = disk s ∧ reg s' = reg s) ∨
     (∃ c, CURRENT_DOWNLOAD (reg s) = Some c ∧ is_Some (disk s !! c) ∧
           disk s' = delete c (disk s) ∧
           reg s' = unregister_active_download c (reg s))).
Proof.
  unfold cleanup_active_downloads.
  destruct (CLEANUP_LOCK (reg s)) eqn:Hlock; [eauto 10|].
  destruct (CURRENT_DOWNLOAD (reg s)) as [c|] eqn:Hcur; cycle 1.
  { eexists; split; [reflexivity|]; run. split; [done|]. left. split; [done|].
    by apply set_lock_restore. }
  destruct (Py.truthy c) eqn:Htruthy; cycle 1.
  { eexists; split; [reflexivity|]; run. split; [done|]. left. split; [done|].
    by apply set_lock_restore. }
  destruct (disk s !! c) as [content|] eqn:Hfile; cycle 1.
  { eexists. split.
    - run. rewrite Hfile. rewrite bool_decide_eq_false_2 by (by intros [? ?]).
      reflexivity.
    - run. split; [done|]. left. split; [done|]. by apply set_lock_restore. }
  eexists. split.
  - run. rewrite Hfile. rewrite bool_decide_eq_true_2 by eauto. run. rewrite Hfile.
    reflexivity.
  - run. split.
    + intros p Hp. apply lookup_delete_ne. congruence.
    + right. exists c. split; [done|]. split; [eauto|]. split; [done|].
      destruct (reg s) as [a l cur]; simpl in *; subst.
      unfold unregister_active_download; simpl. by case_bool_decide.
Qed.


Lemma unregister_current c r :
  CURRENT_DOWNLOAD (unregister_active_download c r) = None ∨
  CURRENT_DOWNLOAD (unregister_active_download c r) = CURRENT_DOWNLOAD r.
Proof.
  unfold unregister_active_download. case_bool_decide; [|by right]. cbn.
  case_bool_decide; [by left|by right].
Qed.

(** What the cleanup routine does whatever the registry holds: it never
    raises; it deletes at most the file named by the current pointer, and
    only if that file is on disk; the content of every other path is
    untouched.  When it deletes the file it removes that path from the active
    set and clears the current pointer, keeping the other registered paths;
    otherwise the registry is unchanged.  The signal handler, which runs the
    cleanup and then the exit hook, touches the disk no further than the one
    cleanup. *)
Theorem cleanup_deletes_only_current (s : state) :
  (∃ s', cleanup_active_downloads s = (Ok tt, s') ∧
     (∀ p, CURRENT_DOWNLOAD (reg s) ≠ Some p → disk s' !! p = disk s !! p) ∧
     ((disk s' = disk s ∧ reg s' = reg s) ∨
      (∃ c, CURRENT_DOWNLOAD (reg s) = Some c ∧ is_Some (disk s !! c) ∧
            disk s' = delete c (disk s) ∧
            reg s' = unregister_active_download c (reg s)))) ∧
  (∃ s', signal_handler s = (Ok tt, s') ∧
     (∀ p, CURRENT_DOWNLOAD (reg s) ≠ Some p → disk s' !! p = disk s !! p) ∧
     (disk s' = disk s ∨
      ∃ c, CURRENT_DOWNLOAD (reg s) = Some c ∧ is_Some (disk s !! c) ∧
           disk s' = delete c (disk s))).
Proof.
  split; [apply cleanup_effect|].
  unfold signal_handler. unfold bind at 1. unfold log at 1, modify at 1.
  set (s0 := set_logs _ s).
  destruct (cleanup_effect s0) as (s1 & Hfirst & Hframe1 & Hcases1).
  unfold bind. rewrite Hfirst.
  destruct (cleanup_effect s1) as (s2 & -> & Hframe2 & Hcases2).
  exists s2. split; [done|].
  assert (Hdisk : disk s2 = disk s ∨
            ∃ c, CURRENT_DOWNLOAD (reg s) = Some c ∧ is_Some (disk s !! c) ∧
                 disk s2 = delete c (disk s)).
  { destruct Hcases1 as [[Hd1 Hr1]|(c & Hc & Hfile & Hd1 & Hr1)];
      destruct Hcases2 as [[Hd2 Hr2]|(c' & Hc' & Hfile' & Hd2 & Hr2)].
    - left. by rewrite Hd2, Hd1.
    - right. exists c'. rewrite Hr1 in Hc'. rewrite Hd1 in Hfile', Hd2. done.
    - right. exists c. rewrite Hd2, Hd1. done.
    - exfalso. rewrite Hr1 in Hc'.
      destruct (unregister_current c (reg s0)) as [Hnone|Hsame];
        [congruence|].
      rewrite Hsame in Hc'. assert (c' = c) as -> by congruence.
      rewrite Hd1, lookup_delete_eq in Hfile'. by destruct Hfile'. }
  split; [|done].
  intros p Hp. destruct Hdisk as [->|(c & Hc & _ & ->)]; [done|].
  apply lookup_delete_ne. congruence.
Qed.

(** ** Effects that only log *)

Lemma logs_only_refl s : logs_only s s.
Proof. exists []. rewrite app_nil_r. by destruct s. Qed.

Lemma logs_only_log s msg : logs_only s (set_logs (logs s ++ [msg]) s).
Proof. by exists [msg]. Qed.

Lemma logs_only_trans s1 s2 s3 : logs_only s1 s2 → logs_only s2 s3 → logs_only s1 s3.
Proof.
  intros [l1 ->] [l2 ->]. exists (l1 ++ l2). cbn. by rewrite app_assoc.
Qed.

Lemma logs_only_disk s s' : logs_only s s' → disk s' = disk s.
Proof. by intros [l ->]. Qed.

Lemma logs_only_reg s s' : logs_only s s' → reg s' = reg s.
Proof. by intros [l ->]. Qed.

Lemma logs_only_trace s s' : logs_only s s' → trace s' = trace s.
Proof. by intros [l ->]. Qed.

Lemma logs_only_feeder s s' : logs_only s s' → feeder_calls s' = feeder_calls s.
Proof. by intros [l ->]. Qed.

Lemma logs_only_retry_count s s' :
  logs_only s s' → GLOBAL_RETRY_COUNT s' = GLOBAL_RETRY_COUNT s.
Proof. by intros [l ->]. Qed.

Create HintDb quiet.
#[local] Hint Resolve logs_only_refl logs_only_log : quiet.

Section ExistenceCheck.

Variable W : collaborators.

Lemma read_metadata_quiet file_path s :
  ∃ s', read_metadata W file_path s = (Ok (tags_on_disk W file_path (disk s)), s') ∧
        logs_only s s'.
Proof.
  unfold tags_on_disk, read_metadata, read_mp3, read_title_album. run.
  repeat case_match; simpl in *; simplify_eq; eauto with quiet.
Qed.

Lemma scan_directory_quiet final_dir title album files s :
  ∃ s', scan_directory W final_dir title album files s =
          (Ok (existsb (matching_file W final_dir title album (disk s)) files), s') ∧
        logs_only s s'.
Proof.
  revert s. induction files as [|file rest IH]; intros s; cbn [scan_directory existsb].
  { eauto with quiet. }
  unfold matching_file at 1.
  destruct (has_audio_extension file); cbn [andb orb]; [|apply IH].
  destruct (read_metadata_quiet (Py.join final_dir file) s) as (s1 & Hread & Hs1).
  unfold bind at 1. rewrite Hread.
  destruct (bool_decide _ && bool_decide _) eqn:Hmatch; cbn [orb].
  - run. eexists; split; [reflexivity|].
    eapply logs_only_trans; eauto with quiet.
  - destruct (IH s1) as (s2 & Hscan & Hs2). rewrite Hscan.
    rewrite (logs_only_disk _ _ Hs1). eauto using logs_only_trans.
Qed.

Lemma track_exists_quiet self title album s :
  ∃ s', track_exists W self title album s =
          (Ok (track_present W self title album (disk s)), s') ∧
        logs_only s s'.
Proof.
  unfold track_exists, track_present, try_except, dir_exists, os_listdir.
  fold (final_directory W self).
  unfold bind at 1, gets.
  destruct (Py.truthy (final_directory W self) && bool_decide _) eqn:Hdir;
    cbn [negb andb]; [|eauto with quiet].
  unfold bind at 1.
  destruct (refused W (final_directory W self)); cbn [negb andb].
  { run. eauto with quiet. }
  destruct (scan_directory_quiet (final_directory W self) title album
              (entries (final_directory W self) (disk s)) s) as (s1 & -> & Hs1).
  eauto.
Qed.

(** C10: the existence check returns a boolean in every state and never
    raises, and it changes nothing but the log.  It answers [True] only
    when the final directory can be listed and holds a file with an audio
    extension whose title and album read back as the requested ones; so a
    missing directory, an unreadable or unsupported file and a failed
    metadata read all count as "not present": when every entry reads as
    [(None, None)] the answer is [False]. *)
Theorem track_exists_total self title album s :
  ∃ b s',
    track_exists W self title album s = (Ok b, s') ∧ logs_only s s' ∧
    (b = true →
       refused W (final_directory W self) = false ∧
       ∃ file, file ∈ entries (final_directory W self) (disk s) ∧
               has_audio_extension file = true ∧
               fst (read_metadata W (Py.join (final_directory W self) file) s)
               = Ok (Some title, Some album)) ∧
    ((∀ file, file ∈ entries (final_directory W self) (disk s) →
              fst (read_metadata W (Py.join (final_directory W self) file) s)
              = Ok (None, None)) →
     b = false).
Proof.
  destruct (track_exists_quiet self title album s) as (s' & Hrun & Hs').
  exists (track_present W self title album (disk s)), s'.
  split; [done|]. split; [done|].
  assert (Hpresent : track_present W self title album (disk s) = true →
    refused W (final_directory W self) = false ∧
    ∃ file, file ∈ entries (final_directory W self) (disk s) ∧
            has_audio_extension file = true ∧
            fst (read_metadata W (Py.join (final_directory W self) file) s)
            = Ok (Some title, Some album)).
  { unfold track_present. intros Hp.
    apply andb_prop in Hp as [Hp Hex]. apply andb_prop in Hp as [_ Href].
    split; [by destruct (refused W _)|].
    apply existsb_exists in Hex as (file & Hin & Hm).
    exists file. split; [by apply list_elem_of_In|].
    unfold matching_file in Hm.
    apply andb_prop in Hm as [Hm Halbum]. apply andb_prop in Hm as [Hext Htitle].
    apply bool_decide_eq_true_1 in Halbum, Htitle.
    split; [done|].
    destruct (read_metadata_quiet (Py.join (final_directory W self) file) s)
      as (s1 & -> & _).
    cbn [fst]. destruct (tags_on_disk _ _ _) as [t a]; simpl in *. congruence. }
  split; [done|].
  intros Hnone.
  destruct (track_present W self title album (disk s)) eqn:Hp; [|done].
  destruct (Hpresent eq_refl) as (_ & file & Hin & _ & Hread).
  rewrite (Hnone file Hin) in Hread. discriminate.
Qed.

End ExistenceCheck.

(** ** The tag writer *)

Section TagWriter.

Variable W : collaborators.

Lemma cover_or_download_quiet data s :
  ∃ cover s', cover_or_download W data s = (Ok cover, s') ∧ logs_only s s'.
Proof.
  unfold cover_or_download. run.
  repeat case_match; simplify_eq; eauto with quiet.
Qed.

Lemma mutagen_write_retags fmt song data cover s :
  is_Some (disk s !! song) →
  ∃ r s', mutagen_write W fmt song data cover s = (r, s') ∧ retagged song s s'.
Proof.
  intros [old Hold]. unfold mutagen_write. rewrite Hold.
  destruct (mutagen_save W fmt data cover old) as [new failure].
  do 2 eexists. split; [reflexivity|]. exists new, (logs s). by destruct s.
Qed.

Lemma retagged_after_logs song s s1 s2 :
  logs_only s s1 → retagged song s1 s2 → retagged song s s2.
Proof. intros [l ->] (new & l' & ->). by exists new, l'. Qed.

Lemma retagged_then_log song s s1 msg :
  retagged song s s1 → retagged song s (set_logs (logs s1 ++ [msg]) s1).
Proof. intros (new & l & ->). by exists new, (l ++ [msg]). Qed.

Lemma write_flac_retags song data s :
  is_Some (disk s !! song) →
  ∃ s', __write_flac W song data s = (Ok tt, s') ∧ retagged song s s'.
Proof.
  intros Hfile. unfold __write_flac, try_except.
  destruct (cover_or_download_quiet data s) as (cover & s1 & Hcover & Hs1).
  unfold bind at 1. rewrite Hcover.
  destruct (mutagen_write_retags ".flac" song data cover s1) as (r & s2 & -> & Hs2).
  { by rewrite (logs_only_disk _ _ Hs1). }
  destruct r as [[]|e]; run; (eexists; split; [reflexivity|]);
    eauto using retagged_after_logs, retagged_then_log.
Qed.

Lemma write_mp3_retags song data s :
  is_Some (disk s !! song) →
  ∃ s', __write_mp3 W song data s = (Ok tt, s') ∧ retagged song s s'.
Proof.
  intros Hfile. unfold __write_mp3, try_except.
  destruct (mutagen_write_retags ".mp3" song data
              match image data with ImageBytes b => b | ImageUrl _ => "" end s)
    as (r & s2 & -> & Hs2); [done|].
  destruct r as [[]|e]; run; (eexists; split; [reflexivity|]);
    eauto using retagged_then_log.
Qed.

Lemma write_ogg_retags song data s :
  is_Some (disk s !! song) →
  ∃ s', __write_ogg W song data s = (Ok tt, s') ∧ retagged song s s'.
Proof.
  intros Hfile. unfold __write_ogg.
  destruct (cover_or_download_quiet data s) as (cover & s1 & Hcover & Hs1).
  unfold try_except at 1 2. unfold bind at 1. rewrite Hcover.
  destruct (mutagen_write_retags ".ogg" song data cover s1) as (r & s2 & -> & Hs2).
  { by rewrite (logs_only_disk _ _ Hs1). }
  destruct r as [[]|e]; run; (eexists; split; [reflexivity|]);
    eauto using retagged_after_logs, retagged_then_log.
Qed.

Lemma tag_file_effect song data f_format s :
  ∃ s', tag_file W song data f_format s = (Ok tt, s') ∧
        (logs_only s s' ∨
         ∃ p, song = Some p ∧ is_Some (disk s !! p) ∧ retagged p s s').
Proof.
  unfold tag_file. destruct song as [p|]; [|run; eauto with quiet].
  destruct (negb (Py.truthy p)); [run; eauto with quiet|].
  unfold bind at 1, os_path_exists, gets. case_bool_decide as Hfile; cbn [negb].
  2: { run; eauto with quiet. }
  assert (∃ s1, (if bool_decide (f_format = Some ".flac") then __write_flac W p data
                 else if bool_decide (f_format = Some ".ogg") then __write_ogg W p data
                 else __write_mp3 W p data) s = (Ok tt, s1) ∧ retagged p s s1)
    as (s1 & Hwrite & Hs1).
  { repeat case_bool_decide;
      eauto using write_flac_retags, write_ogg_retags, write_mp3_retags. }
  unfold bind. rewrite Hwrite. run.
  eexists; split; [reflexivity|]. right. exists p.
  eauto using retagged_then_log.
Qed.

(** C8: the tag writer never raises, whatever it is handed and whatever
    state the disk is in: it returns normally, having at most logged and
    rewritten the content of the one file at the media's path.  No file
    disappears and no other file changes; the registry and the progress
    trace are as before. *)
Theorem write_tags_never_raises (m : media) (s : state) :
  ∃ s', write_tags W m s = (Ok tt, s') ∧
    reg s' = reg s ∧ trace s' = trace s ∧
    (∀ p, is_Some (disk s' !! p) ↔ is_Some (disk s !! p)) ∧
    (∀ p, media_path m ≠ Some p → disk s' !! p = disk s !! p).
Proof.
  assert (∃ s', write_tags W m s = (Ok tt, s') ∧
            (logs_only s s' ∨
             ∃ p, media_path m = Some p ∧ is_Some (disk s !! p) ∧ retagged p s s'))
    as (s' & Hrun & Heffect).
  { unfold write_tags, try_except. destruct m as [t|e|name]; cbn [media_path].
    - destruct (tag_file_effect (song_path t) (tags t) (file_format t) s)
        as (s' & -> & H). eauto.
    - destruct (tag_file_effect (episode_path e) (ep_tags e) (ep_file_format e) s)
        as (s' & -> & H). eauto.
    - run. eauto with quiet. }
  exists s'. split; [done|].
  destruct Heffect as [[l ->]|(p & Hp & Hfile & new & l & ->)]; cbn.
  { done. }
  split; [done|]. split; [done|]. split.
  - intros q. destruct (decide (p = q)) as [->|Hne].
    + rewrite lookup_insert_eq. split; eauto.
    + by rewrite lookup_insert_ne.
  - intros q Hq. apply lookup_insert_ne. congruence.
Qed.

End TagWriter.

(** ** Stream acquisition and its retries *)

Lemma set_disk_same s : set_disk (disk s) s = s.
Proof. by destruct s. Qed.

Lemma remove_if_exists_delete p s :
  remove_if_exists p s = (Ok tt, set_disk (delete p (disk s)) s).
Proof.
  unfold remove_if_exists. run. case_bool_decide as Hfile.
  - destruct Hfile as [c Hc]. by rewrite Hc.
  - rewrite delete_id; [by rewrite set_disk_same|].
    by apply eq_None_not_Some.
Qed.

Section Acquisition.

Variable W : collaborators.

Lemma attempt_acquisition_fails self s e :
  load_track W (pf_ids (self_preferences self)) (self_dw_quality self)
    (feeder_calls s) = Raise e →
  attempt W self s = (Raise e, set_feeder_calls (S (feeder_calls s)) s).
Proof. intros He. unfold attempt. run. by rewrite He. Qed.

Lemma on_failure_spec self e retries retry_delay s :
  on_failure self e retries retry_delay s =
    if (default 5 (pf_max_retries (self_preferences self)) <=? retries + 1)%nat
       || (GLOBAL_MAX_RETRIES <=? GLOBAL_RETRY_COUNT s + 1)%nat
    then (Raise (max_retries_exceeded
                   (default 5 (pf_max_retries (self_preferences self)))
                   GLOBAL_MAX_RETRIES),
          counted self e retries retry_delay s)
    else (Ok (retries + 1,
              retry_delay + default 30 (pf_retry_delay_increase (self_preferences self))),
          set_trace (trace (counted self e retries retry_delay s) ++ [Sleep retry_delay])
            (counted self e retries retry_delay s)).
Proof.
  unfold on_failure, counted.
  unfold bind at 1. unfold modify at 1. unfold bind at 1.
  rewrite remove_if_exists_delete. run.
  destruct (_ || _); [|reflexivity].
  rewrite remove_if_exists_delete. cbn. by rewrite delete_delete_eq.
Qed.

Lemma attempt_keeps_retry_count self s r s' :
  attempt W self s = (r, s') → GLOBAL_RETRY_COUNT s' = GLOBAL_RETRY_COUNT s.
Proof.
  unfold attempt, write_stream. run.
  repeat case_match; simplify_eq; cbn; intros; simplify_eq; done.
Qed.

Lemma acquire_loop_step fuel self retries retry_delay s :
  acquire_loop W (S fuel) self retries retry_delay s =
  match attempt W self s with
  | (Ok _, s1) => (Ok retry_delay, s1)
  | (Raise e, s1) =>
      match on_failure self e retries retry_delay s1 with
      | (Ok next, s2) => acquire_loop W fuel self next.1 next.2 s2
      | (Raise e', s2) => (Raise e', s2)
      end
  end.
Proof.
  cbn [acquire_loop]. unfold try_except, bind, ret.
  destruct (attempt W self s) as [[[]|e] s1]; reflexivity.
Qed.

(** The fuel of the loop is never used up: above the global budget that is
    left, one more unit changes nothing. *)
Lemma acquire_loop_fuel self fuel : ∀ (retries retry_delay : nat) (s : state),
  GLOBAL_MAX_RETRIES - GLOBAL_RETRY_COUNT s < fuel →
  acquire_loop W (S fuel) self retries retry_delay s =
  acquire_loop W fuel self retries retry_delay s.
Proof.
  induction fuel as [|fuel IH]; intros retries retry_delay s Hfuel; [lia|].
  rewrite (acquire_loop_step (S fuel)), (acquire_loop_step fuel).
  destruct (attempt W self s) as [[[]|e] s1] eqn:Hattempt; [reflexivity|].
  apply attempt_keeps_retry_count in Hattempt.
  rewrite on_failure_spec.
  destruct (_ || _) eqn:Hstop; [reflexivity|].
  apply orb_false_elim in Hstop as [_ Hglobal]. apply Nat.leb_gt in Hglobal.
  cbn [fst snd]. apply IH. unfold counted.
  cbn [GLOBAL_RETRY_COUNT set_trace set_reg set_disk set_retry_count].
  unfold GLOBAL_MAX_RETRIES in *. lia.
Qed.

(** Acquisitions that all fail run into the local limit: as many passes as
    retries are left, then the terminal exception. *)
Lemma acquire_loop_exhausts self err :
  (∀ n, load_track W (pf_ids (self_preferences self)) (self_dw_quality self) n
        = Raise (err n)) →
  ∀ (remaining fuel retries retry_delay : nat) (s : state),
    1 ≤ remaining → remaining ≤ fuel →
    retries + remaining = default 5 (pf_max_retries (self_preferences self)) →
    GLOBAL_RETRY_COUNT s + remaining ≤ GLOBAL_MAX_RETRIES →
    ∃ s', acquire_loop W fuel self retries retry_delay s =
            (Raise (max_retries_exceeded
                      (default 5 (pf_max_retries (self_preferences self)))
                      GLOBAL_MAX_RETRIES), s') ∧
          feeder_calls s' = feeder_calls s + remaining ∧
          GLOBAL_RETRY_COUNT s' = GLOBAL_RETRY_COUNT s + remaining ∧
          disk s' !! self_song_path self = None ∧
          trace s' = trace s ++
            backoff_trace self err (feeder_calls s) retries retry_delay
              (default 30 (pf_retry_delay_increase (self_preferences self)))
              remaining.
Proof.
  intros Hfail remaining.
  induction remaining as [|rest IH]; intros fuel retries retry_delay s Hpos Hfuel Hmax Hglobal;
    [lia|].
  destruct fuel as [|fuel]; [lia|].
  cbn [acquire_loop backoff_trace]. unfold try_except.
  unfold bind at 1.
  rewrite (attempt_acquisition_fails self s (err (feeder_calls s))) by apply Hfail.
  unfold bind at 1. rewrite on_failure_spec. cbn [GLOBAL_RETRY_COUNT set_feeder_calls].
  destruct rest as [|rest].
  - replace (_ <=? retries + 1)%nat with true
      by (symmetry; apply Nat.leb_le; lia).
    cbn [orb]. eexists. split; [reflexivity|].
    unfold counted; cbn. rewrite lookup_delete_eq.
    repeat split; lia.
  - replace (_ <=? retries + 1)%nat with false
      by (symmetry; apply Nat.leb_gt; lia).
    replace (GLOBAL_MAX_RETRIES <=? _)%nat with false
      by (symmetry; apply Nat.leb_gt; lia).
    cbn [orb fst snd].
    edestruct (IH fuel (retries + 1) (retry_delay +
                 default 30 (pf_retry_delay_increase (self_preferences self))))
      as (s' & -> & Hcalls & Hcount & Hdisk & Htrace); [lia|lia|lia| |].
    2: { eexists. split; [reflexivity|].
         rewrite Hcalls, Hcount, Hdisk, Htrace. unfold counted; cbn.
         repeat split; try lia.
         rewrite <- !app_assoc. reflexivity. }
    unfold counted; cbn. lia.
Qed.

(** The terminal exception of the retry loop, spelled out. *)
Lemma max_retries_exceeded_message (local : nat) :
  max_retries_exceeded local GLOBAL_MAX_RETRIES
  = PyError "Exception"
      ("Maximum retry limit reached (local: " +:+ pretty local +:+ ", global: 100).").
Proof.
  unfold max_retries_exceeded, GLOBAL_MAX_RETRIES.
  assert (pretty 100 = "100") as -> by (vm_compute; reflexivity). reflexivity.
Qed.

(** C5: with [max_retries = 3], the existence check answering "absent",
    every acquisition failing and the global budget not running out first,
    [download_try] makes exactly three acquisitions and raises the terminal
    max-retries exception, an [Exception] whose message names both limits;
    no file is left at the output path.  On the way it reports [progress],
    then for each failure an event with the status [retrying] that carries
    the text of the error of that acquisition, the running count and the
    delay; after the first and the second failure it sleeps for that delay,
    which starts at the configured initial delay and grows by the configured
    increment.  The events are written out field by field. *)
Theorem download_try_exhausts_retries self err s :
  pf_max_retries (self_preferences self) = Some 3 →
  (∀ n, load_track W (pf_ids (self_preferences self)) (self_dw_quality self) n
        = Raise (err n)) →
  GLOBAL_RETRY_COUNT s + 3 ≤ GLOBAL_MAX_RETRIES →
  fst (track_exists W self (music (self_song_metadata self))
         (album (self_song_metadata self)) s) = Ok false →
  let delay := default 30 (pf_initial_retry_delay (self_preferences self)) in
  let increase := default 30 (pf_retry_delay_increase (self_preferences self)) in
  let event st retry error :=
    Report (EvTrack {| te_status := st;
                       te_song := music (self_song_metadata self);
                       te_artist := artist (self_song_metadata self);
                       te_url := pf_link (self_preferences self);
                       te_retry := retry; te_error := error;
                       te_parent := parent_info self |}) in
  let retrying_event count seconds call :=
    event retrying (Some (count, seconds)) (Some (str_exn (err call))) in
  ∃ s', download_try W self s
          = (Raise (PyError "Exception"
                      "Maximum retry limit reached (local: 3, global: 100)."), s') ∧
    feeder_calls s' = feeder_calls s + 3 ∧
    GLOBAL_RETRY_COUNT s' = GLOBAL_RETRY_COUNT s + 3 ∧
    disk s' !! self_song_path self = None ∧
    trace s' = trace s ++
      [event progress None None;
       retrying_event 1 delay (feeder_calls s);
       Sleep delay;
       retrying_event 2 (delay + increase) (S (feeder_calls s));
       Sleep (delay + increase);
       retrying_event 3 (delay + increase + increase) (S (S (feeder_calls s)))].
Proof.
  intros Hmax Hfail Hglobal Habsent delay increase event retrying_event.
  unfold download_try.
  destruct (track_exists_quiet W self (music (self_song_metadata self))
              (album (self_song_metadata self)) s) as (s0 & Hcheck & [l ->]).
  rewrite Hcheck in Habsent. cbn [fst] in Habsent. injection Habsent as Habsent.
  unfold bind at 1. rewrite Hcheck, Habsent.
  unfold bind at 1. unfold report_progress at 1, modify at 1.
  unfold bind at 1. unfold gets at 1. cbn [GLOBAL_RETRY_COUNT set_trace set_logs].
  unfold bind at 1.
  edestruct (acquire_loop_exhausts self err Hfail 3
               (S (GLOBAL_MAX_RETRIES - GLOBAL_RETRY_COUNT s)) 0 delay)
    as (s' & Hloop & Hcalls & Hcount & Hdisk & Htrace); cycle 4.
  { subst delay. rewrite Hmax in Hloop; cbn [default] in Hloop. rewrite Hloop.
    exists s'. split.
    { rewrite max_retries_exceeded_message. do 3 f_equal. }
    rewrite Hcalls, Hcount, Hdisk, Htrace. cbn.
    repeat split; try done.
    rewrite <- app_assoc. reflexivity. }
  all: cbn; rewrite ?Hmax; cbn; unfold GLOBAL_MAX_RETRIES in *; lia.
Qed.

(** X5: when the existence check answers "present", [download_try] reports
    [skipped], marks the track and returns: no acquisition, no change on
    disk or in the registry. *)
Lemma download_try_skips self s :
  fst (track_exists W self (music (self_song_metadata self))
         (album (self_song_metadata self)) s) = Ok true →
  ∃ s', download_try W self s =
          (Ok (set_self_track
                 (set_was_skipped true (set_success false (self_c_track self))) self),
           s') ∧
    disk s' = disk s ∧ reg s' = reg s ∧ feeder_calls s' = feeder_calls s ∧
    trace s' = trace s ++ [Report (track_progress self skipped None None)].
Proof.
  intros Hpresent. unfold download_try.
  destruct (track_exists_quiet W self (music (self_song_metadata self))
              (album (self_song_metadata self)) s) as (s0 & Hcheck & [l ->]).
  rewrite Hcheck in Hpresent. cbn [fst] in Hpresent. injection Hpresent as Hpresent.
  unfold bind at 1. rewrite Hcheck, Hpresent. run.
  eexists. split; [reflexivity|]. done.
Qed.

End Acquisition.

(** ** Container normalization *)

Section Normalization.

Variable W : collaborators.

(** X11: the three ways the normalization of a raw file can go when no target
    format is asked for and the temporary path lies in the directory of the
    output path: ffmpeg writes the container and the temporary file
    is deleted; the call raises and the raw file is moved back; ffmpeg
    fails without the call raising, and then the temporary file, the only
    copy of the raw stream, is deleted all the same. *)
Lemma normalization_outcomes self s raw :
  pf_convert_to (self_preferences self) = None →
  Py.replace (self_song_path self) ".ogg" ".tmp" ≠ self_song_path self →
  Py.dirname (Py.replace (self_song_path self) ".ogg" ".tmp")
    = Py.dirname (self_song_path self) →
  disk s !! self_song_path self = Some raw →
  ∃ r s', __convert_audio W self s = (r, s') ∧
    disk s' !! Py.replace (self_song_path self) ".ogg" ".tmp" = None ∧
    match ffmpeg W raw with
    | FFmpegWrote out => r = Ok self ∧ disk s' !! self_song_path self = Some out
    | SystemRaised e => r = Raise e ∧ disk s' !! self_song_path self = Some raw
    | FFmpegNoOutput => r = Ok self ∧ disk s' !! self_song_path self = None
    end.
Proof.
  intros Hplain Htemp _ Hraw.
  unfold __convert_audio, transcode, system_ffmpeg. rewrite Hplain.
  set (temp := Py.replace (self_song_path self) ".ogg" ".tmp") in *.
  run. rewrite Hraw. cbn. rewrite lookup_insert_eq.
  destruct (ffmpeg W raw) as [out| |e]; cbn.
  - rewrite lookup_insert_ne, lookup_insert_eq by done.
    rewrite bool_decide_eq_true_2 by eauto. cbn.
    rewrite lookup_insert_ne, lookup_insert_eq by done.
    do 2 eexists. split; [reflexivity|]. cbn.
    rewrite lookup_delete_eq, lookup_delete_ne, lookup_insert_eq by done. done.
  - rewrite lookup_insert_eq.
    rewrite bool_decide_eq_true_2 by eauto. cbn. rewrite lookup_insert_eq.
    do 2 eexists. split; [reflexivity|]. cbn.
    rewrite lookup_delete_eq, lookup_delete_ne, lookup_insert_ne, lookup_delete_eq
      by done. done.
  - rewrite lookup_insert_eq.
    rewrite bool_decide_eq_true_2 by eauto.
    rewrite lookup_insert_ne, lookup_delete_eq by done.
    rewrite bool_decide_eq_false_2 by (by intros [? ?]). cbn.
    rewrite lookup_insert_eq. cbn.
    rewrite lookup_insert_ne, lookup_delete_eq by done.
    rewrite bool_decide_eq_false_2 by (by intros [? ?]). cbn.
    do 2 eexists. split; [reflexivity|]. cbn.
    rewrite lookup_insert_ne, lookup_delete_eq, lookup_insert_eq by done. done.
Qed.

End Normalization.

(** ** Batch aggregation *)

Section Aggregates.

Variable W : collaborators.

Lemma append_to_m3u_writes output_dir playlist_name track_path s :
  refused W (Py.join (Py.join output_dir "playlists") (playlist_name +:+ ".m3u")) = false →
  ∃ s', append_to_m3u W output_dir playlist_name track_path s = (Ok tt, s').
Proof.
  intros Hopen. unfold append_to_m3u, open_truncate, open_append. run.
  rewrite Hopen. case_bool_decide; cbn; eauto.
Qed.

Lemma record_failure_records m number g e s :
  ∃ g' s', record_failure m number g e s = (Ok g', s') ∧
    g_tracks g' = g_tracks g ++ [playlist_placeholder m] ∧
    g_failed_indices g' = g_failed_indices g ++ [number].
Proof. unfold record_failure. run. eauto. Qed.

Lemma download_item_spec c_preferences s :
  download_item W c_preferences s =
  match EASY_DW_init W c_preferences (Some playlist_parent) with
  | Raise e => (Ok (inr e), s)
  | Ok self =>
      match easy_dw W self s with
      | (Ok track, s1) => (Ok (inl track), s1)
      | (Raise e, s1) => (Ok (inr e), s1)
      end
  end.
Proof.
  unfold download_item, try_except, bind, lift, ret.
  destruct (EASY_DW_init W c_preferences _); [|done].
  by destruct (easy_dw W _ s) as [[]].
Qed.

(** One turn of the playlist loop never raises and appends one entry: the
    one of the item's orchestrator, started in the state of the turn. *)
Lemma playlist_item_entry preferences json g number m s :
  refused W (m3u_path preferences json) = false →
  ∃ g' s',
    playlist_item W preferences json (default "Unknown Playlist" (js_title json))
      g number m s = (Ok g', s') ∧
    g_tracks g' = g_tracks g ++
      [playlist_entry m (fst (playlist_orchestrator W preferences json number m s))].
Proof.
  intros Hopen. unfold playlist_item, playlist_orchestrator.
  set (c_preferences := item_preferences _ _ _ _ _ _).
  unfold bind at 1. rewrite download_item_spec.
  unfold bind at 2, lift.
  destruct (EASY_DW_init W c_preferences (Some playlist_parent)) as [self|e] eqn:Hinit.
  2: { destruct (record_failure_records m number g e s) as (g' & s' & -> & Ht & Hf).
       exists g', s'. done. }
  destruct (easy_dw W self s) as [[track|e] s1] eqn:Hdw.
  2: { destruct (record_failure_records m number g e s1) as (g' & s' & -> & Ht & Hf).
       exists g', s'. done. }
  assert (∃ s2, when (success track && Py.truthy_opt (song_path track))
                  (append_to_m3u W (pf_output_dir preferences)
                     (default "Unknown Playlist" (js_title json))
                     (default "" (song_path track))) s1 = (Ok tt, s2))
    as (s2 & Hm3u).
  { unfold when. destruct (_ && _); [|by eexists].
    by apply append_to_m3u_writes. }
  unfold try_except, bind. rewrite Hm3u. unfold ret.
  destruct (success track); cbn [negb]; do 2 eexists; (split; [reflexivity|]); done.
Qed.

Lemma playlist_loop_run preferences json items :
  refused W (m3u_path preferences json) = false →
  ∀ (g : gathered) (idx : nat) (s : state),
  ∃ g' s',
    playlist_loop W preferences json (default "Unknown Playlist" (js_title json))
      g idx items s = (Ok g', s') ∧
    g_tracks g' = g_tracks g ++ playlist_entries_of_run W preferences json g idx items s ∧
    length (playlist_entries_of_run W preferences json g idx items s)
      = length (resolved_from idx items).
Proof.
  intros Hopen.
  induction items as [|[m|message] rest IH]; intros g idx s;
    cbn [playlist_loop playlist_entries_of_run resolved_from].
  - exists g, s. by rewrite app_nil_r.
  - destruct (playlist_item_entry preferences json g (idx + 1) m s Hopen)
      as (g1 & s1 & Hitem & Htracks).
    unfold bind. rewrite Hitem.
    destruct (IH g1 (S idx) s1) as (g2 & s2 & -> & Htracks2 & Hlength).
    exists g2, s2. split; [done|].
    rewrite Htracks2, Htracks, <- app_assoc. cbn [length]. by rewrite Hlength.
  - run. apply IH.
Qed.

Lemma resolved_from_length items : ∀ idx,
  length (resolved_from idx items) + length (unresolved items) = length items.
Proof.
  induction items as [|[m|message] rest IH]; intros idx; simpl; [done| |];
    specialize (IH (S idx)); lia.
Qed.

Lemma playlist_placeholder_failed m :
  success (playlist_placeholder m) = false ∧
  song_path (playlist_placeholder m) = None ∧
  tags (playlist_placeholder m) = m.
Proof. done. Qed.

(** A playlist download returns, with the entries of its run. *)
Lemma playlist_entries preferences json items s :
  refused W (m3u_path preferences json) = false →
  ∃ pl s',
    DW_PLAYLIST_dw W preferences json items s = (Ok pl, s') ∧
    playlist_tracks pl =
      playlist_entries_of_run W preferences json
        {| g_tracks := []; g_failed_indices := []; g_failed_errors := [] |} 0 items
        (set_trace
           (trace s ++
            [Report (EvBatch playlist_parent initializing
                       (default "Unknown Playlist" (js_title json))
                       (default 0 (js_nb_tracks json)) None)]) s) ∧
    length (playlist_tracks pl) + length (unresolved items) = length items.
Proof.
  intros Hopen. unfold DW_PLAYLIST_dw.
  unfold bind at 1. unfold report_progress at 1, modify at 1.
  unfold bind at 1.
  edestruct (playlist_loop_run preferences json items Hopen)
    as (g & s1 & -> & Htracks & Hlength).
  cbn [g_tracks app] in Htracks.
  unfold bind at 1.
  match goal with
  | |- context [let (_, _) := ?zip ?st in _] =>
      assert (∃ z s2, zip st = (Ok z, s2)) as (z & s2 & ->)
  end.
  { destruct (pf_make_zip preferences && existsb success (g_tracks g)); [|by do 2 eexists].
    unfold try_except.
    match goal with |- context [let (_, _) := ?body s1 in _] => destruct (body s1) as [[]] end;
      run; eauto. }
  run. do 2 eexists. split; [reflexivity|]. cbn.
  split; [exact Htracks|].
  rewrite Htracks, Hlength. apply resolved_from_length.
Qed.

(** A turn of the album loop that goes on appends the entry of the track's
    orchestrator, started in the state of the turn. *)
Lemma album_item_entry preferences md image tracks a s tracks' s' :
  album_item W preferences md image tracks a s = (Ok tracks', s') →
  ∃ m track,
    am_items md !! a = Some m ∧
    album_entry (set_image (ImageBytes image) m)
      (fst (album_orchestrator W preferences a (set_image (ImageBytes image) m) s))
      = Some track ∧
    tracks' = tracks ++ [track].
Proof.
  unfold album_item. unfold bind at 1.
  destruct (am_items md !! a) as [m|] eqn:Hm; [|by run].
  unfold ret at 1.
  change (bind
            (try_except_TrackNotFound
               (album_orchestrator W preferences a (set_image (ImageBytes image) m))
               (ret (album_placeholder (set_image (ImageBytes image) m))))
            (λ track, ret (tracks ++ [track])) s = (Ok tracks', s') →
          ∃ m0 track,
            Some m = Some m0 ∧
            album_entry (set_image (ImageBytes image) m0)
              (fst (album_orchestrator W preferences a
                      (set_image (ImageBytes image) m0) s)) = Some track ∧
            tracks' = tracks ++ [track]).
  unfold bind, try_except_TrackNotFound.
  destruct (album_orchestrator W preferences a (set_image (ImageBytes image) m) s)
    as [[track|[msg|cls msg]] s1] eqn:Hrun; unfold ret; intros; simplify_eq;
    exists m; eexists; rewrite Hrun; done.
Qed.

(** An exception of the orchestrator that is no [TrackNotFound] leaves the
    turn of the album loop as it is. *)
Lemma album_item_propagates preferences md image tracks a m self s cls msg s' :
  am_items md !! a = Some m →
  EASY_DW_init W
    (item_preferences preferences (md_ids m)
       ("https://open.spotify.com/track/" +:+ md_ids m)
       (set_image (ImageBytes image) m) (pf_json_data preferences) (a + 1))
    (Some album_parent) = Ok self →
  download_try W self s = (Raise (PyError cls msg), s') →
  album_item W preferences md image tracks a s = (Raise (PyError cls msg), s').
Proof.
  intros Hm Hinit Hdw. unfold album_item. rewrite Hm.
  unfold bind at 1, ret at 1. cbn [md_ids set_image].
  unfold bind at 1, try_except_TrackNotFound, bind at 1, lift at 1.
  rewrite Hinit. unfold bind at 1. by rewrite Hdw.
Qed.

Lemma album_loop_run preferences md image indices : ∀ tracks s tracks' s',
  album_loop W preferences md image tracks indices s = (Ok tracks', s') →
  tracks' = tracks ++ album_entries_of_run W preferences md image tracks indices s ∧
  length (album_entries_of_run W preferences md image tracks indices s) = length indices.
Proof.
  induction indices as [|a rest IH]; intros tracks s tracks' s';
    cbn [album_loop album_entries_of_run].
  - run. intros; simplify_eq. by rewrite app_nil_r.
  - unfold bind.
    destruct (album_item W preferences md image tracks a s) as [[tracks1|e] s1] eqn:Hitem;
      [|done].
    intros Hloop.
    apply album_item_entry in Hitem as (m & track & -> & -> & ->).
    apply IH in Hloop as [-> Hlength].
    by rewrite <- app_assoc; cbn [length]; rewrite Hlength.
Qed.

(** An album download that returns holds the entries of its run, one per
    track. *)
Lemma album_entries preferences md s al s' :
  DW_ALBUM_dw W preferences md s = (Ok al, s') →
  ∃ image,
    request W (image_source (am_image md)) = Ok image ∧
    album_tracks al =
      album_entries_of_run W preferences md image [] (seq 0 (am_nb_tracks md))
        (set_trace
           (trace s ++
            [Report (EvBatch album_parent initializing (am_album md)
                       (am_nb_tracks md) None)]) s) ∧
    length (album_tracks al) = am_nb_tracks md.
Proof.
  unfold DW_ALBUM_dw.
  unfold bind at 1. unfold report_progress at 1, modify at 1.
  unfold bind at 1, lift at 1.
  destruct (request W _) as [image|e]; [|done].
  unfold bind at 1.
  destruct (album_loop W preferences md image [] (seq 0 (am_nb_tracks md)) _)
    as [[tracks|e] s1] eqn:Hloop; [|done].
  apply album_loop_run in Hloop as [Htracks Hlength]. cbn [app] in Htracks.
  intros Hrest.
  assert (album_tracks al = tracks) as ->.
  { revert Hrest. run. repeat case_match; intros; simplify_eq; done. }
  exists image. split; [done|]. split; [done|].
  by rewrite Htracks, Hlength, length_seq.
Qed.

(** C3 (amended): a playlist download whose playlist file can be opened
    returns an aggregate with exactly one entry per resolved item, in input
    order: the members that are error strings get no entry, so the entries
    and the error strings together are as many as the members.  The entry
    of an item is what its orchestrator returned in this run, started in the
    state the run had reached, or, when the orchestrator raised, a
    placeholder with [success = False] and no path.  An album download that
    returns holds exactly one entry per track, in track order: what the
    track's orchestrator returned in this run, or a placeholder with
    [success = False] and no path when it raised [TrackNotFound]. *)
Theorem aggregate_entries preferences :
  (∀ json items s,
     refused W (m3u_path preferences json) = false →
     ∃ pl s',
       DW_PLAYLIST_dw W preferences json items s = (Ok pl, s') ∧
       playlist_tracks pl =
         playlist_entries_of_run W preferences json
           {| g_tracks := []; g_failed_indices := []; g_failed_errors := [] |} 0 items
           (set_trace
              (trace s ++
               [Report (EvBatch playlist_parent initializing
                          (default "Unknown Playlist" (js_title json))
                          (default 0 (js_nb_tracks json)) None)]) s) ∧
       length (playlist_tracks pl) + length (unresolved items) = length items) ∧
  (∀ md s al s',
     DW_ALBUM_dw W preferences md s = (Ok al, s') →
     ∃ image,
       request W (image_source (am_image md)) = Ok image ∧
       album_tracks al =
         album_entries_of_run W preferences md image [] (seq 0 (am_nb_tracks md))
           (set_trace
              (trace s ++
               [Report (EvBatch album_parent initializing (am_album md)
                          (am_nb_tracks md) None)]) s) ∧
       length (album_tracks al) = am_nb_tracks md) ∧
  (∀ m, success (playlist_placeholder m) = false ∧
        song_path (playlist_placeholder m) = None ∧
        success (album_placeholder m) = false ∧
        song_path (album_placeholder m) = None).
Proof.
  split; [|split]; [eauto using playlist_entries|eauto using album_entries|done].
Qed.

End Aggregates.

(** ** The model on concrete runs *)

Section Runs.

Import Scenario.

(** C7, on a run: ffmpeg fails without writing anything.  The stage
    returns normally, and neither the output path nor the temporary path
    holds a file: the raw stream is lost instead of restored. *)
Lemma failed_normalization_loses_raw_file :
  let self := item broken_ffmpeg "Song" 3 in
  let s := with_file "out/Song.ogg" "|||raw" st0 in
  let r := __convert_audio broken_ffmpeg self s in
  self_song_path self = "out/Song.ogg" ∧
  fst r = Ok self ∧
  disk (snd r) !! "out/Song.ogg" = None ∧
  disk (snd r) !! "out/Song.tmp" = None.
Proof. vm_compute. done. Qed.

(** When the call of ffmpeg itself raises, the raw file is moved back and the
    exception goes on to the caller. *)
Lemma raising_normalization_restores_raw_file :
  let self := item no_ffmpeg "Song" 3 in
  let s := with_file "out/Song.ogg" "|||raw" st0 in
  let r := __convert_audio no_ffmpeg self s in
  fst r = Raise (PyError "OSError" "ffmpeg") ∧
  disk (snd r) !! "out/Song.ogg" = Some "|||raw" ∧
  disk (snd r) !! "out/Song.tmp" = None.
Proof. vm_compute. done. Qed.

(** C2, on a run: reading the stream fails during the write.  The partial
    file is removed and the path unregistered, but the read error is not
    raised: the orchestrator goes on to the conversion, which fails twice
    on the missing file, reports two errors around a backoff sleep and
    raises its own exception. *)
Lemma write_failure_goes_on_to_conversion :
  let self := item broken_stream "Song" 3 in
  let r := download_try broken_stream self st0 in
  fst r = Raise (PyError "FileNotFoundError" "out/Song.ogg") ∧
  fst r ≠ Raise (PyError "IOError" "read failed") ∧
  feeder_calls (snd r) = 1 ∧
  disk (snd r) !! "out/Song.ogg" = None ∧
  statuses (trace (snd r)) = [progress; error; error] ∧
  trace (snd r) !! 2 = Some (Sleep 5).
Proof. vm_compute. done. Qed.

(** C4, on a run through [easy_dw]: the output directory holds a file
    whose title and album match.  The result is a skip, the events are
    [progress] and [skipped], the stream is never asked for; but the tag
    writer runs on the skipped track and the file no longer holds the bytes
    it held. *)
Lemma skip_through_easy_dw_rewrites_the_file :
  let self := item online "Song" 3 in
  let s := with_file "out/Song.ogg" "Song|Album||old" st0 in
  let r := easy_dw online self s in
  fst (track_exists online self "Song" "Album" s) = Ok true ∧
  (∃ t, fst r = Ok t ∧ success t = false ∧ was_skipped t = true) ∧
  statuses (trace (snd r)) = [progress; skipped] ∧
  feeder_calls (snd r) = 0 ∧
  disk s !! "out/Song.ogg" = Some "Song|Album||old" ∧
  disk (snd r) !! "out/Song.ogg" = Some "Song|Album|jpeg|old".
Proof. vm_compute. repeat split; try done. eexists. done. Qed.

(** C6, on a run: a playlist of one item whose file is already there.  The
    entry is a skip and no [error] event is reported, but the position of
    the item is recorded as failed and the closing event counts one failed
    track. *)
Lemma playlist_counts_a_skip_as_a_failure :
  let s := with_file "out/Song.ogg" "Song|Album||old" st0 in
  let r := DW_PLAYLIST_dw online (prefs "Mix" 3) json [Resolved (meta "Song")] s in
  (∃ pl, fst r = Ok pl ∧
         (was_skipped <$> playlist_tracks pl) = [true] ∧
         failed_track_indices pl = [1] ∧
         failed_track_errors pl = ["Track 1 had issues: Song - Artist"]) ∧
  (error ∉ statuses (trace (snd r))) ∧
  last (trace (snd r)) =
    Some (Report (EvBatch playlist_parent done "Mix" 2 (Some (0, 1)))).
Proof.
  vm_compute. split; [eexists; done|]. split; [|done].
  intros Hin. repeat (apply elem_of_cons in Hin as [Hin|Hin]; [done|]).
  by apply elem_of_nil in Hin.
Qed.

(** C1, on a run: an album of one track whose stream cannot be acquired.
    The exception of the item is not a [TrackNotFound], and it ends the
    album download: no aggregate is returned. *)
Lemma album_aborts_on_an_item_failure :
  fst (DW_ALBUM_dw offline (prefs "Album" 1) one_track_album st0)
  = Raise (max_retries_exceeded 1 GLOBAL_MAX_RETRIES).
Proof. vm_compute. done. Qed.

(** The same item in a playlist: the download returns, with a placeholder. *)
Lemma playlist_survives_an_item_failure :
  ∃ pl, fst (DW_PLAYLIST_dw offline (prefs "Mix" 1) json [Resolved (meta "Song")] st0)
        = Ok pl ∧
        playlist_tracks pl = [playlist_placeholder (meta "Song")] ∧
        failed_track_indices pl = [1].
Proof. vm_compute. eexists. done. Qed.

(** C3, the claim as stated fails: of two item descriptors, one of them an
    error string, the aggregate holds one entry. *)
Lemma unresolved_item_gets_no_entry :
  let items := [Resolved (meta "Song"); Unresolved "Track not found"] in
  ∃ pl, fst (DW_PLAYLIST_dw offline (prefs "Mix" 1) json items st0) = Ok pl ∧
        length items = 2 ∧ length (playlist_tracks pl) = 1.
Proof. vm_compute. eexists. done. Qed.

(** The retry theorem at work: three timeouts in a row on a fresh process. *)
Lemma download_try_exhausts_retries_witness :
  let retrying_event count seconds :=
    Report (EvTrack {| te_status := retrying; te_song := "Song"; te_artist := "Artist";
                       te_url := "https://open.spotify.com/track/id-Song";
                       te_retry := Some (count, seconds);
                       te_error := Some "timed out"; te_parent := None |}) in
  ∃ s', download_try offline (item offline "Song" 3) st0
          = (Raise (PyError "Exception"
                      "Maximum retry limit reached (local: 3, global: 100)."), s') ∧
        feeder_calls s' = 3 ∧
        disk s' !! "out/Song.ogg" = None ∧
        trace s' =
          [Report (EvTrack {| te_status := progress; te_song := "Song";
                              te_artist := "Artist";
                              te_url := "https://open.spotify.com/track/id-Song";
                              te_retry := None; te_error := None; te_parent := None |});
           retrying_event 1 5; Sleep 5;
           retrying_event 2 15; Sleep 15;
           retrying_event 3 25].
Proof.
  destruct (download_try_exhausts_retries offline (item offline "Song" 3)
              (λ _, timeout) st0) as (s' & Hrun & Hcalls & _ & Hdisk & Htrace).
  - reflexivity.
  - intros n. reflexivity.
  - vm_compute. lia.
  - vm_compute. reflexivity.
  - exists s'. rewrite Htrace. split; [exact Hrun|]. split; [exact Hcalls|].
    split; [exact Hdisk|]. reflexivity.
Defined.

End Runs.

(** * Further properties of the code *)

(** ** The registry *)

(** X1: unregistering the path that was registered last removes it from the
    active set and leaves no current pointer, whatever was current before;
    unregistering any other path leaves the last registered one current. *)
Theorem unregister_after_register p r :
  ACTIVE_DOWNLOADS (unregister_active_download p (register_active_download p r))
    = ACTIVE_DOWNLOADS r ∖ {[p]} ∧
  CURRENT_DOWNLOAD (unregister_active_download p (register_active_download p r)) = None ∧
  (∀ q, q ≠ p →
     CURRENT_DOWNLOAD (unregister_active_download q (register_active_download p r))
     = Some p).
Proof.
  unfold unregister_active_download, register_active_download. cbn.
  rewrite bool_decide_eq_true_2
    by (apply elem_of_union; left; by apply elem_of_singleton).
  cbn. rewrite bool_decide_eq_true_2 by done.
  split.
  { apply set_eq. intros x.
    rewrite !elem_of_difference, elem_of_union, elem_of_singleton. tauto. }
  split; [reflexivity|].
  intros q Hq. case_bool_decide; [|done]. cbn.
  rewrite bool_decide_eq_false_2; [done|congruence].
Qed.

Lemma registry_step_invariant r calls :
  current_is_active r → CLEANUP_LOCK r = false →
  current_is_active (foldl registry_step r calls) ∧
  CLEANUP_LOCK (foldl registry_step r calls) = false.
Proof.
  revert r. induction calls as [|[p|p] calls IH]; intros r Hr Hlock;
    cbn [foldl registry_step]; [done| |].
  - apply IH; [apply register_current_is_active|done].
  - apply IH; [by apply unregister_current_is_active|].
    unfold unregister_active_download.
    destruct (bool_decide (p ∈ ACTIVE_DOWNLOADS r)); exact Hlock.
Qed.

(** X2: whatever registrations and unregistrations a process has made, a
    current pointer that is set names a member of the active set, and the
    cleanup lock is free. *)
Theorem registry_current_is_registered (calls : list registry_call) :
  current_is_active (registry_after calls) ∧
  CLEANUP_LOCK (registry_after calls) = false.
Proof. apply registry_step_invariant; [|done]. by intros p. Qed.

(** ** The existence check *)

Section ExistenceCheckMore.

Variable W : collaborators.

Lemma read_metadata_unsupported file_path s :
  Py.endswith file_path ".mp3" = false →
  Py.endswith file_path ".ogg" = false →
  Py.endswith file_path ".flac" = false →
  Py.endswith file_path ".m4a" = false →
  fst (read_metadata W file_path s) = Ok (None, None).
Proof.
  intros Hmp3 Hogg Hflac Hm4a. unfold read_metadata. run.
  rewrite Hmp3, Hogg, Hflac, Hm4a.
  repeat case_match; simplify_eq; done.
Qed.

(** X4: the existence check takes files ending in .wav or .opus, and files
    whose extension is in upper case, as candidates, but the reader knows the
    four lower-case suffixes .mp3, .ogg, .flac and .m4a only: a final
    directory without a file on one of these is answered with [False],
    whatever tags its files carry. *)
Theorem track_exists_misses_other_suffixes self title album s :
  (∀ file, file ∈ entries (final_directory W self) (disk s) →
           Forall (λ suffix, Py.endswith (Py.join (final_directory W self) file) suffix
                             = false)
             [".mp3"; ".ogg"; ".flac"; ".m4a"]) →
  fst (track_exists W self title album s) = Ok false.
Proof.
  intros Hsuffix.
  destruct (track_exists_quiet W self title album s) as (s' & -> & _). cbn [fst].
  f_equal. unfold track_present.
  destruct (existsb _ _) eqn:Hex; [|by rewrite andb_false_r].
  apply existsb_exists in Hex as (file & Hin & Hm).
  apply list_elem_of_In in Hin. specialize (Hsuffix file Hin).
  apply Forall_cons in Hsuffix as [Hmp3 Hs]. apply Forall_cons in Hs as [Hogg Hs].
  apply Forall_cons in Hs as [Hflac Hs]. apply Forall_cons in Hs as [Hm4a _].
  unfold matching_file in Hm.
  apply andb_prop in Hm as [Hm _]. apply andb_prop in Hm as [_ Htitle].
  apply bool_decide_eq_true_1 in Htitle.
  pose proof (read_metadata_unsupported _ s Hmp3 Hogg Hflac Hm4a) as Hread.
  destruct (read_metadata_quiet W (Py.join (final_directory W self) file) s)
    as (s1 & Hq & _).
  rewrite Hq in Hread. cbn [fst] in Hread. injection Hread as Hread.
  rewrite Hread in Htitle. discriminate.
Qed.

(** X3: the answer of the existence check, exactly: [True] if and only if the
    final directory has a name, can be listed, and holds an entry with an
    audio extension whose title and album read back as the requested ones. *)
Theorem track_exists_answer self title album s :
  fst (track_exists W self title album s) = Ok true ↔
  Py.truthy (final_directory W self) = true ∧
  refused W (final_directory W self) = false ∧
  ∃ file, file ∈ entries (final_directory W self) (disk s) ∧
          has_audio_extension file = true ∧
          fst (read_metadata W (Py.join (final_directory W self) file) s)
          = Ok (Some title, Some album).
Proof.
  destruct (track_exists_quiet W self title album s) as (s' & -> & _). cbn [fst].
  assert (Htags : ∀ file,
    fst (read_metadata W (Py.join (final_directory W self) file) s)
      = Ok (Some title, Some album) ↔
    (tags_on_disk W (Py.join (final_directory W self) file) (disk s)).1 = Some title ∧
    (tags_on_disk W (Py.join (final_directory W self) file) (disk s)).2 = Some album).
  { intros file.
    destruct (read_metadata_quiet W (Py.join (final_directory W self) file) s)
      as (s1 & -> & _). cbn [fst].
    destruct (tags_on_disk _ _ _) as [t a]; cbn. split.
    - intros [= -> ->]. done.
    - intros [-> ->]. done. }
  unfold track_present. split.
  - intros [= Hp].
    apply andb_prop in Hp as [Hp Hex]. apply andb_prop in Hp as [Hp Href].
    apply andb_prop in Hp as [Htruthy _].
    split; [done|]. split; [by destruct (refused W _)|].
    apply existsb_exists in Hex as (file & Hin & Hm).
    exists file. split; [by apply list_elem_of_In|].
    unfold matching_file in Hm.
    apply andb_prop in Hm as [Hm Halbum]. apply andb_prop in Hm as [Hext Htitle].
    apply bool_decide_eq_true_1 in Halbum, Htitle.
    split; [done|]. by apply Htags.
  - intros (Htruthy & Href & file & Hin & Hext & Hread).
    apply Htags in Hread as [Htitle Halbum].
    f_equal. rewrite Htruthy, Href. cbn [andb negb].
    rewrite bool_decide_eq_true_2.
    2: { intros Hnil. rewrite Hnil in Hin. by apply elem_of_nil in Hin. }
    cbn [andb]. apply existsb_exists. exists file.
    split; [by apply list_elem_of_In|].
    unfold matching_file. rewrite Hext. cbn [andb].
    by rewrite !bool_decide_eq_true_2.
Qed.

End ExistenceCheckMore.

(** ** Giving up *)

Section GivingUp.

Variable W : collaborators.

(** Acquisitions that all fail, under both limits at once: the loop stops
    at the first failure that reaches the local or the global limit, and
    not before. *)
Lemma acquire_loop_gives_up self err :
  (∀ n, load_track W (pf_ids (self_preferences self)) (self_dw_quality self) n
        = Raise (err n)) →
  ∀ (attempts fuel retries retry_delay : nat) (s : state),
    1 ≤ attempts → attempts ≤ fuel →
    (default 5 (pf_max_retries (self_preferences self)) ≤ retries + attempts ∨
     GLOBAL_MAX_RETRIES ≤ GLOBAL_RETRY_COUNT s + attempts) →
    (attempts = 1 ∨
     retries + attempts ≤ default 5 (pf_max_retries (self_preferences self)) ∧
     GLOBAL_RETRY_COUNT s + attempts ≤ GLOBAL_MAX_RETRIES) →
    ∃ s', acquire_loop W fuel self retries retry_delay s =
            (Raise (max_retries_exceeded
                      (default 5 (pf_max_retries (self_preferences self)))
                      GLOBAL_MAX_RETRIES), s') ∧
          feeder_calls s' = feeder_calls s + attempts ∧
          GLOBAL_RETRY_COUNT s' = GLOBAL_RETRY_COUNT s + attempts ∧
          disk s' !! self_song_path self = None ∧
          (self_song_path self ∉ ACTIVE_DOWNLOADS (reg s')) ∧
          trace s' = trace s ++
            backoff_trace self err (feeder_calls s) retries retry_delay
              (default 30 (pf_retry_delay_increase (self_preferences self)))
              attempts.
Proof.
  intros Hfail attempts.
  induction attempts as [|rest IH];
    intros fuel retries retry_delay s Hpos Hfuel Hstop Hbefore; [lia|].
  destruct fuel as [|fuel]; [lia|].
  rewrite acquire_loop_step.
  rewrite (attempt_acquisition_fails W self s (err (feeder_calls s))) by apply Hfail.
  rewrite on_failure_spec. cbn [GLOBAL_RETRY_COUNT set_feeder_calls backoff_trace].
  destruct rest as [|rest].
  - replace (_ || _) with true.
    2: { symmetry. apply orb_true_iff.
         destruct Hstop; [left|right]; apply Nat.leb_le; lia. }
    eexists. split; [reflexivity|].
    unfold counted; cbn. rewrite lookup_delete_eq.
    repeat split; try lia.
    unfold unregister_active_download.
    case_bool_decide as Hin; cbn; [|exact Hin].
    apply not_elem_of_difference. right. by apply elem_of_singleton.
  - destruct Hbefore as [|[Hlocal Hglobal]]; [lia|].
    replace (_ <=? retries + 1)%nat with false
      by (symmetry; apply Nat.leb_gt; lia).
    replace (GLOBAL_MAX_RETRIES <=? _)%nat with false
      by (symmetry; apply Nat.leb_gt; lia).
    cbn [orb fst snd].
    edestruct (IH fuel (retries + 1) (retry_delay +
                 default 30 (pf_retry_delay_increase (self_preferences self))))
      as (s' & -> & Hcalls & Hcount & Hdisk & Hreg & Htrace); cycle 4.
    { eexists. split; [reflexivity|].
      rewrite Hcalls, Hcount, Hdisk, Htrace. unfold counted; cbn.
      repeat split; try lia; try done.
      rewrite <- !app_assoc. reflexivity. }
    all: unfold counted; cbn; lia.
Qed.

Lemma backoff_trace_events self err increase remaining :
  ∀ call retries retry_delay,
    backoff_trace self err call retries retry_delay increase remaining
    = backoff_events self err call retries retry_delay increase remaining.
Proof.
  induction remaining as [|rest IH]; intros call retries retry_delay; [reflexivity|].
  cbn [backoff_trace backoff_events].
  destruct rest as [|rest]; [reflexivity|]. rewrite IH. reflexivity.
Qed.

(** X6: when the track is not on disk and every acquisition fails,
    [download_try] raises the max-retries exception, an [Exception] whose
    message names both limits, after
    [max 1 (min max_retries (GLOBAL_MAX_RETRIES - GLOBAL_RETRY_COUNT))]
    acquisitions: at least one, whatever the limits, and one only once the
    global count, which is never reset, has reached its maximum.  Each
    failure is counted and reported by an event with the status [retrying]
    that carries the running count, the delay and the text of the error of
    that acquisition; the output path is left neither on disk nor
    registered.  The events are written out field by field. *)
Theorem download_try_gives_up self err s :
  (∀ n, load_track W (pf_ids (self_preferences self)) (self_dw_quality self) n
        = Raise (err n)) →
  fst (track_exists W self (music (self_song_metadata self))
         (album (self_song_metadata self)) s) = Ok false →
  let max_retries := default 5 (pf_max_retries (self_preferences self)) in
  let attempts :=
    1 `max` (max_retries `min` (GLOBAL_MAX_RETRIES - GLOBAL_RETRY_COUNT s)) in
  ∃ s', download_try W self s
          = (Raise (PyError "Exception"
                      ("Maximum retry limit reached (local: " +:+ pretty max_retries +:+
                       ", global: 100).")), s') ∧
    feeder_calls s' = feeder_calls s + attempts ∧
    GLOBAL_RETRY_COUNT s' = GLOBAL_RETRY_COUNT s + attempts ∧
    disk s' !! self_song_path self = None ∧
    (self_song_path self ∉ ACTIVE_DOWNLOADS (reg s')) ∧
    trace s' = trace s ++
      track_report self progress None None ::
      backoff_events self err (feeder_calls s) 0
        (default 30 (pf_initial_retry_delay (self_preferences self)))
        (default 30 (pf_retry_delay_increase (self_preferences self)))
        attempts.
Proof.
  intros Hfail Habsent max_retries attempts.
  unfold download_try.
  destruct (track_exists_quiet W self (music (self_song_metadata self))
              (album (self_song_metadata self)) s) as (s0 & Hcheck & [l ->]).
  rewrite Hcheck in Habsent. cbn [fst] in Habsent. injection Habsent as Habsent.
  unfold bind at 1. rewrite Hcheck, Habsent.
  unfold bind at 1. unfold report_progress at 1, modify at 1.
  unfold bind at 1. unfold gets at 1. cbn [GLOBAL_RETRY_COUNT set_trace set_logs].
  unfold bind at 1.
  edestruct (acquire_loop_gives_up self err Hfail attempts
               (S (GLOBAL_MAX_RETRIES - GLOBAL_RETRY_COUNT s)) 0
               (default 30 (pf_initial_retry_delay (self_preferences self))))
    as (s' & Hloop & Hcalls & Hcount & Hdisk & Hreg & Htrace); cycle 4.
  { rewrite Hloop. exists s'. split.
    { by rewrite max_retries_exceeded_message. }
    rewrite Hcalls, Hcount, Hdisk, Htrace, backoff_trace_events. cbn.
    repeat split; try done.
    rewrite <- app_assoc. reflexivity. }
  all: cbn [GLOBAL_RETRY_COUNT set_trace set_logs]; subst attempts max_retries;
    unfold GLOBAL_MAX_RETRIES in *; lia.
Qed.

End GivingUp.

(** ** The track a download returns *)

Section Returned.

Variable W : collaborators.

Lemma write_track_idempotent self :
  __write_track W (__write_track W self) = __write_track W self.
Proof. reflexivity. Qed.

(** The constructor leaves the object as [__write_track] leaves it. *)
Lemma EASY_DW_init_written preferences parent self :
  EASY_DW_init W preferences parent = Ok self → __write_track W self = self.
Proof.
  unfold EASY_DW_init. destruct (qualities W _) as [[[n f] q]|]; [|done].
  intros [= <-]. reflexivity.
Qed.

(** Two objects of the same item: they may differ by the path and the
    track they hold, which [__write_track] computes afresh. *)
Lemma transcode_same_item self s self' s' :
  transcode W self s = (Ok self', s') → __write_track W self' = __write_track W self.
Proof.
  unfold transcode, run_convert_audio. run.
  repeat case_match; simplify_eq; intros; simplify_eq; reflexivity.
Qed.

Lemma convert_audio_same_item self s self' s' :
  __convert_audio W self s = (Ok self', s') →
  __write_track W self' = __write_track W self.
Proof.
  unfold __convert_audio.
  set (temp := Py.replace (self_song_path self) ".ogg" ".tmp").
  unfold bind at 1. destruct (os_replace _ _ s) as [[[]|e] s1]; [|done].
  unfold bind at 1. destruct (register temp s1) as [[[]|e] s2]; [|done].
  unfold try_except.
  unfold bind at 1. destruct (system_ffmpeg W _ _ s2) as [[[]|e] s3].
  2: { run. repeat case_match; simplify_eq; done. }
  unfold bind at 1. destruct (register _ s3) as [[[]|e] s4].
  2: { run. repeat case_match; simplify_eq; done. }
  unfold bind at 1. destruct (os_path_exists temp s4) as [[there|e] s5].
  2: { run. repeat case_match; simplify_eq; done. }
  unfold bind at 1. destruct (when there _ s5) as [[[]|e] s6].
  2: { run. repeat case_match; simplify_eq; done. }
  destruct (transcode W self s6) as [[selfc|e] s7] eqn:Htranscode.
  - intros [= <- <-]. by eapply transcode_same_item.
  - run. repeat case_match; simplify_eq; done.
Qed.

Lemma convert_with_retry_same_item self retry_delay s self' s' :
  convert_with_retry W self retry_delay s = (Ok self', s') →
  __write_track W self' = __write_track W self.
Proof.
  unfold convert_with_retry. unfold try_except at 1.
  destruct (__convert_audio W self s) as [[selfc|e] s1] eqn:Hfirst.
  { intros [= <- <-]. by eapply convert_audio_same_item. }
  unfold bind at 1. destruct (report_progress _ s1) as [[[]|e1] s2]; [|done].
  unfold bind at 1. destruct (log _ s2) as [[[]|e2] s3]; [|done].
  unfold bind at 1. destruct (remove_if_exists _ s3) as [[[]|e3] s4]; [|done].
  unfold bind at 1. destruct (sleep _ s4) as [[[]|e4] s5]; [|done].
  unfold try_except.
  destruct (__convert_audio W self s5) as [[selfc|e5] s6] eqn:Hsecond.
  { intros [= <- <-]. by eapply convert_audio_same_item. }
  run. repeat case_match; simplify_eq; done.
Qed.

(** X8: the object [download_try] returns.  When the track is found on disk
    it is the object as it was, its track marked as skipped and not
    successful.  Otherwise it is the object as [__write_track] makes it: a
    fresh track, successful and not skipped, at the path the naming function
    gives.  The path a transcoder returned is not kept. *)
Theorem download_try_returns self s self' s' :
  download_try W self s = (Ok self', s') →
  (fst (track_exists W self (music (self_song_metadata self))
          (album (self_song_metadata self)) s) = Ok true ∧
   self' = set_self_track
             (set_was_skipped true (set_success false (self_c_track self))) self) ∨
  (fst (track_exists W self (music (self_song_metadata self))
          (album (self_song_metadata self)) s) = Ok false ∧
   self' = __write_track W self ∧
   song_path (self_c_track self') =
     Some (set_path W (self_song_metadata self) (pf_output_dir (self_preferences self))
             (self_song_quality self) (self_file_format self)) ∧
   success (self_c_track self') = true ∧ was_skipped (self_c_track self') = false).
Proof.
  unfold download_try.
  destruct (track_exists_quiet W self (music (self_song_metadata self))
              (album (self_song_metadata self)) s) as (s0 & Hcheck & _).
  unfold bind at 1. rewrite Hcheck. cbn [fst].
  destruct (track_present W self _ _ _).
  { run. intros [= <- <-]. by left. }
  unfold bind at 1. destruct (report_progress _ s0) as [[[]|e1] s1]; [|done].
  unfold bind at 1. destruct (gets GLOBAL_RETRY_COUNT s1) as [[global|e2] s2]; [|done].
  unfold bind at 1. destruct (acquire_loop W _ self 0 _ s2) as [[delay|e3] s3]; [|done].
  unfold bind at 1.
  destruct (convert_with_retry W self delay s3) as [[selfc|e4] s4] eqn:Hconvert; [|done].
  apply convert_with_retry_same_item in Hconvert.
  unfold bind at 1.
  destruct (write_tags W _ s4) as [[[]|e5] s5]; [|done].
  run. intros [= <- <-]. right. rewrite Hconvert. done.
Qed.

End Returned.

(** ** A download that completes *)

Lemma register_keeps_lock p r :
  CLEANUP_LOCK (register_active_download p r) = CLEANUP_LOCK r.
Proof. reflexivity. Qed.

Lemma unregister_keeps_lock p r :
  CLEANUP_LOCK (unregister_active_download p r) = CLEANUP_LOCK r.
Proof. unfold unregister_active_download. by destruct (bool_decide _). Qed.

Section Completion.

Variable W : collaborators.

Lemma write_tags_effect (m : media) (s : state) :
  ∃ s', write_tags W m s = (Ok tt, s') ∧
    (logs_only s s' ∨
     ∃ p, media_path m = Some p ∧ is_Some (disk s !! p) ∧ retagged p s s').
Proof.
  unfold write_tags, try_except. destruct m as [t|e|name]; cbn [media_path].
  - destruct (tag_file_effect W (song_path t) (tags t) (file_format t) s)
      as (s' & -> & H). eauto.
  - destruct (tag_file_effect W (episode_path e) (ep_tags e) (ep_file_format e) s)
      as (s' & -> & H). eauto.
  - run. eauto with quiet.
Qed.

(** One pass of the loop in which the stream is acquired and written in one
    piece. *)
Lemma attempt_succeeds self s st raw :
  load_track W (pf_ids (self_preferences self)) (self_dw_quality self)
    (feeder_calls s) = Ok st →
  refused W (self_song_path self) = false →
  pf_real_time_dl (self_preferences self) = false →
  input_read st = Ok raw →
  ∃ s', attempt W self s = (Ok tt, s') ∧
    disk s' = <[self_song_path self := raw]> (disk s) ∧
    reg s' = unregister_active_download (self_song_path self)
               (register_active_download (self_song_path self) (reg s)) ∧
    feeder_calls s' = S (feeder_calls s) ∧
    GLOBAL_RETRY_COUNT s' = GLOBAL_RETRY_COUNT s ∧
    trace s' = trace s.
Proof.
  intros Hload Hopen Hplain Hread.
  unfold attempt, write_stream, open_truncate. run.
  rewrite Hload, Hplain, Hopen. cbn.
  destruct (duration (self_song_metadata self)); rewrite Hread; cbn;
    (eexists; split; [reflexivity|]); cbn;
    rewrite lookup_insert_eq, insert_insert_eq; done.
Qed.

(** Acquisitions that fail [failures] times, below both limits, and then
    succeed. *)
Lemma acquire_loop_recovers self err st raw :
  refused W (self_song_path self) = false →
  pf_real_time_dl (self_preferences self) = false →
  input_read st = Ok raw →
  ∀ (failures fuel retries retry_delay : nat) (s : state),
    (∀ j, j < failures →
          load_track W (pf_ids (self_preferences self)) (self_dw_quality self)
            (feeder_calls s + j) = Raise (err (feeder_calls s + j))) →
    load_track W (pf_ids (self_preferences self)) (self_dw_quality self)
      (feeder_calls s + failures) = Ok st →
    retries + failures < default 5 (pf_max_retries (self_preferences self)) →
    GLOBAL_RETRY_COUNT s + failures < GLOBAL_MAX_RETRIES →
    failures < fuel →
    ∃ s', acquire_loop W fuel self retries retry_delay s =
            (Ok (retry_delay + failures *
                   default 30 (pf_retry_delay_increase (self_preferences self))), s') ∧
      disk s' = <[self_song_path self := raw]> (disk s) ∧
      CLEANUP_LOCK (reg s') = CLEANUP_LOCK (reg s) ∧
      feeder_calls s' = feeder_calls s + failures + 1 ∧
      GLOBAL_RETRY_COUNT s' = GLOBAL_RETRY_COUNT s + failures ∧
      trace s' = trace s ++
        retry_trace self err (feeder_calls s) retries retry_delay
          (default 30 (pf_retry_delay_increase (self_preferences self))) failures.
Proof.
  intros Hopen Hplain Hread failures.
  induction failures as [|rest IH];
    intros fuel retries retry_delay s Hfail Hload Hlocal Hglobal Hfuel;
    (destruct fuel as [|fuel]; [lia|]); rewrite acquire_loop_step.
  - rewrite Nat.add_0_r in Hload.
    destruct (attempt_succeeds self s st raw Hload Hopen Hplain Hread)
      as (s' & -> & Hdisk & Hreg & Hcalls & Hcount & Htrace).
    exists s'. rewrite Hdisk, Hreg, Hcalls, Hcount, Htrace.
    rewrite unregister_keeps_lock, register_keeps_lock. cbn [retry_trace].
    rewrite app_nil_r. repeat split; try done; try lia. do 2 f_equal. lia.
  - rewrite (attempt_acquisition_fails W self s (err (feeder_calls s))).
    2: { specialize (Hfail 0). rewrite Nat.add_0_r in Hfail. apply Hfail. lia. }
    rewrite on_failure_spec. cbn [GLOBAL_RETRY_COUNT set_feeder_calls].
    replace (_ <=? retries + 1)%nat with false
      by (symmetry; apply Nat.leb_gt; lia).
    replace (GLOBAL_MAX_RETRIES <=? _)%nat with false
      by (symmetry; apply Nat.leb_gt; lia).
    cbn [orb fst snd].
    edestruct (IH fuel (retries + 1) (retry_delay +
                 default 30 (pf_retry_delay_increase (self_preferences self))))
      as (s' & -> & Hdisk & Hlock & Hcalls & Hcount & Htrace); cycle 5.
    { exists s'. rewrite Hdisk, Hlock, Hcalls, Hcount, Htrace. unfold counted; cbn.
      rewrite insert_delete_eq, unregister_keeps_lock.
      repeat split; try done; try lia.
      - do 2 f_equal. lia.
      - rewrite <- !app_assoc. reflexivity. }
    all: unfold counted; cbn; try lia.
    + intros j Hj. rewrite <- !Nat.add_succ_r. apply Hfail. lia.
    + rewrite <- Nat.add_succ_r. exact Hload.
Qed.

(** The normalization of a raw file that ffmpeg accepts, when no target
    format is asked for. *)
Lemma convert_audio_normalizes self s raw out :
  pf_convert_to (self_preferences self) = None →
  Py.replace (self_song_path self) ".ogg" ".tmp" ≠ self_song_path self →
  disk s !! self_song_path self = Some raw →
  ffmpeg W raw = FFmpegWrote out →
  ∃ s', __convert_audio W self s = (Ok self, s') ∧
    disk s' = delete (Py.replace (self_song_path self) ".ogg" ".tmp")
                (<[self_song_path self := out]>
                   (<[Py.replace (self_song_path self) ".ogg" ".tmp" := raw]>
                      (delete (self_song_path self) (disk s)))) ∧
    reg s' = unregister_active_download (Py.replace (self_song_path self) ".ogg" ".tmp")
               (register_active_download (self_song_path self)
                  (register_active_download
                     (Py.replace (self_song_path self) ".ogg" ".tmp") (reg s))) ∧
    feeder_calls s' = feeder_calls s ∧
    GLOBAL_RETRY_COUNT s' = GLOBAL_RETRY_COUNT s ∧
    trace s' = trace s.
Proof.
  intros Hplain Htemp Hraw Hout.
  unfold __convert_audio, transcode, system_ffmpeg. rewrite Hplain.
  set (temp := Py.replace (self_song_path self) ".ogg" ".tmp") in *.
  run. rewrite Hraw. cbn. rewrite lookup_insert_eq, Hout. cbn.
  rewrite lookup_insert_ne, lookup_insert_eq by done.
  rewrite bool_decide_eq_true_2 by eauto. cbn.
  rewrite lookup_insert_ne, lookup_insert_eq by done.
  eexists. split; [reflexivity|]. done.
Qed.

Lemma EASY_DW_init_track preferences parent self :
  EASY_DW_init W preferences parent = Ok self →
  media_path (MTrack (self_c_track self)) = Some (self_song_path self).
Proof.
  intros Hinit. rewrite <- (EASY_DW_init_written W _ _ _ Hinit). reflexivity.
Qed.

(** The whole of a download that gets its stream after [failures] failed
    acquisitions, writes it in one piece and has it normalized. *)
Lemma download_try_run preferences parent self err st raw out failures s :
  let song := self_song_path self in
  let temp := Py.replace song ".ogg" ".tmp" in
  EASY_DW_init W preferences parent = Ok self →
  fst (track_exists W self (music (self_song_metadata self))
         (album (self_song_metadata self)) s) = Ok false →
  (∀ j, j < failures →
        load_track W (pf_ids (self_preferences self)) (self_dw_quality self)
          (feeder_calls s + j) = Raise (err (feeder_calls s + j))) →
  load_track W (pf_ids (self_preferences self)) (self_dw_quality self)
    (feeder_calls s + failures) = Ok st →
  failures < default 5 (pf_max_retries (self_preferences self)) →
  GLOBAL_RETRY_COUNT s + failures < GLOBAL_MAX_RETRIES →
  refused W song = false →
  pf_real_time_dl (self_preferences self) = false →
  input_read st = Ok raw →
  temp ≠ song →
  ffmpeg W raw = FFmpegWrote out →
  pf_convert_to (self_preferences self) = None →
  ∃ s', download_try W self s = (Ok self, s') ∧
    feeder_calls s' = feeder_calls s + failures + 1 ∧
    GLOBAL_RETRY_COUNT s' = GLOBAL_RETRY_COUNT s + failures ∧
    trace s' = trace s ++
      Report (track_progress self progress None None) ::
      retry_trace self err (feeder_calls s) 0
        (default 30 (pf_initial_retry_delay (self_preferences self)))
        (default 30 (pf_retry_delay_increase (self_preferences self))) failures ++
      [Report (track_progress self done None None)] ∧
    is_Some (disk s' !! song) ∧
    disk s' !! temp = None ∧
    (∀ q, q ≠ song → q ≠ temp → disk s' !! q = disk s !! q) ∧
    CURRENT_DOWNLOAD (reg s') = Some song ∧
    CLEANUP_LOCK (reg s') = CLEANUP_LOCK (reg s).
Proof.
  intros song temp Hinit Habsent Hfail Hload Hlocal Hglobal Hopen Hplain Hread
    Htemp Hout Hconv.
  unfold download_try.
  destruct (track_exists_quiet W self (music (self_song_metadata self))
              (album (self_song_metadata self)) s) as (s0 & Hcheck & [l ->]).
  rewrite Hcheck in Habsent. cbn [fst] in Habsent. injection Habsent as Habsent.
  unfold bind at 1. rewrite Hcheck, Habsent.
  unfold bind at 1. unfold report_progress at 1, modify at 1.
  unfold bind at 1. unfold gets at 1. cbn [GLOBAL_RETRY_COUNT set_trace set_logs].
  unfold bind at 1.
  edestruct (acquire_loop_recovers self err st raw Hopen Hplain Hread failures
               (S (GLOBAL_MAX_RETRIES - GLOBAL_RETRY_COUNT s)) 0
               (default 30 (pf_initial_retry_delay (self_preferences self))))
    as (s1 & -> & Hdisk1 & Hlock1 & Hcalls1 & Hcount1 & Htrace1);
    [exact Hfail|exact Hload|cbn; lia|cbn; lia|cbn; unfold GLOBAL_MAX_RETRIES in *; lia|].
  cbn [disk reg feeder_calls GLOBAL_RETRY_COUNT trace set_trace set_logs]
    in Hdisk1, Hlock1, Hcalls1, Hcount1, Htrace1.
  unfold bind at 1. unfold convert_with_retry, try_except at 1.
  destruct (convert_audio_normalizes self s1 raw out Hconv Htemp)
    as (s2 & -> & Hdisk2 & Hreg2 & Hcalls2 & Hcount2 & Htrace2);
    [by rewrite Hdisk1, lookup_insert_eq|exact Hout|].
  rewrite (EASY_DW_init_written W _ _ _ Hinit).
  destruct (write_tags_effect (MTrack (self_c_track self)) s2)
    as (s3 & Htags & Heffect).
  unfold bind at 1. rewrite Htags. run.
  eexists. split; [reflexivity|]. cbn.
  assert (Hrest : feeder_calls s3 = feeder_calls s2 ∧
                  GLOBAL_RETRY_COUNT s3 = GLOBAL_RETRY_COUNT s2 ∧
                  trace s3 = trace s2 ∧ reg s3 = reg s2 ∧
                  (disk s3 = disk s2 ∨ ∃ new, disk s3 = <[song := new]> (disk s2))).
  { destruct Heffect as [[l' ->]|(p & Hp & _ & new & l' & ->)]; cbn.
    - repeat split; try done. by left.
    - repeat split; try done. right. exists new.
      rewrite (EASY_DW_init_track _ _ _ Hinit) in Hp. by injection Hp as <-. }
  destruct Hrest as (-> & -> & -> & -> & Hdisk3).
  rewrite Hcalls2, Hcalls1, Hcount2, Hcount1, Htrace2, Htrace1, Hreg2.
  split; [done|]. split; [done|]. split; [by rewrite <- !app_assoc|].
  assert (Hsong : disk s2 !! song = Some out).
  { rewrite Hdisk2. by rewrite lookup_delete_ne, lookup_insert_eq. }
  assert (Htmp : disk s2 !! temp = None).
  { rewrite Hdisk2. by rewrite lookup_delete_eq. }
  assert (Hother : ∀ q, q ≠ song → q ≠ temp → disk s2 !! q = disk s !! q).
  { intros q Hq1 Hq2. rewrite Hdisk2, Hdisk1.
    by rewrite lookup_delete_ne, !lookup_insert_ne, lookup_delete_ne,
      lookup_insert_ne by done. }
  split; [|split; [|split; [|split]]].
  - destruct Hdisk3 as [->|[new ->]]; [by rewrite Hsong|by rewrite lookup_insert_eq].
  - destruct Hdisk3 as [->|[new ->]]; [done|by rewrite lookup_insert_ne].
  - intros q Hq1 Hq2.
    destruct Hdisk3 as [->|[new ->]]; [|rewrite lookup_insert_ne by done]; by apply Hother.
  - unfold unregister_active_download, register_active_download. cbn.
    rewrite bool_decide_eq_true_2.
    2: { apply elem_of_union. right. apply elem_of_union. left.
         by apply elem_of_singleton. }
    cbn. rewrite bool_decide_eq_false_2; [done|]. intros [= Heq]. by apply Htemp.
  - by rewrite unregister_keeps_lock, !register_keeps_lock.
Qed.

(** The cleanup when the file of the current pointer is on disk. *)
Lemma cleanup_deletes_current s c :
  CLEANUP_LOCK (reg s) = false →
  CURRENT_DOWNLOAD (reg s) = Some c →
  Py.truthy c = true →
  is_Some (disk s !! c) →
  ∃ s', cleanup_active_downloads s = (Ok tt, s') ∧
    disk s' = delete c (disk s) ∧
    logs s' = logs s ++ ["Removing incomplete download"].
Proof.
  intros Hlock Hcur Htruthy [content Hfile].
  unfold cleanup_active_downloads. rewrite Hlock, Hcur, Htruthy.
  run. rewrite Hfile. rewrite bool_decide_eq_true_2 by eauto. run. rewrite Hfile.
  eexists. split; [reflexivity|]. done.
Qed.

Section Completed.

Variables (preferences : Preferences) (parent : option parent_kind) (self : EASY_DW).
Variables (err : nat → exn) (st : stream) (raw out : string) (failures : nat).
Variable s : state.

Let song := self_song_path self.
Let temp := Py.replace song ".ogg" ".tmp".

Hypothesis Hinit : EASY_DW_init W preferences parent = Ok self.
Hypothesis Habsent :
  fst (track_exists W self (music (self_song_metadata self))
         (album (self_song_metadata self)) s) = Ok false.
Hypothesis Hfail : ∀ j, j < failures →
  load_track W (pf_ids (self_preferences self)) (self_dw_quality self)
    (feeder_calls s + j) = Raise (err (feeder_calls s + j)).
Hypothesis Hload :
  load_track W (pf_ids (self_preferences self)) (self_dw_quality self)
    (feeder_calls s + failures) = Ok st.
Hypothesis Hlocal : failures < default 5 (pf_max_retries (self_preferences self)).
Hypothesis Hglobal : GLOBAL_RETRY_COUNT s + failures < GLOBAL_MAX_RETRIES.
Hypothesis Hopen : refused W song = false.
Hypothesis Hplain : pf_real_time_dl (self_preferences self) = false.
Hypothesis Hread : input_read st = Ok raw.
Hypothesis Htemp : temp ≠ song.
Hypothesis Hbeside : Py.dirname temp = Py.dirname song.
Hypothesis Hdirectory : Py.truthy (Py.dirname song) = true.
Hypothesis Hout : ffmpeg W raw = FFmpegWrote out.
Hypothesis Hconv : pf_convert_to (self_preferences self) = None.

(** X7: a download recovers from failed acquisitions.  For an object as the
    constructor leaves it, an output path in a named directory with the
    temporary path beside it, a track that is not on disk, [failures]
    acquisitions that fail (fewer than [max_retries] and than what is left
    of the global budget) and one that succeeds, a stream written in one
    piece and a normalization that ffmpeg carries out, with no target
    format: [download_try] returns the object, having made
    [failures + 1] acquisitions and reported [progress], a [retrying] event
    and a sleep per failure, and [done].  The file is at the output path,
    the temporary file is gone and no other path has changed.  The failures
    stay counted in the global retry count. *)
Theorem download_try_recovers :
  ∃ s', download_try W self s = (Ok self, s') ∧
    feeder_calls s' = feeder_calls s + failures + 1 ∧
    GLOBAL_RETRY_COUNT s' = GLOBAL_RETRY_COUNT s + failures ∧
    trace s' = trace s ++
      Report (track_progress self progress None None) ::
      retry_trace self err (feeder_calls s) 0
        (default 30 (pf_initial_retry_delay (self_preferences self)))
        (default 30 (pf_retry_delay_increase (self_preferences self))) failures ++
      [Report (track_progress self done None None)] ∧
    is_Some (disk s' !! song) ∧
    disk s' !! temp = None ∧
    (∀ q, q ≠ song → q ≠ temp → disk s' !! q = disk s !! q).
Proof using All.
  destruct (download_try_run preferences parent self err st raw out failures s)
    as (s' & Hrun & Hcalls & Hcount & Htrace & Hsong & Htmp & Hother & _);
    try done.
  exists s'. done.
Qed.

Hypothesis Hlock : CLEANUP_LOCK (reg s) = false.
Hypothesis Htruthy : Py.truthy song = true.

(** X10: a finished download stays registered.  After the same run (an
    output path in a named directory, the temporary path beside it) the
    current pointer of the registry names the output path, where the
    finished file is; the cleanup routine, which the exit hook and the
    signal handler run, then deletes that file as an incomplete download. *)
Theorem finished_download_is_deleted_by_cleanup :
  ∃ s1 s2,
    download_try W self s = (Ok self, s1) ∧
    is_Some (disk s1 !! song) ∧
    CURRENT_DOWNLOAD (reg s1) = Some song ∧
    cleanup_active_downloads s1 = (Ok tt, s2) ∧
    disk s2 !! song = None ∧
    logs s2 = logs s1 ++ ["Removing incomplete download"].
Proof using All.
  destruct (download_try_run preferences parent self err st raw out failures s)
    as (s1 & Hrun & _ & _ & _ & Hsong & _ & _ & Hcur & Hlock1);
    try done.
  destruct (cleanup_deletes_current s1 song) as (s2 & Hclean & Hdisk & Hlogs);
    try done.
  { by rewrite Hlock1. }
  exists s1, s2. rewrite Hdisk, lookup_delete_eq. done.
Qed.

End Completed.

End Completion.

(** ** Transcoding *)

Section Transcoding.

Variable W : collaborators.

(** X12: a transcoder that fails is logged and dropped.  When a target format
    is asked for, the temporary path lies in the directory of the output
    path and the converter raises, leaving disk and registry as they are,
    [__convert_audio] still returns normally: the object keeps its
    path, the normalized file stays at that path and the temporary file is
    gone; the failure shows in the log only. *)
Theorem failed_transcoding_is_dropped self s raw out target format_name bitrate e :
  let song := self_song_path self in
  let temp := Py.replace song ".ogg" ".tmp" in
  pf_convert_to (self_preferences self) = Some target →
  Py.truthy target = true →
  parse_format_string W target = Ok (Some format_name, bitrate) →
  Py.truthy format_name = true →
  (∀ d g, convert_audio W song format_name bitrate d g = (Raise e, (d, g))) →
  temp ≠ song →
  Py.dirname temp = Py.dirname song →
  disk s !! song = Some raw →
  ffmpeg W raw = FFmpegWrote out →
  ∃ s', __convert_audio W self s = (Ok self, s') ∧
    disk s' !! song = Some out ∧
    disk s' !! temp = None ∧
    trace s' = trace s ∧
    logs s' = logs s ++ ["Audio conversion error"].
Proof.
  intros song temp Htarget Htruthy Hparse Hformat Hfails Htemp _ Hraw Hout.
  unfold __convert_audio, transcode, system_ffmpeg, run_convert_audio.
  rewrite Htarget, Htruthy.
  fold song. fold temp.
  run. rewrite Hraw. cbn. rewrite lookup_insert_eq, Hout. cbn.
  rewrite lookup_insert_ne, lookup_insert_eq by done.
  rewrite bool_decide_eq_true_2 by eauto. cbn.
  rewrite lookup_insert_ne, lookup_insert_eq by done.
  rewrite Hparse. cbn. rewrite Hformat. cbn. rewrite Hfails. cbn.
  eexists. split; [reflexivity|]. cbn.
  rewrite lookup_delete_ne, lookup_insert_eq, lookup_delete_eq by done.
  done.
Qed.

End Transcoding.

(** ** Playlists, whatever happens *)

Section PlaylistInvariants.

Variable W : collaborators.

Lemma success_partition (tracks : list Track) :
  length (filter (λ t, success t = true) tracks) +
  length (filter (λ t, success t = false) tracks) = length tracks.
Proof.
  induction tracks as [|t tracks IH]; [done|].
  rewrite !filter_cons. destruct (success t); repeat case_decide; cbn; try done; lia.
Qed.

(** One turn of the playlist loop, with no assumption on the playlist file:
    one entry, or two when the playlist file cannot be written after a
    success, and at most one failure record. *)
Lemma playlist_item_total preferences json playlist_name g number m s :
  ∃ g' s' added,
    playlist_item W preferences json playlist_name g number m s = (Ok g', s') ∧
    g_tracks g' = g_tracks g ++ added ∧
    1 ≤ length added ≤ 2 ∧
    ((g_failed_indices g' = g_failed_indices g ∧
      g_failed_errors g' = g_failed_errors g ∧
      length (filter (λ t, success t = false) added) = 0) ∨
     (∃ message,
        g_failed_indices g' = g_failed_indices g ++ [number] ∧
        g_failed_errors g' = g_failed_errors g ++ [message] ∧
        length (filter (λ t, success t = false) added) = 1)).
Proof.
  unfold playlist_item.
  set (c_preferences := item_preferences _ _ _ _ _ _).
  unfold bind at 1. rewrite download_item_spec.
  destruct (EASY_DW_init W c_preferences (Some playlist_parent)) as [self|e] eqn:Hinit.
  2: { unfold record_failure. run. do 3 eexists. split; [reflexivity|]. cbn.
       split; [reflexivity|]. split; [cbn; lia|]. right. eauto. }
  destruct (easy_dw W self s) as [[track|e] s1] eqn:Hdw.
  2: { unfold record_failure. run. do 3 eexists. split; [reflexivity|]. cbn.
       split; [reflexivity|]. split; [cbn; lia|]. right. eauto. }
  destruct (success track) eqn:Hsuccess; cbn [negb andb].
  - unfold try_except, bind at 1.
    destruct (when _ _ s1) as [[[]|e] s2].
    + run. do 3 eexists. split; [reflexivity|]. cbn.
      split; [reflexivity|]. split; [cbn; lia|]. left.
      rewrite ?filter_cons, ?Hsuccess; repeat case_decide; cbn; try done; congruence.
    + unfold record_failure. run. do 2 eexists.
      exists [track; playlist_placeholder m]. split; [reflexivity|]. cbn.
      split; [by rewrite <- app_assoc|]. split; [lia|]. right.
      eexists. split; [reflexivity|]. split; [reflexivity|].
      rewrite ?filter_cons, ?Hsuccess; repeat case_decide; cbn; try done; congruence.
  - run. do 3 eexists. split; [reflexivity|]. cbn.
    split; [reflexivity|]. split; [cbn; lia|]. right.
    eexists. split; [reflexivity|]. split; [reflexivity|].
    rewrite ?filter_cons, ?Hsuccess; repeat case_decide; cbn; try done; congruence.
Qed.

Lemma playlist_loop_total preferences json playlist_name items :
  ∀ (g : gathered) (idx : nat) (s : state),
  ∃ g' s' added new_indices new_errors,
    playlist_loop W preferences json playlist_name g idx items s = (Ok g', s') ∧
    g_tracks g' = g_tracks g ++ added ∧
    g_failed_indices g' = g_failed_indices g ++ new_indices ∧
    g_failed_errors g' = g_failed_errors g ++ new_errors ∧
    length new_errors = length new_indices ∧
    length (filter (λ t, success t = false) added) = length new_indices ∧
    length (resolved_from idx items) ≤ length added ≤
      2 * length (resolved_from idx items) ∧
    StronglySorted lt new_indices ∧
    Forall (λ n, idx < n ≤ idx + length items) new_indices.
Proof.
  induction items as [|[m|message] rest IH]; intros g idx s;
    cbn [playlist_loop resolved_from].
  - exists g, s, [], [], []. rewrite !app_nil_r. cbn.
    repeat split; try done; try lia; constructor.
  - destruct (playlist_item_total preferences json playlist_name g (idx + 1) m s)
      as (g1 & s1 & added1 & Hitem & Htracks1 & Hlen1 & Hfailed1).
    unfold bind. rewrite Hitem.
    destruct (IH g1 (S idx) s1)
      as (g2 & s2 & added & idxs & errs & -> & Htracks & Hidx & Herr & Hsame &
          Hcount & Hlen & Hsorted & Hrange).
    assert (Hrange' : Forall (λ n, idx < n ≤ idx + length (Resolved m :: rest)) idxs).
    { eapply Forall_impl; [exact Hrange|]. cbn. intros n Hn. lia. }
    destruct Hfailed1 as [(Hi1 & He1 & Hc1)|(msg & Hi1 & He1 & Hc1)].
    + exists g2, s2, (added1 ++ added), idxs, errs. split; [done|].
      rewrite Htracks, Htracks1, Hidx, Hi1, Herr, He1.
      rewrite filter_app, !length_app, Hc1, Hcount. cbn [length].
      repeat split; try done; try lia. by rewrite app_assoc.
    + exists g2, s2, (added1 ++ added), ((idx + 1) :: idxs), (msg :: errs).
      split; [done|].
      rewrite Htracks, Htracks1, Hidx, Hi1, Herr, He1.
      rewrite filter_app, !length_app, Hc1, Hcount. cbn [length].
      repeat split; try done; try lia.
      * by rewrite app_assoc.
      * by rewrite <- app_assoc.
      * by rewrite <- app_assoc.
      * constructor; [done|].
        eapply Forall_impl; [exact Hrange|]. cbn. intros n Hn. lia.
      * constructor; [lia|done].
  - run.
    destruct (IH g (S idx) (set_logs (logs s ++ ["Track metadata is string"]) s))
      as (g2 & s2 & added & idxs & errs & -> & Htracks & Hidx & Herr & Hsame &
          Hcount & Hlen & Hsorted & Hrange).
    exists g2, s2, added, idxs, errs. repeat split; try done; try lia.
    eapply Forall_impl; [exact Hrange|]. cbn. intros n Hn. lia.
Qed.

(** X16: a playlist download never raises, whatever happens to its items,
    its playlist file and its archive.  In the aggregate it returns the
    failure messages are as many as the failed positions, and as many as
    the entries that are no success; the failed positions are strictly
    increasing positions of the input list, counted from one; every
    resolved item has an entry, and at most two.  The last event reported
    is the [done] event of the playlist, whose counts of successes and of
    failures add up to the number of entries. *)
Theorem playlist_never_raises preferences json items s :
  ∃ pl s' successes,
    DW_PLAYLIST_dw W preferences json items s = (Ok pl, s') ∧
    length (failed_track_errors pl) = length (failed_track_indices pl) ∧
    length (filter (λ t, success t = false) (playlist_tracks pl))
      = length (failed_track_indices pl) ∧
    StronglySorted lt (failed_track_indices pl) ∧
    Forall (λ n, 1 ≤ n ≤ length items) (failed_track_indices pl) ∧
    length (resolved_from 0 items) ≤ length (playlist_tracks pl)
      ≤ 2 * length (resolved_from 0 items) ∧
    last (trace s') =
      Some (Report (EvBatch playlist_parent done
                      (default "Unknown Playlist" (js_title json))
                      (default 0 (js_nb_tracks json))
                      (Some (successes, length (failed_track_indices pl))))) ∧
    successes + length (failed_track_indices pl) = length (playlist_tracks pl).
Proof.
  unfold DW_PLAYLIST_dw.
  unfold bind at 1. unfold report_progress at 1, modify at 1.
  unfold bind at 1.
  edestruct (playlist_loop_total preferences json
               (default "Unknown Playlist" (js_title json)) items)
    as (g & s1 & added & idxs & errs & -> & Htracks & Hidx & Herr & Hsame &
        Hcount & Hlen & Hsorted & Hrange).
  cbn [g_tracks g_failed_indices g_failed_errors app] in Htracks, Hidx, Herr.
  unfold bind at 1.
  match goal with
  | |- context [let (_, _) := ?zip ?st in _] =>
      assert (∃ z s2, zip st = (Ok z, s2)) as (z & s2 & ->)
  end.
  { destruct (pf_make_zip preferences && existsb success (g_tracks g)); [|by do 2 eexists].
    unfold try_except.
    match goal with |- context [let (_, _) := ?body s1 in _] => destruct (body s1) as [[]] end;
      run; eauto. }
  run. do 3 eexists. split; [reflexivity|]. cbn.
  rewrite last_snoc, Htracks, Hidx, Herr.
  repeat split; try done; try lia.
  rewrite <- Hcount. apply success_partition.
Qed.

End PlaylistInvariants.

(** ** Albums out of bounds, playlists without a playlist file *)

Section BatchEdges.

Variable W : collaborators.

(** A turn of the album loop at a position the per-track lists do not
    reach. *)
Lemma album_item_out_of_range preferences md image tracks a s :
  am_items md !! a = None →
  album_item W preferences md image tracks a s
  = (Raise (PyError "IndexError" "list index out of range"), s).
Proof. intros Hnone. unfold album_item. rewrite Hnone. reflexivity. Qed.

Lemma album_loop_out_of_range preferences md image indices :
  ∀ tracks s,
    Exists (λ a, am_items md !! a = None) indices →
    ∃ e s', album_loop W preferences md image tracks indices s = (Raise e, s').
Proof.
  induction indices as [|a rest IH]; intros tracks s Hgap.
  { by apply Exists_nil in Hgap. }
  cbn [album_loop]. unfold bind.
  destruct (album_item W preferences md image tracks a s) as [[tracks1|e] s1] eqn:Hitem;
    [|eauto].
  apply Exists_cons in Hgap as [Hhere|Hlater]; [|by apply IH].
  rewrite album_item_out_of_range in Hitem by done. discriminate.
Qed.

(** X20: an album download never returns when its track count exceeds the
    per-track lists of its metadata, or when an archive is asked for and the
    track count is zero: it raises (an [IndexError], unless something else
    has raised before). *)
Theorem album_out_of_bounds preferences md s :
  length (am_items md) < am_nb_tracks md ∨
  (pf_make_zip preferences = true ∧ am_nb_tracks md = 0) →
  ∃ e s', DW_ALBUM_dw W preferences md s = (Raise e, s').
Proof.
  intros Hbounds. unfold DW_ALBUM_dw.
  unfold bind at 1. unfold report_progress at 1, modify at 1.
  unfold bind at 1, lift at 1.
  destruct (request W _) as [image|e]; [|eauto].
  destruct Hbounds as [Hshort|[Hzip Hnone]].
  - edestruct (album_loop_out_of_range preferences md image
                 (seq 0 (am_nb_tracks md)) []) as (e & s' & Hloop).
    { apply Exists_exists. exists (length (am_items md)). split.
      - apply elem_of_seq. lia.
      - by apply lookup_ge_None. }
    unfold bind at 1. rewrite Hloop. eauto.
  - rewrite Hnone, Hzip. run. eauto.
Qed.

(** X17: when the playlist file cannot be opened, an item that was
    downloaded is recorded as failed all the same: the playlist gets the
    track the orchestrator returned and, behind it, a placeholder for the
    same item, and the position of the item joins the failed ones.  The
    downloaded file stays where it is. *)
Theorem refused_playlist_file_doubles_entry preferences json g number m self track s s1 :
  EASY_DW_init W
    (item_preferences preferences (md_ids m) (pf_link preferences) m (Some json) number)
    (Some playlist_parent) = Ok self →
  easy_dw W self s = (Ok track, s1) →
  success track = true →
  Py.truthy_opt (song_path track) = true →
  refused W (m3u_path preferences json) = true →
  ∃ g' s',
    playlist_item W preferences json (default "Unknown Playlist" (js_title json))
      g number m s = (Ok g', s') ∧
    g_tracks g' = g_tracks g ++ [track; playlist_placeholder m] ∧
    g_failed_indices g' = g_failed_indices g ++ [number] ∧
    disk s' = disk s1.
Proof.
  intros Hinit Hdw Hsuccess Hpath Hrefused. unfold playlist_item.
  unfold bind at 1. rewrite download_item_spec, Hinit, Hdw.
  rewrite Hsuccess, Hpath. cbn [negb andb].
  unfold m3u_path in Hrefused.
  unfold append_to_m3u, open_truncate, open_append, record_failure. run.
  rewrite Hrefused.
  case_bool_decide; cbn; do 2 eexists; (split; [reflexivity|]); cbn;
    rewrite <- ?app_assoc; done.
Qed.

(** X18: an item of a playlist whose cover cannot be fetched fails before
    anything else is done for it: no progress event, no acquisition and no
    change on disk.  The playlist gets a placeholder, the position joins the
    failed ones, and the message carries the error of the request. *)
Theorem playlist_item_without_cover preferences json playlist_name g number m self e s :
  EASY_DW_init W
    (item_preferences preferences (md_ids m) (pf_link preferences) m (Some json) number)
    (Some playlist_parent) = Ok self →
  request W (image_source (image m)) = Raise e →
  ∃ g' s',
    playlist_item W preferences json playlist_name g number m s = (Ok g', s') ∧
    g_tracks g' = g_tracks g ++ [playlist_placeholder m] ∧
    g_failed_indices g' = g_failed_indices g ++ [number] ∧
    g_failed_errors g' = g_failed_errors g ++
      ["Track " +:+ pretty number +:+ " failed: " +:+ song_label m +:+
       " - Error: " +:+ str_exn e] ∧
    disk s' = disk s ∧ reg s' = reg s ∧ trace s' = trace s ∧
    feeder_calls s' = feeder_calls s.
Proof.
  intros Hinit Hrequest. unfold playlist_item.
  unfold bind at 1. rewrite download_item_spec, Hinit.
  assert (Hmeta : self_song_metadata self = m).
  { unfold EASY_DW_init in Hinit. destruct (qualities W _) as [[[n f] q]|]; [|done].
    by injection Hinit as <-. }
  unfold easy_dw. rewrite Hmeta.
  unfold bind at 1, lift at 1. rewrite Hrequest.
  unfold record_failure. run. do 2 eexists. split; [reflexivity|]. done.
Qed.

End BatchEdges.

(** ** Tags without a cover, and the playlist file *)

Lemma string_app_assoc (a b c : string) : (a +:+ b) +:+ c = a +:+ b +:+ c.
Proof.
  induction a as [|x a IH]; [reflexivity|].
  change (String x ((a +:+ b) +:+ c) = String x (a +:+ b +:+ c)).
  f_equal. exact IH.
Qed.

Section TagsAndPlaylistFile.

Variable W : collaborators.

(** X14: the cover the tag writer embeds when the mapping holds a URL.  If
    the URL cannot be fetched, the tags are saved all the same, with an
    empty cover; and for every format but FLAC and OGG the tags are saved
    with an empty cover whether or not the URL can be fetched: the MP3
    writer embeds only a cover that is given as bytes. *)
Theorem write_tags_without_cover t song url old s :
  song_path t = Some song →
  Py.truthy song = true →
  disk s !! song = Some old →
  image (tags t) = ImageUrl url →
  (is_ok (request W url) = false ∨
   (file_format t ≠ Some ".flac" ∧ file_format t ≠ Some ".ogg")) →
  let fmt := if bool_decide (file_format t = Some ".flac") then ".flac"
             else if bool_decide (file_format t = Some ".ogg") then ".ogg"
             else ".mp3" in
  ∃ s', write_tags W (MTrack t) s = (Ok tt, s') ∧
    disk s' = <[song := (mutagen_save W fmt (tags t) "" old).1]> (disk s).
Proof.
  intros Hpath Htruthy Hfile Himage Hcover fmt. subst fmt.
  unfold write_tags, tag_file, __write_flac, __write_ogg, __write_mp3,
    cover_or_download, mutagen_write.
  rewrite Hpath, Htruthy, Himage. run. cbn. rewrite Hfile.
  rewrite bool_decide_eq_true_2 by eauto. cbn.
  destruct Hcover as [Hrequest|[Hflac Hogg]].
  - destruct (request W url) as [cover|e]; [done|].
    repeat case_bool_decide; destruct (Py.startswith url "http"); cbn;
      rewrite ?Hfile; destruct (mutagen_save W _ (tags t) "" old) as [new [failure|]];
      cbn; eexists; (split; [reflexivity|]); done.
  - rewrite !bool_decide_eq_false_2 by done. rewrite Hfile.
    destruct (mutagen_save W _ (tags t) "" old) as [new [failure|]];
      cbn; eexists; (split; [reflexivity|]); done.
Qed.

(** X19: the playlist file is opened afresh for every track.  Starting
    without the file, two appends leave the header, written once, and the
    two lines in the order of the appends; no other path changes. *)
Theorem m3u_header_is_written_once output_dir playlist_name first second s :
  let playlist_m3u_dir := Py.join output_dir "playlists" in
  let m3u := Py.join playlist_m3u_dir (playlist_name +:+ ".m3u") in
  refused W m3u = false →
  disk s !! m3u = None →
  ∃ s1 s2,
    append_to_m3u W output_dir playlist_name first s = (Ok tt, s1) ∧
    append_to_m3u W output_dir playlist_name second s1 = (Ok tt, s2) ∧
    disk s2 !! m3u =
      Some ("#EXTM3U" +:+ newline +:+
            relpath W first playlist_m3u_dir +:+ newline +:+
            relpath W second playlist_m3u_dir +:+ newline) ∧
    (∀ q, q ≠ m3u → disk s2 !! q = disk s !! q).
Proof.
  intros dir m3u Hopen Habsent.
  unfold append_to_m3u, open_truncate, open_append. fold dir. fold m3u.
  generalize dependent m3u. generalize dependent dir. intros dir m3u Hopen Habsent.
  run. rewrite Hopen, Habsent.
  rewrite bool_decide_eq_false_2 by (by intros [? ?]). cbn.
  rewrite !lookup_insert_eq. cbn.
  do 2 eexists. split; [reflexivity|]. cbn. rewrite !lookup_insert_eq.
  rewrite bool_decide_eq_true_2 by eauto. cbn.
  split; [reflexivity|]. cbn. rewrite !lookup_insert_eq. cbn.
  split.
  - f_equal. rewrite !string_app_assoc. reflexivity.
  - intros q Hq. by rewrite !lookup_insert_ne.
Qed.

End TagsAndPlaylistFile.

(** ** The tag check and episodes *)

Section EpisodeProperties.

Variable W : collaborators.
Variable P : episode_collaborators.

Lemma check_track_quiet (m : media) (s : state) :
  ∃ b s', check_track W P m s = (Ok b, s') ∧ logs_only s s' ∧
    (b = true → ∃ file_path, media_path m = Some file_path ∧
                  Py.truthy file_path = true ∧ is_Some (disk s !! file_path)).
Proof.
  unfold check_track, try_except.
  destruct m as [t|e|name]; cbn [media_path]; cycle 2.
  { run. do 2 eexists. split; [reflexivity|]. split; [eauto with quiet|done]. }
  all: match goal with |- context [match ?o with Some _ => _ | None => _ end] =>
         destruct o as [file_path|] eqn:Hpath end;
    [|run; do 2 eexists; (split; [reflexivity|]); split; [apply logs_only_refl|done]].
  all: destruct (Py.truthy file_path) eqn:Htruthy; cbn [negb];
    [|run; do 2 eexists; (split; [reflexivity|]); split; [apply logs_only_refl|done]].
  all: run; destruct (disk s !! file_path) as [content|] eqn:Hfile;
    [|do 2 eexists; (split; [reflexivity|]); split; [apply logs_only_refl|done]].
  all: repeat case_match; simplify_eq;
    do 2 eexists; (split; [reflexivity|]);
    (split; [apply logs_only_refl|]); intros _; eauto.
Qed.

(** X15: the tag check never raises and changes nothing but the log.  It
    answers [True] only for a track or an episode whose path is set, not
    empty, and names a file that is on disk. *)
Theorem check_track_answers (m : media) (s : state) :
  ∃ b s', check_track W P m s = (Ok b, s') ∧
    disk s' = disk s ∧ reg s' = reg s ∧ trace s' = trace s ∧
    (b = true → ∃ file_path, media_path m = Some file_path ∧
                  Py.truthy file_path = true ∧ is_Some (disk s !! file_path)).
Proof.
  destruct (check_track_quiet m s) as (b & s' & Hrun & [l ->] & Htrue).
  exists b. eexists. split; [exact Hrun|]. done.
Qed.

Lemma on_episode_failure_spec self retries retry_delay s :
  on_episode_failure self retries retry_delay s =
    let counted := set_retry_count (GLOBAL_RETRY_COUNT s + 1) s in
    if (default 5 (pf_max_retries (eps_preferences self)) <=? retries + 1)%nat
       || (GLOBAL_MAX_RETRIES <=? GLOBAL_RETRY_COUNT s + 1)%nat
    then (Raise (max_retries_exceeded
                   (default 5 (pf_max_retries (eps_preferences self)))
                   GLOBAL_MAX_RETRIES),
          set_disk (delete (eps_song_path self) (disk s)) counted)
    else (Ok (retries + 1,
              retry_delay + default 30 (pf_retry_delay_increase (eps_preferences self))),
          set_trace (trace s ++ [Sleep retry_delay]) counted).
Proof.
  unfold on_episode_failure. run.
  destruct (_ || _); [|reflexivity].
  rewrite remove_if_exists_delete. reflexivity.
Qed.

Lemma acquire_episode_loop_step fuel self episode_id retries retry_delay s :
  acquire_episode_loop P (S fuel) self episode_id retries retry_delay s =
  match load_episode P episode_id (eps_dw_quality self) (feeder_calls s) with
  | Ok st => (Ok (st, retry_delay), set_feeder_calls (S (feeder_calls s)) s)
  | Raise e =>
      match on_episode_failure self retries retry_delay
              (set_feeder_calls (S (feeder_calls s)) s) with
      | (Ok next, s2) => acquire_episode_loop P fuel self episode_id next.1 next.2 s2
      | (Raise e', s2) => (Raise e', s2)
      end
  end.
Proof.
  cbn [acquire_episode_loop]. unfold try_except, bind, gets, modify, lift, ret.
  by destruct (load_episode P _ _ _).
Qed.

(** Acquisitions of an episode that all fail. *)
Lemma acquire_episode_loop_gives_up self episode_id err :
  (∀ n, load_episode P episode_id (eps_dw_quality self) n = Raise (err n)) →
  ∀ (attempts fuel retries retry_delay : nat) (s : state),
    1 ≤ attempts → attempts ≤ fuel →
    (default 5 (pf_max_retries (eps_preferences self)) ≤ retries + attempts ∨
     GLOBAL_MAX_RETRIES ≤ GLOBAL_RETRY_COUNT s + attempts) →
    (attempts = 1 ∨
     retries + attempts ≤ default 5 (pf_max_retries (eps_preferences self)) ∧
     GLOBAL_RETRY_COUNT s + attempts ≤ GLOBAL_MAX_RETRIES) →
    ∃ s', acquire_episode_loop P fuel self episode_id retries retry_delay s =
            (Raise (max_retries_exceeded
                      (default 5 (pf_max_retries (eps_preferences self)))
                      GLOBAL_MAX_RETRIES), s') ∧
          feeder_calls s' = feeder_calls s + attempts ∧
          GLOBAL_RETRY_COUNT s' = GLOBAL_RETRY_COUNT s + attempts ∧
          disk s' = delete (eps_song_path self) (disk s) ∧
          reg s' = reg s ∧
          trace s' = trace s ++
            episode_retry_trace retry_delay
              (default 30 (pf_retry_delay_increase (eps_preferences self)))
              (attempts - 1).
Proof.
  intros Hfail attempts.
  induction attempts as [|rest IH];
    intros fuel retries retry_delay s Hpos Hfuel Hstop Hbefore; [lia|].
  destruct fuel as [|fuel]; [lia|].
  rewrite acquire_episode_loop_step, Hfail, on_episode_failure_spec.
  cbn [GLOBAL_RETRY_COUNT set_feeder_calls].
  destruct rest as [|rest].
  - replace (_ || _) with true.
    2: { symmetry. apply orb_true_iff.
         destruct Hstop; [left|right]; apply Nat.leb_le; lia. }
    eexists. split; [reflexivity|]. cbn. rewrite app_nil_r.
    repeat split; lia.
  - destruct Hbefore as [|[Hlocal Hglobal]]; [lia|].
    replace (_ <=? retries + 1)%nat with false
      by (symmetry; apply Nat.leb_gt; lia).
    replace (GLOBAL_MAX_RETRIES <=? _)%nat with false
      by (symmetry; apply Nat.leb_gt; lia).
    cbn [orb fst snd].
    edestruct (IH fuel (retries + 1) (retry_delay +
                 default 30 (pf_retry_delay_increase (eps_preferences self))))
      as (s' & -> & Hcalls & Hcount & Hdisk & Hreg & Htrace); cycle 4.
    { eexists. split; [reflexivity|].
      rewrite Hcalls, Hcount, Hdisk, Hreg, Htrace. cbn.
      rewrite Nat.sub_0_r, <- !app_assoc.
      repeat split; try lia; try done. }
    all: cbn; lia.
Qed.

(** With no file at the path of the episode, the user is not asked. *)
Lemma download_eps_starts self s :
  disk s !! eps_song_path self = None →
  download_eps W P self s =
  (episode_id ← lift (EpisodeId_from_base62 P (pf_ids (eps_preferences self)));
   global ← gets GLOBAL_RETRY_COUNT;
   acquired ← acquire_episode_loop P (S (GLOBAL_MAX_RETRIES - global)) self episode_id
                0 (default 30 (pf_initial_retry_delay (eps_preferences self)));
   register (eps_song_path self);;
   try_except
     (write_episode_stream W P self acquired.1)
     (λ e,
        remove_if_exists (eps_song_path self);;
        unregister (eps_song_path self);;
        log "Failed to download episode";;
        raise e);;
   self ← convert_episode_with_retry W self acquired.2;
   let self := __write_episode P self in
   write_tags W (MEpisode (eps_c_episode self));;
   ret self) s.
Proof.
  intros Habsent. unfold download_eps.
  unfold bind at 1. unfold os_path_exists at 1, gets at 1. rewrite Habsent.
  rewrite bool_decide_eq_false_2 by (by intros [? ?]).
  unfold bind at 1, ret at 1. reflexivity.
Qed.

(** X22: the acquisition of an episode gives up like that of a track, and
    more quietly.  With no file at the path of the episode and every
    acquisition failing, [download_eps] raises the max-retries exception
    after [max 1 (min max_retries (GLOBAL_MAX_RETRIES - GLOBAL_RETRY_COUNT))]
    acquisitions, each counted in the global retry count; it sleeps between
    them with the growing delay, reports no progress event, and leaves disk
    and registry as they were. *)
Theorem download_eps_gives_up self episode_id err s :
  disk s !! eps_song_path self = None →
  EpisodeId_from_base62 P (pf_ids (eps_preferences self)) = Ok episode_id →
  (∀ n, load_episode P episode_id (eps_dw_quality self) n = Raise (err n)) →
  let max_retries := default 5 (pf_max_retries (eps_preferences self)) in
  let attempts :=
    1 `max` (max_retries `min` (GLOBAL_MAX_RETRIES - GLOBAL_RETRY_COUNT s)) in
  ∃ s', download_eps W P self s
          = (Raise (max_retries_exceeded max_retries GLOBAL_MAX_RETRIES), s') ∧
    feeder_calls s' = feeder_calls s + attempts ∧
    GLOBAL_RETRY_COUNT s' = GLOBAL_RETRY_COUNT s + attempts ∧
    disk s' = disk s ∧ reg s' = reg s ∧
    trace s' = trace s ++
      episode_retry_trace
        (default 30 (pf_initial_retry_delay (eps_preferences self)))
        (default 30 (pf_retry_delay_increase (eps_preferences self)))
        (attempts - 1).
Proof.
  intros Habsent Hid Hfail max_retries attempts.
  rewrite download_eps_starts by done.
  unfold bind at 1, lift at 1. rewrite Hid.
  unfold bind at 1, gets at 1.
  edestruct (acquire_episode_loop_gives_up self episode_id err Hfail attempts
               (S (GLOBAL_MAX_RETRIES - GLOBAL_RETRY_COUNT s)) 0
               (default 30 (pf_initial_retry_delay (eps_preferences self))) s)
    as (s' & Hloop & Hcalls & Hcount & Hdisk & Hreg & Htrace); cycle 4.
  { unfold bind at 1. rewrite Hloop. exists s'. split; [reflexivity|].
    rewrite Hdisk, delete_id by done. done. }
  all: subst attempts max_retries; unfold GLOBAL_MAX_RETRIES in *; lia.
Qed.

(** X23: an episode whose stream cannot be read is not retried.  With no
    file at the path of the episode, an acquisition that succeeds and a
    read of the stream that raises, [download_eps] raises that very
    exception after one acquisition: the partial file is removed, the path
    is unregistered, and the failure is not counted in the global retry
    count. *)
Theorem download_eps_read_failure self episode_id st e s :
  disk s !! eps_song_path self = None →
  EpisodeId_from_base62 P (pf_ids (eps_preferences self)) = Ok episode_id →
  load_episode P episode_id (eps_dw_quality self) (feeder_calls s) = Ok st →
  refused W (eps_song_path self) = false →
  pf_real_time_dl (eps_preferences self) = false →
  input_read st = Raise e →
  ∃ s', download_eps W P self s = (Raise e, s') ∧
    feeder_calls s' = feeder_calls s + 1 ∧
    GLOBAL_RETRY_COUNT s' = GLOBAL_RETRY_COUNT s ∧
    disk s' = disk s ∧
    (eps_song_path self ∉ ACTIVE_DOWNLOADS (reg s')) ∧
    trace s' = trace s.
Proof.
  intros Habsent Hid Hload Hopen Hplain Hread.
  rewrite download_eps_starts by done.
  unfold bind at 1, lift at 1. rewrite Hid.
  unfold bind at 1, gets at 1.
  unfold bind at 1. rewrite acquire_episode_loop_step, Hload. cbn [fst snd].
  unfold write_episode_stream, read_all_episode, open_truncate, remove_if_exists.
  rewrite Hplain. cbn [andb]. run. rewrite Hopen.
  assert (Hgone : delete (eps_song_path self)
                    (<[eps_song_path self := ""]> (disk s)) = disk s).
  { by rewrite delete_insert_eq, delete_id. }
  assert (Hthere : is_Some (<[eps_song_path self := ""]> (disk s) !! eps_song_path self)).
  { rewrite lookup_insert_eq. eauto. }
  assert (Hnot : ¬ is_Some (disk s !! eps_song_path self)).
  { rewrite Habsent. by intros [? ?]. }
  destruct (duration (eps_song_metadata self)); rewrite Hread; cbn;
    rewrite (bool_decide_eq_true_2 _ Hthere); cbn;
    rewrite lookup_insert_eq, Hgone; cbn;
    rewrite (bool_decide_eq_false_2 _ Hnot); cbn;
    (eexists; split; [reflexivity|]); cbn;
    (repeat split; try done; try lia);
    unfold unregister_active_download, register_active_download; cbn;
    (rewrite bool_decide_eq_true_2
       by (apply elem_of_union; left; by apply elem_of_singleton)); cbn;
    apply not_elem_of_difference; right; by apply elem_of_singleton.
Qed.

(** X24: an episode that is on disk with tags is downloaded again only if
    the user says so.  When the file is there, the tag check answers
    [True] and the answer to the prompt is not among the accepted ones,
    [download_eps] returns the object as it is: nothing is acquired and
    nothing but the log changes. *)
Theorem download_eps_declined self s :
  is_Some (disk s !! eps_song_path self) →
  fst (check_track W P (MEpisode (eps_c_episode self)) s) = Ok true →
  input P ("Episode " +:+ dquote +:+ eps_song_path self +:+ dquote +:+
           " already exists, do you want to redownload it?(y or n):") ∉ answers P →
  ∃ s', download_eps W P self s = (Ok self, s') ∧
    disk s' = disk s ∧ reg s' = reg s ∧ trace s' = trace s ∧
    feeder_calls s' = feeder_calls s.
Proof.
  intros Hfile Htagged Hanswer. unfold download_eps.
  unfold bind at 1. unfold os_path_exists at 1, gets at 1.
  rewrite bool_decide_eq_true_2 by done.
  destruct (check_track_quiet (MEpisode (eps_c_episode self)) s)
    as (b & s' & Hcheck & [l ->] & _).
  rewrite Hcheck in Htagged. cbn [fst] in Htagged. injection Htagged as ->.
  unfold bind at 1. rewrite Hcheck. cbn [andb].
  rewrite bool_decide_eq_false_2 by done. cbn [negb].
  eexists. split; [reflexivity|]. done.
Qed.

End EpisodeProperties.

(** ** The most frequent artist *)

Lemma max_from_spec key rest : ∀ best,
  max_from key best rest ∈ best :: rest ∧
  ∀ y, y ∈ best :: rest → key y ≤ key (max_from key best rest).
Proof.
  induction rest as [|x rest IH]; intros best; cbn [max_from].
  { split; [by left|]. by intros y ->%list_elem_of_singleton. }
  destruct (IH (if (key best <? key x)%nat then x else best)) as [Hin Hmax].
  split.
  - apply elem_of_cons in Hin as [->|Hin].
    + destruct (key best <? key x)%nat; [right; by left|by left].
    + by do 2 right.
  - intros y Hy.
    assert (key best ≤ key (if (key best <? key x)%nat then x else best) ∧
            key x ≤ key (if (key best <? key x)%nat then x else best)) as [Hb Hx].
    { destruct (Nat.ltb_spec (key best) (key x)); lia. }
    apply elem_of_cons in Hy as [->|Hy].
    { etrans; [exact Hb|]. apply Hmax. by left. }
    apply elem_of_cons in Hy as [->|Hy].
    { etrans; [exact Hx|]. apply Hmax. by left. }
    apply Hmax. by right.
Qed.

Lemma count_absent items x : x ∉ items → count items x = 0.
Proof.
  intros Hx. unfold count.
  induction items as [|y items IH]; [done|].
  rewrite filter_cons. apply not_elem_of_cons in Hx as [Hne Hx].
  case_decide; [congruence|]. by apply IH.
Qed.

(** X21: the most frequent artist of a list of names.  For a list that is
    not empty, and whatever the order in which the set of its members is
    iterated, [most_frequent] returns a member of the list that no other
    name outnumbers; for the empty list it returns [None]. *)
Theorem most_frequent_is_a_mode strip set_of items :
  (∀ x, x ∈ set_of items ↔ x ∈ items) →
  match items with
  | [] => most_frequent strip set_of (ArtistList items) = Ok None
  | _ :: _ =>
      ∃ x, most_frequent strip set_of (ArtistList items) = Ok (Some x) ∧
           x ∈ items ∧ ∀ y, count items y ≤ count items x
  end.
Proof.
  intros Hset. destruct items as [|a items]; [reflexivity|].
  cbn [most_frequent]. set (l := a :: items) in *.
  destruct (set_of l) as [|first rest] eqn:Hiter.
  { exfalso. assert (a ∈ []) as Ha by (apply Hset; by left).
    by apply elem_of_nil in Ha. }
  cbn [py_max].
  destruct (max_from_spec (count l) rest first) as [Hin Hmax].
  eexists. split; [reflexivity|]. split; [by apply Hset|].
  intros y. destruct (decide (y ∈ l)) as [Hy|Hy].
  - apply Hmax. by apply Hset.
  - rewrite (count_absent l y Hy). lia.
Qed.

(** ** The conversion retry *)

Section ConversionRetry.

Variable W : collaborators.

(** Without a file at the path of the object the conversion stops at its
    first step, the move to the temporary name. *)
Lemma convert_audio_without_file self s :
  disk s !! self_song_path self = None →
  __convert_audio W self s
  = (Raise (PyError "FileNotFoundError" (self_song_path self)), s).
Proof.
  intros Habsent. unfold __convert_audio, os_replace, bind. by rewrite Habsent.
Qed.

(** X13: the retry of a failed conversion cannot succeed.  Whenever the
    first conversion raises, [download_try] removes the file at the output
    path before it converts again, so the second conversion stops at the
    move of that file: the conversion stage raises a [FileNotFoundError]
    for the output path, whatever the first error was.  Before that it
    reports an event with the status [error] that carries the first error
    (its text, or a fixed wording when the text mentions a codec or
    ffmpeg), sleeps for the retry delay, and reports a second [error] event
    that says the conversion failed after the retry; no file is left at the
    output path.  The events are written out field by field. *)
Theorem conversion_retry_never_succeeds self retry_delay s e s1 :
  __convert_audio W self s = (Raise e, s1) →
  let event text :=
    Report (EvTrack {| te_status := error;
                       te_song := music (self_song_metadata self);
                       te_artist := artist (self_song_metadata self);
                       te_url := pf_link (self_preferences self);
                       te_retry := None; te_error := Some text;
                       te_parent := parent_info self |}) in
  let first_error :=
    if Py.contains "codec" (Py.lower (str_exn e))
    then "Audio conversion error - Missing codec or unsupported format"
    else if Py.contains "ffmpeg" (Py.lower (str_exn e))
    then "FFmpeg error - Audio conversion failed"
    else str_exn e in
  ∃ s', convert_with_retry W self retry_delay s
          = (Raise (PyError "FileNotFoundError" (self_song_path self)), s') ∧
    disk s' = delete (self_song_path self) (disk s1) ∧
    reg s' = reg s1 ∧
    trace s' = trace s1 ++
      [event first_error;
       Sleep retry_delay;
       event "Audio conversion failed after retry"].
Proof.
  intros Hfirst event first_error.
  unfold convert_with_retry. unfold try_except at 1. rewrite Hfirst.
  unfold bind at 1. unfold report_progress at 1, modify at 1.
  unfold bind at 1. unfold log at 1, modify at 1.
  unfold bind at 1. rewrite remove_if_exists_delete.
  unfold bind at 1. unfold sleep at 1, modify at 1.
  unfold try_except. rewrite convert_audio_without_file.
  2: { cbn. by rewrite lookup_delete_eq. }
  unfold bind at 1. unfold report_progress at 1, modify at 1.
  unfold bind at 1. rewrite remove_if_exists_delete.
  unfold raise. eexists. split; [reflexivity|]. cbn.
  rewrite delete_delete_eq, <- !app_assoc. done.
Qed.

End ConversionRetry.

(** ** What a download leaves alone *)

Lemma confined_refl paths s : confined paths s s.
Proof. done. Qed.

Lemma confined_trans paths s1 s2 s3 :
  confined paths s1 s2 → confined paths s2 s3 → confined paths s1 s3.
Proof.
  intros (Hd1 & Hr1 & Hl1) (Hd2 & Hr2 & Hl2). split; [|split].
  - intros q Hq. by rewrite Hd2, Hd1.
  - auto.
  - by rewrite Hl2.
Qed.



Section Confinement.

Context {A B : Type}.
Variable paths : list string.

Lemma within_ret (a : A) : stays_within paths (ret a).
Proof. intros s r s' [= <- <-]. apply confined_refl. Qed.

Lemma within_raise (e : exn) : stays_within paths (raise (A:=A) e).
Proof. intros s r s' [= <- <-]. apply confined_refl. Qed.

Lemma within_lift (r : result A) : stays_within paths (lift r).
Proof. intros s r' s'. unfold lift. destruct r; intros [= <- <-]; apply confined_refl. Qed.

Lemma within_gets (f : state → A) : stays_within paths (gets f).
Proof. intros s r s' [= <- <-]. apply confined_refl. Qed.

Lemma within_bind (m : M A) (f : A → M B) :
  stays_within paths m → (∀ a, stays_within paths (f a)) →
  stays_within paths (bind m f).
Proof.
  intros Hm Hf s r s'. unfold bind.
  destruct (m s) as [[a|e] s1] eqn:Hrun.
  - intros Hrest. eapply confined_trans; [by eapply Hm|by eapply Hf].
  - intros [= <- <-]. by eapply Hm.
Qed.

Lemma within_try (m : M A) (h : exn → M A) :
  stays_within paths m → (∀ e, stays_within paths (h e)) →
  stays_within paths (try_except m h).
Proof.
  intros Hm Hh s r s'. unfold try_except.
  destruct (m s) as [[a|e] s1] eqn:Hrun.
  - intros [= <- <-]. by eapply Hm.
  - intros Hrest. eapply confined_trans; [by eapply Hm|by eapply Hh].
Qed.

End Confinement.

Section ConfinedSteps.

Variable paths : list string.

Lemma within_log msg : stays_within paths (log msg).
Proof. intros s r s' [= <- <-]. done. Qed.

Lemma within_report e : stays_within paths (report_progress e).
Proof. intros s r s' [= <- <-]. done. Qed.

Lemma within_sleep n : stays_within paths (sleep n).
Proof. intros s r s' [= <- <-]. done. Qed.

Lemma within_exists p : stays_within paths (os_path_exists p).
Proof. apply within_gets. Qed.

Lemma within_register p : stays_within paths (register p).
Proof.
  intros s r s' [= <- <-]. split; [done|]. split; [|done].
  intros _. apply register_current_is_active.
Qed.

Lemma within_unregister p : stays_within paths (unregister p).
Proof.
  intros s r s' [= <- <-]. split; [done|]. split.
  - apply unregister_current_is_active.
  - apply unregister_keeps_lock.
Qed.

Lemma within_remove p : p ∈ paths → stays_within paths (os_remove p).
Proof.
  intros Hp s r s'. unfold os_remove.
  destruct (disk s !! p); intros [= <- <-]; [|apply confined_refl].
  split; [|done]. cbn. intros q Hq. apply lookup_delete_ne. by intros ->.
Qed.

Lemma within_replace src dst :
  src ∈ paths → dst ∈ paths → stays_within paths (os_replace src dst).
Proof.
  intros Hsrc Hdst s r s'. unfold os_replace.
  destruct (disk s !! src); intros [= <- <-]; [|apply confined_refl].
  split; [|done]. cbn. intros q Hq.
  rewrite lookup_insert_ne, lookup_delete_ne; [done| |]; by intros ->.
Qed.

Lemma within_open_truncate refuse p :
  p ∈ paths → stays_within paths (open_truncate refuse p).
Proof.
  intros Hp s r s'. unfold open_truncate.
  destruct (refuse p); intros [= <- <-]; [apply confined_refl|].
  split; [|done]. cbn. intros q Hq. apply lookup_insert_ne. by intros ->.
Qed.

Lemma within_write p data : p ∈ paths → stays_within paths (file_write p data).
Proof.
  intros Hp s r s' [= <- <-]. split; [|done]. cbn. intros q Hq.
  apply lookup_insert_ne. by intros ->.
Qed.

Lemma within_when (b : bool) (m : M unit) :
  stays_within paths m → stays_within paths (when b m).
Proof. intros Hm. unfold when. destruct b; [done|apply within_ret]. Qed.

Lemma within_remove_if_exists p : p ∈ paths → stays_within paths (remove_if_exists p).
Proof.
  intros Hp. unfold remove_if_exists.
  apply within_bind; [apply within_exists|]. intros there.
  by apply within_when, within_remove.
Qed.

End ConfinedSteps.

Lemma within_modify paths (f : state → state) :
  (∀ s, disk (f s) = disk s ∧ reg (f s) = reg s) → stays_within paths (modify f).
Proof.
  intros Hf s r s' [= <- <-]. destruct (Hf s) as [Hd Hr].
  split; [by rewrite Hd|]. by rewrite Hr.
Qed.

Ltac within_with known :=
  repeat first
    [ known
    | apply within_ret | apply within_raise | apply within_lift | apply within_gets
    | apply within_log | apply within_report | apply within_sleep
    | apply within_exists | apply within_register | apply within_unregister
    | apply within_remove | apply within_replace | apply within_open_truncate
    | apply within_write | apply within_when | apply within_remove_if_exists
    | (apply within_modify; done)
    | (apply within_bind; [|intros ?]) | (apply within_try; [|intros ?])
    | solve [repeat constructor] ].

Ltac within := within_with fail.

Section ConfinedDownload.

Variable W : collaborators.
Variable self : EASY_DW.

Let song := self_song_path self.
Let temp := Py.replace song ".ogg" ".tmp".
Let paths := [song; temp].

Lemma within_write_stream st : stays_within paths (write_stream W self st).
Proof. unfold write_stream. fold song. repeat case_match; within. Qed.





Hypothesis Hconv : pf_convert_to (self_preferences self) = None.





End ConfinedDownload.


Section Confined.

Variable W : collaborators.


End Confined.

(** ** The further properties at work *)

Section FurtherRuns.

Import Scenario Environments.

(** A tagged file with the extension .opus is not recognised. *)
Lemma track_exists_misses_other_suffixes_witness :
  fst (track_exists online (item online "Song" 3) "Song" "Album"
         (with_file "out/Song.opus" "Song|Album|cover|audio" st0)) = Ok false.
Proof.
  apply track_exists_misses_other_suffixes.
  intros file Hin. vm_compute in Hin.
  apply list_elem_of_singleton in Hin as ->.
  repeat constructor.
Defined.

(** With the global count at 99, the first failure is the last although
    three retries are configured. *)
Lemma download_try_gives_up_witness :
  ∃ s', download_try offline (item offline "Song" 3) (set_retry_count 99 st0)
          = (Raise (PyError "Exception"
                      "Maximum retry limit reached (local: 3, global: 100)."), s') ∧
        feeder_calls s' = 1 ∧
        GLOBAL_RETRY_COUNT s' = 100 ∧
        trace s' =
          [Report (EvTrack {| te_status := progress; te_song := "Song";
                              te_artist := "Artist";
                              te_url := "https://open.spotify.com/track/id-Song";
                              te_retry := None; te_error := None; te_parent := None |});
           Report (EvTrack {| te_status := retrying; te_song := "Song";
                              te_artist := "Artist";
                              te_url := "https://open.spotify.com/track/id-Song";
                              te_retry := Some (1, 5);
                              te_error := Some "timed out"; te_parent := None |})].
Proof.
  destruct (download_try_gives_up offline (item offline "Song" 3)
              (λ _, timeout) (set_retry_count 99 st0))
    as (s' & Hrun & Hcalls & Hcount & _ & _ & Htrace).
  - intros n. reflexivity.
  - vm_compute. reflexivity.
  - exists s'. rewrite Htrace. split; [exact Hrun|]. split; [exact Hcalls|].
    split; [exact Hcount|]. reflexivity.
Defined.

(** After a transcoding to MP3 the track that comes back names the OGG
    path, where no file is. *)
Lemma download_try_returns_witness :
  ∃ self' s',
    download_try transcoder (mp3_item transcoder "Song") st0 = (Ok self', s') ∧
    song_path (self_c_track self') = Some "out/Song.ogg" ∧
    disk s' !! "out/Song.ogg" = None ∧
    is_Some (disk s' !! "out/Song.mp3").
Proof.
  destruct (download_try transcoder (mp3_item transcoder "Song") st0)
    as [[self'|e] s'] eqn:Hrun.
  - exists self', s'. split; [reflexivity|].
    destruct (download_try_returns transcoder _ _ _ _ Hrun)
      as [[Hfound _]|(_ & _ & Hpath & _)].
    + vm_compute in Hfound. discriminate.
    + split; [exact Hpath|]. vm_compute in Hrun. injection Hrun as _ <-.
      vm_compute. eauto.
  - vm_compute in Hrun. discriminate.
Defined.

(** Two timeouts, then the stream. *)
Lemma download_try_recovers_witness :
  ∃ s', download_try flaky (item flaky "Song" 3) st0
          = (Ok (item flaky "Song" 3), s') ∧
        feeder_calls s' = 3 ∧
        GLOBAL_RETRY_COUNT s' = 2 ∧
        statuses (trace s') = [progress; retrying; retrying; done] ∧
        is_Some (disk s' !! "out/Song.ogg") ∧
        disk s' !! "out/Song.tmp" = None.
Proof.
  destruct (download_try_recovers flaky (prefs "Song" 3) None (item flaky "Song" 3)
              (λ _, timeout) raw_stream "|||raw" "|||audio" 2 st0)
    as (s' & Hrun & Hcalls & Hcount & Htrace & Hsong & Htemp & _).
  - reflexivity.
  - vm_compute. reflexivity.
  - intros [|[|j]] Hj; [reflexivity|reflexivity|lia].
  - reflexivity.
  - vm_compute. lia.
  - vm_compute. lia.
  - reflexivity.
  - reflexivity.
  - reflexivity.
  - vm_compute. discriminate.
  - vm_compute. reflexivity.
  - vm_compute. reflexivity.
  - reflexivity.
  - reflexivity.
  - exists s'. rewrite Htrace. split; [exact Hrun|]. split; [exact Hcalls|].
    split; [exact Hcount|]. split; [reflexivity|]. split; [exact Hsong|exact Htemp].
Defined.

(** The file of a lone track that was downloaded is deleted at exit. *)
Lemma finished_download_is_deleted_by_cleanup_witness :
  ∃ s1 s2,
    download_try online (item online "Song" 3) st0 = (Ok (item online "Song" 3), s1) ∧
    is_Some (disk s1 !! "out/Song.ogg") ∧
    cleanup_active_downloads s1 = (Ok tt, s2) ∧
    disk s2 !! "out/Song.ogg" = None.
Proof.
  destruct (finished_download_is_deleted_by_cleanup online (prefs "Song" 3) None
              (item online "Song" 3) (λ _, timeout) raw_stream "|||raw" "|||audio" 0 st0)
    as (s1 & s2 & Hrun & Hsong & _ & Hclean & Hgone & _).
  - reflexivity.
  - vm_compute. reflexivity.
  - intros j Hj. lia.
  - reflexivity.
  - vm_compute. lia.
  - vm_compute. lia.
  - reflexivity.
  - reflexivity.
  - reflexivity.
  - vm_compute. discriminate.
  - vm_compute. reflexivity.
  - vm_compute. reflexivity.
  - reflexivity.
  - reflexivity.
  - reflexivity.
  - reflexivity.
  - exists s1, s2. split; [exact Hrun|]. split; [exact Hsong|].
    split; [exact Hclean|exact Hgone].
Defined.

(** The converter fails: the OGG file stays. *)
Lemma failed_transcoding_is_dropped_witness :
  ∃ s', __convert_audio failing_transcoder (mp3_item failing_transcoder "Song")
          (with_file "out/Song.ogg" "|||raw" st0)
          = (Ok (mp3_item failing_transcoder "Song"), s') ∧
        disk s' !! "out/Song.ogg" = Some "|||audio" ∧
        logs s' = ["Audio conversion error"].
Proof.
  destruct (failed_transcoding_is_dropped failing_transcoder
              (mp3_item failing_transcoder "Song")
              (with_file "out/Song.ogg" "|||raw" st0) "|||raw" "|||audio"
              "MP3_320K" "mp3" (Some "320k") (PyError "RuntimeError" "ffmpeg failed"))
    as (s' & Hrun & Hsong & _ & _ & Hlogs).
  - reflexivity.
  - reflexivity.
  - reflexivity.
  - reflexivity.
  - intros d g. reflexivity.
  - vm_compute. discriminate.
  - vm_compute. reflexivity.
  - vm_compute. reflexivity.
  - reflexivity.
  - exists s'. split; [exact Hrun|]. split; [exact Hsong|exact Hlogs].
Defined.

(** Two tracks announced, one described. *)
Lemma album_out_of_bounds_witness :
  ∃ e s', DW_ALBUM_dw online (prefs "Album" 1) short_album st0 = (Raise e, s').
Proof.
  apply album_out_of_bounds. left. vm_compute. lia.
Defined.

(** A track that was downloaded, in a playlist whose directory cannot be
    written. *)
Lemma refused_playlist_file_doubles_entry_witness :
  ∃ g' s',
    playlist_item readonly_playlists (prefs "Mix" 1) json "Mix" nothing_gathered 1
      (meta "Song") st0 = (Ok g', s') ∧
    length (g_tracks g') = 2 ∧
    g_failed_indices g' = [1] ∧
    is_Some (disk s' !! "out/Song.ogg").
Proof.
  destruct (easy_dw readonly_playlists (playlist_item_object readonly_playlists "Song" 1)
              st0) as [[track|e] s1] eqn:Hdw; [|vm_compute in Hdw; discriminate].
  destruct (refused_playlist_file_doubles_entry readonly_playlists (prefs "Mix" 1) json
              nothing_gathered 1 (meta "Song")
              (playlist_item_object readonly_playlists "Song" 1) track st0 s1)
    as (g' & s' & Hrun & Htracks & Hfailed & Hdisk).
  - reflexivity.
  - exact Hdw.
  - vm_compute in Hdw. injection Hdw as <- _. reflexivity.
  - vm_compute in Hdw. injection Hdw as <- _. reflexivity.
  - reflexivity.
  - exists g', s'. split; [exact Hrun|]. rewrite Htracks, Hfailed, Hdisk.
    split; [reflexivity|]. split; [reflexivity|].
    vm_compute in Hdw. injection Hdw as _ <-. vm_compute. eauto.
Defined.

(** The cover of the item cannot be fetched. *)
Lemma playlist_item_without_cover_witness :
  ∃ g' s',
    playlist_item (without_covers online) (prefs "Mix" 1) json "Mix" nothing_gathered 1
      (meta "Song") st0 = (Ok g', s') ∧
    g_tracks g' = [playlist_placeholder (meta "Song")] ∧
    g_failed_indices g' = [1] ∧
    trace s' = [] ∧ feeder_calls s' = 0.
Proof.
  destruct (playlist_item_without_cover (without_covers online) (prefs "Mix" 1) json
              "Mix" nothing_gathered 1 (meta "Song")
              (playlist_item_object (without_covers online) "Song" 1)
              (PyError "HTTPError" "404 Client Error") st0)
    as (g' & s' & Hrun & Htracks & Hfailed & _ & _ & _ & Htrace & Hcalls).
  - reflexivity.
  - reflexivity.
  - exists g', s'. split; [exact Hrun|]. split; [exact Htracks|].
    split; [exact Hfailed|]. split; [exact Htrace|exact Hcalls].
Defined.

(** An OGG file whose cover cannot be fetched. *)
Lemma write_tags_without_cover_witness :
  ∃ s', write_tags (without_covers online)
          (MTrack (self_c_track (item (without_covers online) "Song" 3)))
          (with_file "out/Song.ogg" "|||audio" st0) = (Ok tt, s') ∧
        disk s' !! "out/Song.ogg" = Some "Song|Album||audio".
Proof.
  destruct (write_tags_without_cover (without_covers online)
              (self_c_track (item (without_covers online) "Song" 3))
              "out/Song.ogg" "http://img" "|||audio"
              (with_file "out/Song.ogg" "|||audio" st0))
    as (s' & Hrun & Hdisk).
  - reflexivity.
  - reflexivity.
  - vm_compute. reflexivity.
  - reflexivity.
  - left. reflexivity.
  - exists s'. split; [exact Hrun|]. rewrite Hdisk. vm_compute. reflexivity.
Defined.

(** Two tracks of a playlist on a fresh disk. *)
Lemma m3u_header_is_written_once_witness :
  ∃ s1 s2,
    append_to_m3u online "out" "Mix" "out/a.ogg" st0 = (Ok tt, s1) ∧
    append_to_m3u online "out" "Mix" "out/b.ogg" s1 = (Ok tt, s2) ∧
    disk s2 !! "out/playlists/Mix.m3u"
      = Some ("#EXTM3U" +:+ newline +:+ "out/a.ogg" +:+ newline +:+
              "out/b.ogg" +:+ newline).
Proof.
  destruct (m3u_header_is_written_once online "out" "Mix" "out/a.ogg" "out/b.ogg" st0)
    as (s1 & s2 & Hfirst & Hsecond & Hcontent & _).
  - reflexivity.
  - vm_compute. reflexivity.
  - exists s1, s2. split; [exact Hfirst|]. split; [exact Hsecond|exact Hcontent].
Defined.

(** The track is on disk with its tags: nothing is acquired. *)
Lemma download_try_skips_witness :
  ∃ s', download_try online (item online "Song" 3)
          (with_file "out/Song.ogg" "Song|Album|cover|audio" st0)
          = (Ok (set_self_track
                   (set_was_skipped true
                      (set_success false (self_c_track (item online "Song" 3))))
                   (item online "Song" 3)), s') ∧
        feeder_calls s' = 0 ∧
        statuses (trace s') = [skipped].
Proof.
  destruct (download_try_skips online (item online "Song" 3)
              (with_file "out/Song.ogg" "Song|Album|cover|audio" st0))
    as (s' & Hrun & _ & _ & Hcalls & Htrace).
  - vm_compute. reflexivity.
  - exists s'. rewrite Htrace. split; [exact Hrun|]. split; [exact Hcalls|reflexivity].
Defined.

(** ffmpeg fails without the call raising: the raw file is lost. *)
Lemma normalization_outcomes_witness :
  ∃ r s', __convert_audio broken_ffmpeg (item broken_ffmpeg "Song" 3)
            (with_file "out/Song.ogg" "|||raw" st0) = (r, s') ∧
          disk s' !! "out/Song.tmp" = None ∧
          r = Ok (item broken_ffmpeg "Song" 3) ∧
          disk s' !! "out/Song.ogg" = None.
Proof.
  destruct (normalization_outcomes broken_ffmpeg (item broken_ffmpeg "Song" 3)
              (with_file "out/Song.ogg" "|||raw" st0) "|||raw")
    as (r & s' & Hrun & Htemp & Hcase).
  - reflexivity.
  - vm_compute. discriminate.
  - vm_compute. reflexivity.
  - vm_compute. reflexivity.
  - exists r, s'. split; [exact Hrun|]. split; [exact Htemp|exact Hcase].
Defined.

(** Three names, one of them twice. *)
Lemma most_frequent_is_a_mode_witness :
  ∃ x, most_frequent (λ name, name) remove_dups (ArtistList ["A"; "B"; "A"]) = Ok (Some x) ∧
       x ∈ ["A"; "B"; "A"] ∧ ∀ y, count ["A"; "B"; "A"] y ≤ count ["A"; "B"; "A"] x.
Proof.
  apply (most_frequent_is_a_mode (λ name, name) remove_dups ["A"; "B"; "A"]).
  intros x. apply elem_of_remove_dups.
Defined.

(** An episode whose acquisitions all time out. *)
Lemma download_eps_gives_up_witness :
  ∃ s', download_eps online (podcast (λ _, Raise timeout) "n")
          (episode_item online (podcast (λ _, Raise timeout) "n") "Talk") st0
          = (Raise (max_retries_exceeded 3 GLOBAL_MAX_RETRIES), s') ∧
        feeder_calls s' = 3 ∧
        trace s' = [Sleep 5; Sleep 15].
Proof.
  destruct (download_eps_gives_up online (podcast (λ _, Raise timeout) "n")
              (episode_item online (podcast (λ _, Raise timeout) "n") "Talk")
              "id-Talk" (λ _, timeout) st0)
    as (s' & Hrun & Hcalls & _ & _ & _ & Htrace).
  - reflexivity.
  - reflexivity.
  - intros n. reflexivity.
  - exists s'. split; [exact Hrun|]. split; [exact Hcalls|exact Htrace].
Defined.

(** An episode whose stream cannot be read. *)
Lemma download_eps_read_failure_witness :
  ∃ s', download_eps online (podcast (λ _, Ok unreadable) "n")
          (episode_item online (podcast (λ _, Ok unreadable) "n") "Talk") st0
          = (Raise (PyError "IOError" "read failed"), s') ∧
        feeder_calls s' = 1 ∧
        GLOBAL_RETRY_COUNT s' = 0 ∧
        disk s' = ∅.
Proof.
  destruct (download_eps_read_failure online (podcast (λ _, Ok unreadable) "n")
              (episode_item online (podcast (λ _, Ok unreadable) "n") "Talk")
              "id-Talk" unreadable (PyError "IOError" "read failed") st0)
    as (s' & Hrun & Hcalls & Hcount & Hdisk & _).
  - reflexivity.
  - reflexivity.
  - reflexivity.
  - reflexivity.
  - reflexivity.
  - reflexivity.
  - exists s'. split; [exact Hrun|]. split; [exact Hcalls|].
    split; [exact Hcount|exact Hdisk].
Defined.

(** The episode is on disk with its tags and the user answers "n". *)
Lemma download_eps_declined_witness :
  ∃ s', download_eps online (podcast (λ _, Ok raw_stream) "n")
          (episode_item online (podcast (λ _, Ok raw_stream) "n") "Talk")
          (with_file "out/Talk.ogg" "Talk|Album|cover|audio" st0)
          = (Ok (episode_item online (podcast (λ _, Ok raw_stream) "n") "Talk"), s') ∧
        feeder_calls s' = 0 ∧
        disk s' = disk (with_file "out/Talk.ogg" "Talk|Album|cover|audio" st0).
Proof.
  destruct (download_eps_declined online (podcast (λ _, Ok raw_stream) "n")
              (episode_item online (podcast (λ _, Ok raw_stream) "n") "Talk")
              (with_file "out/Talk.ogg" "Talk|Album|cover|audio" st0))
    as (s' & Hrun & Hdisk & _ & _ & Hcalls).
  - vm_compute. eauto.
  - vm_compute. reflexivity.
  - vm_compute. intros Hin.
    repeat (apply elem_of_cons in Hin as [Hin|Hin]; [discriminate|]).
    by apply elem_of_nil in Hin.
  - exists s'. split; [exact Hrun|]. split; [exact Hcalls|exact Hdisk].
Defined.

(** The call of ffmpeg raises: the retry finds no file. *)
Lemma conversion_retry_never_succeeds_witness :
  let event text :=
    Report (EvTrack {| te_status := error; te_song := "Song"; te_artist := "Artist";
                       te_url := "https://open.spotify.com/track/id-Song";
                       te_retry := None; te_error := Some text; te_parent := None |}) in
  ∃ s', convert_with_retry no_ffmpeg (item no_ffmpeg "Song" 3) 5
          (with_file "out/Song.ogg" "|||raw" st0)
          = (Raise (PyError "FileNotFoundError" "out/Song.ogg"), s') ∧
        disk s' !! "out/Song.ogg" = None ∧
        trace s' = [event "FFmpeg error - Audio conversion failed"; Sleep 5;
                    event "Audio conversion failed after retry"].
Proof.
  destruct (__convert_audio no_ffmpeg (item no_ffmpeg "Song" 3)
              (with_file "out/Song.ogg" "|||raw" st0)) as [[self'|e] s1] eqn:Hfirst;
    [vm_compute in Hfirst; discriminate|].
  destruct (conversion_retry_never_succeeds no_ffmpeg (item no_ffmpeg "Song" 3) 5
              (with_file "out/Song.ogg" "|||raw" st0) e s1 Hfirst)
    as (s' & Hrun & Hdisk & _ & Htrace).
  exists s'. split; [exact Hrun|]. split.
  - rewrite Hdisk. apply lookup_delete_eq.
  - rewrite Htrace. vm_compute in Hfirst. injection Hfirst as <- <-. reflexivity.
Defined.


(** The statement on entries at work.  A playlist of a track that is
    downloaded, an error string and a track whose acquisitions time out holds
    two entries: the downloaded track with its path, then the placeholder
    of the track that failed.  An album of two tracks that are downloaded
    holds both, in order. *)
Lemma aggregate_entries_witness :
  (∃ pl s',
     DW_PLAYLIST_dw fed_once (prefs "Mix" 1) json
       [Resolved (meta "A"); Unresolved "Track not found"; Resolved (meta "B")] st0
       = (Ok pl, s') ∧
     success <$> playlist_tracks pl = [true; false] ∧
     song_path <$> playlist_tracks pl = [Some "out/A.ogg"; None] ∧
     playlist_tracks pl !! 1 = Some (playlist_placeholder (meta "B")) ∧
     length (playlist_tracks pl) + 1 = 3) ∧
  (∃ al s',
     DW_ALBUM_dw online (prefs "Album" 1) two_track_album st0 = (Ok al, s') ∧
     success <$> album_tracks al = [true; true] ∧
     song_path <$> album_tracks al = [Some "out/A.ogg"; Some "out/B.ogg"] ∧
     length (album_tracks al) = 2).
Proof.
  split.
  - destruct (proj1 (aggregate_entries fed_once (prefs "Mix" 1)) json
                [Resolved (meta "A"); Unresolved "Track not found"; Resolved (meta "B")]
                st0)
      as (pl & s' & Hrun & Htracks & Hlength); [reflexivity|].
    exists pl, s'. split; [exact Hrun|]. rewrite Htracks.
    vm_compute. repeat split; reflexivity.
  - assert (∃ al s', DW_ALBUM_dw online (prefs "Album" 1) two_track_album st0
                     = (Ok al, s')) as (al & s' & Hrun)
      by (vm_compute; eauto).
    destruct (proj1 (proj2 (aggregate_entries online (prefs "Album" 1)))
                two_track_album st0 al s' Hrun)
      as (image & Himage & Htracks & Hlength).
    vm_compute in Himage. injection Himage as <-.
    exists al, s'. split; [exact Hrun|]. rewrite Htracks.
    vm_compute. repeat split; reflexivity.
Defined.

(** C9, on a run: a playlist of two tracks is downloaded to the end, then
    the termination signal arrives.  Both files are finished and on disk,
    yet the current pointer still names the second one: the cleanup deletes
    it as an incomplete download.  The first file is left, and its path is
    still in the active set afterwards: the registry is not cleared. *)
Lemma cleanup_deletes_a_finished_download :
  let items := [Resolved (meta "A"); Resolved (meta "B")] in
  let r := DW_PLAYLIST_dw online (prefs "Mix" 1) json items st0 in
  let s2 := snd (signal_handler (snd r)) in
  (∃ pl, fst r = Ok pl ∧ success <$> playlist_tracks pl = [true; true]) ∧
  is_Some (disk (snd r) !! "out/A.ogg") ∧
  is_Some (disk (snd r) !! "out/B.ogg") ∧
  CURRENT_DOWNLOAD (reg (snd r)) = Some "out/B.ogg" ∧
  disk s2 !! "out/B.ogg" = None ∧
  is_Some (disk s2 !! "out/A.ogg") ∧
  "Removing incomplete download" ∈ logs s2 ∧
  bool_decide ("out/A.ogg" ∈ ACTIVE_DOWNLOADS (reg s2)) = true.
Proof.
  vm_compute. split; [eexists; split; reflexivity|].
  split; [eauto|]. split; [eauto|]. split; [reflexivity|]. split; [reflexivity|].
  split; [eauto|]. split; [|reflexivity].
  repeat first [by left | right].
Qed.

End FurtherRuns.
